(** * Voice turn pipeline: the server-side turn graph and the client-side
      playback and recording handlers, embedded from the TypeScript sources.

    - [TurnGraph]  : apps/agents/src/react-agent/{speech-to-text,text-to-speech,graph}.ts
    - [TTSPlayer]  : the [useTTSPlayer] hook
    - [VoiceSession] : apps/web/src/components/voice-only-interface.tsx

    JavaScript exceptions, mutable refs and calls to external services are
    made explicit: every handler is a computation in a state-and-exception
    monad whose state carries the mutable world (refs, React state, the log
    of calls made to collaborators). *)

From Stdlib Require Import String Ascii List Bool Arith NArith Lia.
From Stdlib Require Import Strings.Byte.
From Stdlib Require Import DecimalString.
Import ListNotations.
Open Scope string_scope.
Open Scope list_scope.

(** ** Exceptions and the handler monad *)

(** A thrown JavaScript [Error]: its [name] and [message]. *)
Record Exn : Type := Error { exn_name : string; exn_message : string }.

Definition mkError (msg : string) : Exn := Error "Error" msg.

(** How a call ends: it returns a value or throws. *)
Inductive Outcome (A : Type) : Type :=
| Return (a : A)
| Throw (e : Exn).
Arguments Return {A} a.
Arguments Throw {A} e.

Section Monad.
Context {St : Type}.

(** A computation reads and writes the world [St]; writes made before a
    throw are kept, as in JavaScript. *)
Definition M (A : Type) : Type := St -> Outcome A * St.

Definition ret {A} (a : A) : M A := fun s => (Return a, s).

Definition throw {A} (e : Exn) : M A := fun s => (Throw e, s).

Definition bind {A B} (m : M A) (k : A -> M B) : M B :=
  fun s => match m s with
           | (Return a, s') => k a s'
           | (Throw e, s') => (Throw e, s')
           end.

(** [try { m } catch (e) { h e }] *)
Definition try_catch {A} (m : M A) (h : Exn -> M A) : M A :=
  fun s => match m s with
           | (Return a, s') => (Return a, s')
           | (Throw e, s') => h e s'
           end.

(** [try { m } finally { f }]: [f] runs on both exits; the outcome of [m]
    is kept unless [f] itself throws. *)
Definition try_finally {A} (m : M A) (f : M unit) : M A :=
  fun s => match m s with
           | (r, s') => match f s' with
                        | (Return _, s'') => (r, s'')
                        | (Throw e, s'') => (Throw e, s'')
                        end
           end.

Definition get : M St := fun s => (Return s, s).
Definition modify (f : St -> St) : M unit := fun s => (Return tt, f s).

(** Lift the outcome of an external call. *)
Definition lift {A} (o : Outcome A) : M A := fun s => (o, s).
End Monad.

Declare Scope js_scope.
Delimit Scope js_scope with js.
Notation "x <- m ;; k" := (bind m (fun x => k))
  (at level 61, m at next level, right associativity) : js_scope.
Notation "m ;; k" := (bind m (fun _ => k))
  (at level 61, right associativity) : js_scope.
Open Scope js_scope.

(** JavaScript truthiness of a [string | undefined]. *)
Definition truthy (o : option string) : bool :=
  match o with
  | Some s => negb (s =? "")
  | None => false
  end.

(** [a || b] on strings. *)
Definition or_else (o : option string) (d : string) : string :=
  match o with
  | Some s => if s =? "" then d else s
  | None => d
  end.

(** * The server-side turn graph *)
Module TurnGraph.

(** ** Data model *)

(** The message classes the stages distinguish with [instanceof]. *)
Inductive MessageKind : Type := Human | AI | AIChunk | System | Tool.

(** [content: string | MessageContentComplex[]] *)
Inductive Content : Type :=
| Text (s : string)
| Parts (ps : list string).

Record Message : Type := { kind : MessageKind; content : Content }.

Definition HumanMessage (c : string) : Message :=
  {| kind := Human; content := Text c |}.

(** [SpeechInput]; [audioData] is checked for absence at run time. *)
Record SpeechInput : Type :=
  { audioData : option string; mimeType : option string; size : option N }.

Record TTSOutput : Type :=
  { tts_audioData : string; tts_mimeType : string; tts_size : N }.

(** [SpeechAnnotation.State] *)
Record TurnState : Type :=
  { messages : list Message;
    audioInput : option SpeechInput;
    ttsOutput : option TTSOutput }.

(** [SpeechAnnotation.Update]: a key may be missing ([None]), or present
    with a value; for the two optional channels the value may be
    [undefined] ([Some None]). *)
Record Update : Type :=
  { u_messages : option (list Message);
    u_audioInput : option (option SpeechInput);
    u_ttsOutput : option (option TTSOutput) }.

Definition emptyUpdate : Update :=
  {| u_messages := None; u_audioInput := None; u_ttsOutput := None |}.

(** The channels declared by [SpeechAnnotation]: [messages] has the
    appending reducer of [MessagesAnnotation], the two others keep the
    last value written. *)
Definition applyUpdate (s : TurnState) (u : Update) : TurnState :=
  {| messages := match u_messages u with
                 | Some ms => messages s ++ ms
                 | None => messages s
                 end;
     audioInput := match u_audioInput u with
                   | Some v => v
                   | None => audioInput s
                   end;
     ttsOutput := match u_ttsOutput u with
                  | Some v => v
                  | None => ttsOutput s
                  end |}.

(** ** Environment and collaborators *)

Record Env : Type :=
  { OPENAI_API_KEY : option string;
    ELEVENLABS_API_KEY : option string;
    ELEVENLABS_VOICE_ID : option string;
    (** [Buffer.from(base64, 'base64')] *)
    base64ToBuffer : string -> list byte;
    (** [OpenAI.toFile(buffer, fileName)] then
        [openai.audio.transcriptions.create] *)
    transcriptions_create : list byte -> string -> Outcome string;
    (** configuration, model loading and [reactAgent.invoke]; the
        returned list is [result.messages] *)
    reactAgent_invoke : list Message -> Outcome (list Message);
    (** [elevenlabs.textToSpeech.convert(voiceId, {text, ...})] and the
        chunks read from the returned stream *)
    textToSpeech_convert : string -> string -> Outcome (list (list byte));
    (** creating [tts-outputs/] and [fs.writeFileSync] *)
    writeFileSync : list byte -> Outcome unit;
    (** [audioBuffer.toString('base64')] *)
    toBase64 : list byte -> string }.

(** What the graph does to the outside world, in order. *)
Inductive Call : Type :=
| EnterNode (name : string)
| Transcribe (buffer : list byte) (fileName mimeType : string)
| InvokeAgent (input : list Message)
| Convert (voiceId text : string)
| WriteFile (data : list byte).

Definition Log : Type := list Call.

Definition call {A} (c : Call) (o : Outcome A) : M (St := Log) A :=
  modify (fun l => l ++ [c]) ;; lift o.

(** ** Stage 1: [speech_to_text] *)

Record Format : Type := { name : string; type : string }.

Definition formats : list Format :=
  [ {| name := "audio.wav"; type := "audio/wav" |};
    {| name := "audio.webm"; type := "audio/webm" |};
    {| name := "audio.mp3"; type := "audio/mp3" |};
    {| name := "audio.m4a"; type := "audio/m4a" |};
    {| name := "audio.ogg"; type := "audio/ogg" |} ].

Definition apology : string :=
  "Sorry, I couldn't process your voice message. Please try again or type your message.".

Definition attemptTranscription (env : Env) (buffer : list byte)
    (fileName mimeType : string) : M string :=
  call (Transcribe buffer fileName mimeType)
       (transcriptions_create env buffer fileName).

Definition transcribed (transcription : string) : Update :=
  {| u_messages := Some [HumanMessage transcription];
     u_audioInput := Some None;
     u_ttsOutput := None |}.

(** The [for (const format of formats)] loop with its inner [try]/[catch]
    and the [throw lastError || ...] that follows it. *)
Fixpoint try_formats (env : Env) (audioBuffer : list byte)
    (fs : list Format) (lastError : option Exn) : M (St := Log) Update :=
  match fs with
  | [] =>
      throw (match lastError with
             | Some e => e
             | None => mkError "All audio formats failed"
             end)
  | format :: rest =>
      try_catch
        (transcription <-
           attemptTranscription env audioBuffer (name format) (type format) ;;
         ret (transcribed transcription))
        (fun error => try_formats env audioBuffer rest (Some error))
  end.

Definition speech_to_text (env : Env) (state : TurnState) : M (St := Log) Update :=
  match audioInput state with
  | None => ret emptyUpdate
  | Some audioInput =>
      try_catch
        (if negb (truthy (OPENAI_API_KEY env))
         then throw (mkError "OpenAI API key not configured")
         else
           match audioData audioInput with
           | None =>
               throw (mkError "Audio data appears to be empty or too short")
           | Some data =>
               if (data =? "") || Nat.ltb (String.length data) 100
               then throw (mkError "Audio data appears to be empty or too short")
               else
                 let audioBuffer := base64ToBuffer env data in
                 try_formats env audioBuffer formats None
           end)
        (fun _ => ret (transcribed apology))
  end.

(** ** Stage 2: [react_agent_node] *)

(** No [try]/[catch] here: whatever the agent throws leaves the node. *)
Definition react_agent_node (env : Env) (state : TurnState) : M (St := Log) Update :=
  result <- call (InvokeAgent (messages state))
                 (reactAgent_invoke env (messages state)) ;;
  let newMessages := skipn (length (messages state)) result in
  ret {| u_messages := Some newMessages;
         u_audioInput := None;
         u_ttsOutput := None |}.

(** ** Stage 3: [text_to_speech] *)

(** [messages[messages.length - 1]], [undefined] on the empty list. *)
Definition lastMessageOf (ms : list Message) : option Message :=
  match ms with
  | [] => None
  | _ => nth_error ms (length ms - 1)
  end.

(** [m instanceof AIMessage || m instanceof AIMessageChunk] *)
Definition isAI (m : Message) : bool :=
  match kind m with
  | AI | AIChunk => true
  | _ => false
  end.

(** [{ ttsOutput: undefined }] *)
Definition noTTS : Update :=
  {| u_messages := None; u_audioInput := None; u_ttsOutput := Some None |}.

Definition defaultVoice : string := "21m00Tcm4TlvDq8ikWAM".

Definition text_to_speech (env : Env) (state : TurnState) : M (St := Log) Update :=
  match lastMessageOf (messages state) with
  | None => ret noTTS
  | Some lastMessage =>
      if negb (isAI lastMessage) then ret noTTS
      else
        match content lastMessage with
        | Parts _ => ret noTTS
        | Text textContent =>
            if textContent =? "" then ret noTTS
            else
              try_catch
                (if negb (truthy (ELEVENLABS_API_KEY env))
                 then throw (mkError "ElevenLabs API key not configured")
                 else
                   let voiceId := or_else (ELEVENLABS_VOICE_ID env) defaultVoice in
                   chunks <- call (Convert voiceId textContent)
                                  (textToSpeech_convert env voiceId textContent) ;;
                   let audioBuffer := concat chunks in
                   try_catch
                     (call (WriteFile audioBuffer) (writeFileSync env audioBuffer))
                     (fun _ => ret tt) ;;
                   let base64Audio := toBase64 env audioBuffer in
                   ret {| u_messages := None;
                          u_audioInput := None;
                          u_ttsOutput :=
                            Some (Some {| tts_audioData := base64Audio;
                                          tts_mimeType := "audio/mpeg";
                                          tts_size := N.of_nat (length audioBuffer) |}) |})
                (fun _ => ret noTTS)
        end
  end.

(** ** The compiled graph: start, STT, ReAct agent, TTS, end *)

(** Running one node: its update is merged into the state; a throw is not
    handled by the graph. *)
Definition node (nodeName : string) (f : TurnState -> M (St := Log) Update)
    (s : TurnState) : M (St := Log) TurnState :=
  modify (fun l => l ++ [EnterNode nodeName]) ;;
  u <- f s ;;
  ret (applyUpdate s u).

Definition graph (env : Env) (s : TurnState) : M (St := Log) TurnState :=
  s1 <- node "speech_to_text" (speech_to_text env) s ;;
  s2 <- node "react_agent" (react_agent_node env) s1 ;;
  node "text_to_speech" (text_to_speech env) s2.

(** The part of the graph that follows the transcribe stage. *)
Definition after_transcribe (env : Env) (s1 : TurnState) : M (St := Log) TurnState :=
  s2 <- node "react_agent" (react_agent_node env) s1 ;;
  node "text_to_speech" (text_to_speech env) s2.

Definition runTurn := graph.

End TurnGraph.

(** Template-literal rendering of a non-negative integer. *)
Definition showN (n : N) : string := NilEmpty.string_of_uint (N.to_uint n).

(** * The [useTTSPlayer] hook *)
Module TTSPlayer.

Record TTSOutput : Type :=
  { audioData : string; mimeType : string; size : N }.

(** An [HTMLAudioElement] created by [playTTS]. Its listeners are closures
    of the call that created it: [captured] is the [currentTTSUrl] that
    call saw. *)
Record Audio : Type :=
  { src : string; currentTime : nat; captured : option string }.

Inductive Effect : Type :=
| AudioPause
| AudioLoad
| RevokeObjectURL (url : string)
| CreateObjectURL (url : string)
| NewAudio
| PlayCalled
| PlayStarted
| ToastSuccess (title : string)
| ToastError (title description : string).

(** Refs and React state of the hook, and the effects performed so far. *)
Record Player : Type :=
  { audioRef : option Audio;
    isPlaying : bool;
    currentTTSUrl : option string;
    lastPlayedDataRef : option string;
    log : list Effect }.

Definition set_audioRef (a : option Audio) (p : Player) : Player :=
  {| audioRef := a; isPlaying := isPlaying p; currentTTSUrl := currentTTSUrl p;
     lastPlayedDataRef := lastPlayedDataRef p; log := log p |}.
Definition setIsPlaying (b : bool) (p : Player) : Player :=
  {| audioRef := audioRef p; isPlaying := b; currentTTSUrl := currentTTSUrl p;
     lastPlayedDataRef := lastPlayedDataRef p; log := log p |}.
Definition setCurrentTTSUrl (u : option string) (p : Player) : Player :=
  {| audioRef := audioRef p; isPlaying := isPlaying p; currentTTSUrl := u;
     lastPlayedDataRef := lastPlayedDataRef p; log := log p |}.
Definition set_lastPlayedDataRef (h : option string) (p : Player) : Player :=
  {| audioRef := audioRef p; isPlaying := isPlaying p; currentTTSUrl := currentTTSUrl p;
     lastPlayedDataRef := h; log := log p |}.
Definition emit (e : Effect) (p : Player) : Player :=
  {| audioRef := audioRef p; isPlaying := isPlaying p; currentTTSUrl := currentTTSUrl p;
     lastPlayedDataRef := lastPlayedDataRef p; log := log p ++ [e] |}.

(** What the browser answers during one call of [playTTS]. *)
Record Browser : Type :=
  { atob : string -> Outcome string;
    createObjectURL : string;
    play : Outcome unit }.

(** [`${ttsOutput.size}-${ttsOutput.audioData.substring(0, 50)}`] *)
Definition audioHash (ttsOutput : TTSOutput) : string :=
  (showN (size ttsOutput) ++ "-" ++ substring 0 50 (audioData ttsOutput))%string.

(** [if (currentTTSUrl) { URL.revokeObjectURL(currentTTSUrl); setCurrentTTSUrl(null); }]
    on the value the closure captured. *)
Definition revoke_captured (closureUrl : option string) : M (St := Player) unit :=
  match closureUrl with
  | Some url =>
      if url =? "" then ret tt
      else modify (emit (RevokeObjectURL url)) ;;
           modify (setCurrentTTSUrl None)
  | None => ret tt
  end.

(** [playTTS] as created by a render in which [currentTTSUrl] had the value
    [closureUrl]. *)
Definition playTTS (closureUrl : option string) (browser : Browser)
    (ttsOutput : TTSOutput) : M (St := Player) unit :=
  try_catch
    (let audioHash := audioHash ttsOutput in
     p <- get ;;
     if match lastPlayedDataRef p with
        | Some last => last =? audioHash
        | None => false
        end
     then ret tt
     else
       modify (set_lastPlayedDataRef (Some audioHash)) ;;
       match audioRef p with
       | Some a =>
           modify (emit AudioPause) ;;
           modify (set_audioRef
                     (Some {| src := ""; currentTime := currentTime a;
                              captured := captured a |})) ;;
           modify (emit AudioLoad)
       | None => ret tt
       end ;;
       revoke_captured closureUrl ;;
       binaryString <- lift (atob browser (audioData ttsOutput)) ;;
       (if Nat.eqb (String.length binaryString) 0
        then throw (mkError "Audio blob is empty")
        else ret tt) ;;
       let audioUrl := createObjectURL browser in
       modify (emit (CreateObjectURL audioUrl)) ;;
       modify (setCurrentTTSUrl (Some audioUrl)) ;;
       modify (emit NewAudio) ;;
       modify (set_audioRef
                 (Some {| src := audioUrl; currentTime := 0;
                          captured := closureUrl |})) ;;
       modify (emit PlayCalled) ;;
       lift (play browser) ;;
       modify (emit PlayStarted))
    (fun error =>
       modify (setIsPlaying false) ;;
       modify (set_lastPlayedDataRef None) ;;
       revoke_captured closureUrl ;;
       modify (emit (ToastError "TTS playback failed" (exn_message error)))).

(** The listeners [playTTS] attaches to the audio element [a]. *)
Definition onLoadstart : M (St := Player) unit := modify (setIsPlaying true).

Definition onPlaying : M (St := Player) unit :=
  modify (emit (ToastSuccess "🔊 Playing AI response")).

Definition onEnded (a : Audio) : M (St := Player) unit :=
  modify (setIsPlaying false) ;;
  modify (set_lastPlayedDataRef None) ;;
  revoke_captured (captured a).

Definition onError : M (St := Player) unit :=
  modify (setIsPlaying false) ;;
  modify (set_lastPlayedDataRef None).

Definition stopTTS : M (St := Player) unit :=
  p <- get ;;
  match audioRef p with
  | Some a =>
      modify (emit AudioPause) ;;
      modify (set_audioRef
                (Some {| src := src a; currentTime := 0; captured := captured a |})) ;;
      modify (setIsPlaying false)
  | None => ret tt
  end ;;
  modify (set_lastPlayedDataRef None).

(** How a playback that was started can come to its end. *)
Inductive Ending : Type :=
| Ended (a : Audio)
| Errored
| Stopped.

Definition finish (e : Ending) : M (St := Player) unit :=
  match e with
  | Ended a => onEnded a
  | Errored => onError
  | Stopped => stopTTS
  end.

(** Number of playbacks started, and of audio elements created,
    according to a log. *)
Definition is_start (e : Effect) : bool :=
  match e with PlayStarted => true | _ => false end.
Definition is_new (e : Effect) : bool :=
  match e with NewAudio => true | _ => false end.
Definition started (l : list Effect) : nat := length (filter is_start l).
Definition created (l : list Effect) : nat := length (filter is_new l).

(** What a call of [playTTS] can do: drop the delivery, start a playback
    and keep its fingerprint, or fail and forget the fingerprint. *)
Inductive Verdict (ttsOutput : TTSOutput) (p p' : Player) : Prop :=
| Dropped :
    lastPlayedDataRef p = Some (audioHash ttsOutput) ->
    p' = p ->
    Verdict ttsOutput p p'
| Playing :
    lastPlayedDataRef p <> Some (audioHash ttsOutput) ->
    lastPlayedDataRef p' = Some (audioHash ttsOutput) ->
    started (log p') = started (log p) + 1 ->
    created (log p') = created (log p) + 1 ->
    Verdict ttsOutput p p'
| Failed :
    lastPlayedDataRef p <> Some (audioHash ttsOutput) ->
    lastPlayedDataRef p' = None ->
    started (log p') = started (log p) ->
    Verdict ttsOutput p p'.

End TTSPlayer.

(** * The voice-only interface component *)
Module VoiceSession.

(** Modelled from the spec: the states of a recording session, held by the
    [useSpeechRecording] hook, which is not among the sources read here. *)
Inductive RecordingState : Type := idle | requesting | recording | stopping.

(** The values of [getButtonState]. *)
Inductive ButtonState : Type :=
| error_state | processing | playing | recording_state | requesting_state | idle_state.

Record Blob : Type := { blob_size : N; blob_type : string }.

(** [stream.values.ttsOutput] *)
Record TTSOutput : Type :=
  { audioData : string; mimeType : string; size : N }.

(** What one render of the component sees: its React state, and the values
    handed to it by [useStreamContext] and [useSpeechRecording]. Handlers
    are closures over one such render. The audio level and the frequency
    data, which only drive the visualizer, are left out. *)
Record View : Type :=
  { isProcessingVoice : bool;
    isPlayingAudio : bool;
    hasUserInteracted : bool;
    lastProcessedMessageId : option string;
    processingTimeoutId : option nat;
    stream_isLoading : bool;
    recordingState : RecordingState;
    recordingError : option string }.

Inductive Effect : Type :=
| SetTimeout (id : nat) (ms : N)
| ClearTimeout (id : nat)
| ToastError (title description : string)
| ToastSuccess (title description : string)
| ToastInfo (title description : string)
| Submit (audioData mimeType : string) (size : N)
| StartRecording
| StopRecording
| PlayAudioFromBase64 (audioData : string).

(** The mutable world of the component: the state the next render will
    see, the pending timers with their delays, and the effects so far. *)
Record World : Type :=
  { view : View;
    timers : list (nat * N);
    nextTimer : nat;
    log : list Effect }.

Definition on_view (f : View -> View) (w : World) : World :=
  {| view := f (view w); timers := timers w; nextTimer := nextTimer w; log := log w |}.

Definition emit (e : Effect) (w : World) : World :=
  {| view := view w; timers := timers w; nextTimer := nextTimer w;
     log := log w ++ [e] |}.

Definition setIsProcessingVoice (b : bool) : M (St := World) unit :=
  modify (on_view (fun v =>
    {| isProcessingVoice := b; isPlayingAudio := isPlayingAudio v;
       hasUserInteracted := hasUserInteracted v;
       lastProcessedMessageId := lastProcessedMessageId v;
       processingTimeoutId := processingTimeoutId v;
       stream_isLoading := stream_isLoading v;
       recordingState := recordingState v; recordingError := recordingError v |})).

Definition setHasUserInteracted (b : bool) : M (St := World) unit :=
  modify (on_view (fun v =>
    {| isProcessingVoice := isProcessingVoice v; isPlayingAudio := isPlayingAudio v;
       hasUserInteracted := b;
       lastProcessedMessageId := lastProcessedMessageId v;
       processingTimeoutId := processingTimeoutId v;
       stream_isLoading := stream_isLoading v;
       recordingState := recordingState v; recordingError := recordingError v |})).

Definition setLastProcessedMessageId (i : option string) : M (St := World) unit :=
  modify (on_view (fun v =>
    {| isProcessingVoice := isProcessingVoice v; isPlayingAudio := isPlayingAudio v;
       hasUserInteracted := hasUserInteracted v;
       lastProcessedMessageId := i;
       processingTimeoutId := processingTimeoutId v;
       stream_isLoading := stream_isLoading v;
       recordingState := recordingState v; recordingError := recordingError v |})).

Definition setProcessingTimeoutId (i : option nat) : M (St := World) unit :=
  modify (on_view (fun v =>
    {| isProcessingVoice := isProcessingVoice v; isPlayingAudio := isPlayingAudio v;
       hasUserInteracted := hasUserInteracted v;
       lastProcessedMessageId := lastProcessedMessageId v;
       processingTimeoutId := i;
       stream_isLoading := stream_isLoading v;
       recordingState := recordingState v; recordingError := recordingError v |})).

(** The stream provider changes [stream.isLoading]: [true] from a
    submission until its result has arrived. *)
Definition stream_setLoading (b : bool) : M (St := World) unit :=
  modify (on_view (fun v =>
    {| isProcessingVoice := isProcessingVoice v; isPlayingAudio := isPlayingAudio v;
       hasUserInteracted := hasUserInteracted v;
       lastProcessedMessageId := lastProcessedMessageId v;
       processingTimeoutId := processingTimeoutId v;
       stream_isLoading := b;
       recordingState := recordingState v; recordingError := recordingError v |})).

(** The recording hook changes [recordingState]. *)
Definition recorder_setState (r : RecordingState) : M (St := World) unit :=
  modify (on_view (fun v =>
    {| isProcessingVoice := isProcessingVoice v; isPlayingAudio := isPlayingAudio v;
       hasUserInteracted := hasUserInteracted v;
       lastProcessedMessageId := lastProcessedMessageId v;
       processingTimeoutId := processingTimeoutId v;
       stream_isLoading := stream_isLoading v;
       recordingState := r; recordingError := recordingError v |})).

Definition toast_error (title description : string) : M (St := World) unit :=
  modify (emit (ToastError title description)).
Definition toast_success (title description : string) : M (St := World) unit :=
  modify (emit (ToastSuccess title description)).
Definition toast_info (title description : string) : M (St := World) unit :=
  modify (emit (ToastInfo title description)).

(** ** Timers *)

(** [setTimeout(callback, ms)]: a fresh identifier, pending until it fires
    or is cleared. *)
Definition setTimeout (ms : N) : M (St := World) nat :=
  fun w =>
    (Return (nextTimer w),
     {| view := view w;
        timers := timers w ++ [(nextTimer w, ms)];
        nextTimer := S (nextTimer w);
        log := log w ++ [SetTimeout (nextTimer w) ms] |}).

Definition clearTimeout (id : nat) : M (St := World) unit :=
  fun w =>
    (Return tt,
     {| view := view w;
        timers := filter (fun t => negb (Nat.eqb (fst t) id)) (timers w);
        nextTimer := nextTimer w;
        log := log w ++ [ClearTimeout id] |}).

Definition pending (id : nat) (w : World) : bool :=
  existsb (fun t => Nat.eqb (fst t) id) (timers w).

(** The callback given to [setTimeout] by [handleVoiceRecordingComplete]. *)
Definition processing_timed_out : M (St := World) unit :=
  setIsProcessingVoice false ;;
  toast_error "Processing timed out" "Please try recording a shorter message.".

(** The event loop fires timer [id]: nothing happens unless it is pending. *)
Definition fire (id : nat) : M (St := World) unit :=
  w <- get ;;
  if pending id w
  then modify (fun w =>
                 {| view := view w;
                    timers := filter (fun t => negb (Nat.eqb (fst t) id)) (timers w);
                    nextTimer := nextTimer w;
                    log := log w |}) ;;
       processing_timed_out
  else ret tt.

(** ** Handlers *)

(** What the browser, the stream and the recorder answer during a call. *)
Record Env : Type :=
  { (** [audioBlob.arrayBuffer()], the chunked [String.fromCharCode] and
        [btoa] *)
    toBase64 : Blob -> Outcome string;
    ensureToolCallsHaveResponses : Outcome unit;
    stream_submit : Outcome unit;
    startRecording : Outcome unit;
    stopRecording : Outcome (option Blob) }.

Definition maxSize : N := 50 * 1024 * 1024.

(** [handleVoiceRecordingComplete] of the render [c]. *)
Definition handleVoiceRecordingComplete (c : View) (env : Env) (audioBlob : Blob)
    : M (St := World) unit :=
  if stream_isLoading c then ret tt
  else
    setIsProcessingVoice true ;;
    timeoutId <- setTimeout 60000 ;;
    setProcessingTimeoutId (Some timeoutId) ;;
    try_finally
      (try_catch
         (if (maxSize <? blob_size audioBlob)%N
          then toast_error "Audio file too large"
                           "Please record a shorter message (max 50MB)."
          else
            converted <-
              try_catch
                (base64Audio <- lift (toBase64 env audioBlob) ;;
                 ret (Some base64Audio))
                (fun _ =>
                   toast_error "Failed to process audio"
                               "Audio file format not supported." ;;
                   ret None) ;;
            match converted with
            | None => ret tt
            | Some base64Audio =>
                lift (ensureToolCallsHaveResponses env) ;;
                modify (emit (Submit base64Audio (blob_type audioBlob)
                                     (blob_size audioBlob))) ;;
                lift (stream_submit env) ;;
                toast_success "Voice message sent!" "Processing your request..."
            end)
         (fun _ =>
            toast_error "Failed to process voice recording" "Please try again."))
      (match processingTimeoutId c with
       | Some id => clearTimeout id ;; setProcessingTimeoutId None
       | None => ret tt
       end ;;
       setIsProcessingVoice false).

(** [handleRecordingToggle] of the render [c]. *)
Definition handleRecordingToggle (c : View) (env : Env) : M (St := World) unit :=
  if isProcessingVoice c || stream_isLoading c then ret tt
  else
    (if negb (hasUserInteracted c) then setHasUserInteracted true else ret tt) ;;
    match recordingState c with
    | idle =>
        modify (emit StartRecording) ;;
        lift (startRecording env)
    | recording =>
        modify (emit StopRecording) ;;
        audioBlob <- lift (stopRecording env) ;;
        match audioBlob with
        | Some audioBlob => handleVoiceRecordingComplete c env audioBlob
        | None => ret tt
        end
    | _ => ret tt
    end.

(** [getButtonState] of the render [c]. *)
Definition getButtonState (c : View) : ButtonState :=
  if truthy (recordingError c) then error_state
  else if isProcessingVoice c || stream_isLoading c then processing
  else if isPlayingAudio c then playing
  else match recordingState c with
       | recording => recording_state
       | requesting => requesting_state
       | _ => idle_state
       end.

(** [`tts_${stream.messages.length}_${ttsOutput.audioData.length}`] *)
Definition currentTtsId (messageCount : nat) (ttsOutput : TTSOutput) : string :=
  ("tts_" ++ showN (N.of_nat messageCount) ++ "_"
     ++ showN (N.of_nat (String.length (audioData ttsOutput))))%string.

(** The effect that watches [stream.values.ttsOutput], for the render [c];
    [messageCount] is [stream.messages.length]. Playing itself is
    [playAudioFromBase64], recorded as an effect. *)
Definition onStreamValues (c : View) (messageCount : nat)
    (ttsOutput : option TTSOutput) : M (St := World) unit :=
  if stream_isLoading c then ret tt
  else
    match ttsOutput with
    | None => ret tt
    | Some ttsOutput =>
        if audioData ttsOutput =? "" then ret tt
        else
          let currentTtsId := currentTtsId messageCount ttsOutput in
          if match lastProcessedMessageId c with
             | Some last => last =? currentTtsId
             | None => false
             end
          then ret tt
          else
            setLastProcessedMessageId (Some currentTtsId) ;;
            if hasUserInteracted c
            then modify (emit (PlayAudioFromBase64 (audioData ttsOutput)))
            else toast_info "Audio response ready"
                            "Click the record button to enable audio playback"
    end.

(** The session state shown once the world [w] has been rendered. *)
Definition session_state (w : World) : ButtonState := getButtonState (view w).

Definition has_submit (l : list Effect) : bool :=
  existsb (fun e => match e with Submit _ _ _ => true | _ => false end) l.

(** The effect of the [finally] block of [handleVoiceRecordingComplete]
    for the render [c]. *)
Definition cleared (c : View) : list Effect :=
  match processingTimeoutId c with
  | Some id => [ClearTimeout id]
  | None => []
  end.

Definition timed_out_notice : Effect :=
  ToastError "Processing timed out" "Please try recording a shorter message.".

Definition too_large_notice : Effect :=
  ToastError "Audio file too large" "Please record a shorter message (max 50MB).".

End VoiceSession.

(** * Vocabulary of the statements *)
Module Vocabulary.
Import TurnGraph.

(** The calls made when the candidates [fs] are tried on [buffer]. *)
Definition attempts (buffer : list byte) (fs : list Format) : Log :=
  map (fun f => Transcribe buffer (name f) (type f)) fs.

(** The transcription collaborator throws on candidate [f]. *)
Definition rejects (env : Env) (buffer : list byte) (f : Format) : Prop :=
  exists e, transcriptions_create env buffer (name f) = Throw e.

(** No transcript can be obtained for the audio input [ai]: the API key is
    not configured, the audio data is absent or shorter than the minimum,
    or the transcription collaborator throws on every candidate. *)
Definition no_transcript (env : Env) (ai : SpeechInput) : Prop :=
  truthy (OPENAI_API_KEY env) = false \/
  match audioData ai with
  | None => True
  | Some data =>
      String.length data < 100 \/
      Forall (rejects env (base64ToBuffer env data)) formats
  end.

(** The text the synthesize stage would speak for a last message [m]:
    present only for an agent-authored message whose content is a
    non-empty string. *)
Definition speakable (m : option Message) : option string :=
  match m with
  | Some m =>
      match content m with
      | Text t => if isAI m && negb (t =? "") then Some t else None
      | Parts _ => None
      end
  | None => None
  end.

(** [process.env.ELEVENLABS_VOICE_ID || "21m00Tcm4TlvDq8ikWAM"] *)
Definition voiceOf (env : Env) : string :=
  or_else (ELEVENLABS_VOICE_ID env) defaultVoice.

(** The payload built from the audio chunks the synthesis returned. *)
Definition payload (env : Env) (chunks : list (list byte)) : TTSOutput :=
  {| tts_audioData := toBase64 env (concat chunks);
     tts_mimeType := "audio/mpeg";
     tts_size := N.of_nat (length (concat chunks)) |}.

Definition withTTS (out : TTSOutput) : Update :=
  {| u_messages := None; u_audioInput := None; u_ttsOutput := Some (Some out) |}.

End Vocabulary.

(** * Concrete inputs used to exercise the statements *)
Module Samples.
Import TurnGraph.

(** A text-only turn. *)
Definition text_turn : TurnState :=
  {| messages := [HumanMessage "hello"]; audioInput := None; ttsOutput := None |}.

(** Hundred and four characters of base64: past the minimum-size check. *)
Definition long_audio : string :=
  "UklGRiQAAABXQVZFZm10IBAAAAABAAEAQB8AAIA+AAACABAAZGF0YQAAAAAUklGRiQAAABXQVZFZm10IBAAAAABAAEAQB8AAIA+AAACABAA".

Definition voice_turn : TurnState :=
  {| messages := [];
     audioInput := Some {| audioData := Some long_audio;
                           mimeType := Some "audio/webm";
                           size := Some 78%N |};
     ttsOutput := None |}.

(** Scenario A: an audio input of zero bytes. *)
Definition empty_audio_turn : TurnState :=
  {| messages := [];
     audioInput := Some {| audioData := Some ""; mimeType := None; size := Some 0%N |};
     ttsOutput := None |}.

Definition answer : Message := {| kind := AI; content := Text "Hi! How can I help?" |}.

Definition answered_turn : TurnState :=
  {| messages := [HumanMessage "hello"; answer]; audioInput := None; ttsOutput := None |}.

(** Everything works; only the mp3 label is accepted by the transcriber. *)
Definition healthy : Env :=
  {| OPENAI_API_KEY := Some "sk-test";
     ELEVENLABS_API_KEY := Some "el-test";
     ELEVENLABS_VOICE_ID := None;
     base64ToBuffer := fun _ => [x52; x49; x46; x46]%byte;
     transcriptions_create :=
       fun _ fileName =>
         if fileName =? "audio.mp3" then Return "what time is it"
         else Throw (mkError "Invalid file format");
     reactAgent_invoke := fun ms => Return (ms ++ [answer]);
     textToSpeech_convert := fun _ _ => Return [[xff; xfb]%byte; [x90]%byte];
     writeFileSync := fun _ => Return tt;
     toBase64 := fun _ => "//uQ" |}.

(** The agent collaborator throws. *)
Definition agent_down : Env :=
  {| OPENAI_API_KEY := OPENAI_API_KEY healthy;
     ELEVENLABS_API_KEY := ELEVENLABS_API_KEY healthy;
     ELEVENLABS_VOICE_ID := None;
     base64ToBuffer := base64ToBuffer healthy;
     transcriptions_create := transcriptions_create healthy;
     reactAgent_invoke := fun _ => Throw (mkError "model overloaded");
     textToSpeech_convert := textToSpeech_convert healthy;
     writeFileSync := writeFileSync healthy;
     toBase64 := toBase64 healthy |}.

(** The transcriber rejects every label. *)
Definition deaf : Env :=
  {| OPENAI_API_KEY := OPENAI_API_KEY healthy;
     ELEVENLABS_API_KEY := ELEVENLABS_API_KEY healthy;
     ELEVENLABS_VOICE_ID := None;
     base64ToBuffer := base64ToBuffer healthy;
     transcriptions_create := fun _ _ => Throw (mkError "Invalid file format");
     reactAgent_invoke := reactAgent_invoke healthy;
     textToSpeech_convert := textToSpeech_convert healthy;
     writeFileSync := writeFileSync healthy;
     toBase64 := toBase64 healthy |}.

(** The synthesis collaborator throws. *)
Definition mute : Env :=
  {| OPENAI_API_KEY := OPENAI_API_KEY healthy;
     ELEVENLABS_API_KEY := ELEVENLABS_API_KEY healthy;
     ELEVENLABS_VOICE_ID := None;
     base64ToBuffer := base64ToBuffer healthy;
     transcriptions_create := transcriptions_create healthy;
     reactAgent_invoke := reactAgent_invoke healthy;
     textToSpeech_convert := fun _ _ => Throw (mkError "quota exceeded");
     writeFileSync := writeFileSync healthy;
     toBase64 := toBase64 healthy |}.

End Samples.

(** Inputs for the player hook. *)
Module PlayerSamples.
Import TTSPlayer.

Definition reply : TTSOutput :=
  {| audioData := "//uQxAAAAAAAAAAAAAAAAAAAAAAAWGluZwAAAA8AAAACAAACcQCA";
     mimeType := "audio/mpeg";
     size := 3 |}.

(** A hook that has not played anything yet. *)
Definition fresh : Player :=
  {| audioRef := None; isPlaying := false; currentTTSUrl := None;
     lastPlayedDataRef := None; log := [] |}.

(** The payload decodes and the browser lets the audio play. *)
Definition allows : Browser :=
  {| atob := fun _ => Return "ID3";
     createObjectURL := "blob:1";
     play := Return tt |}.

(** Autoplay is refused. *)
Definition blocks : Browser :=
  {| atob := fun _ => Return "ID3";
     createObjectURL := "blob:2";
     play := Throw (Error "NotAllowedError" "play() failed") |}.

(** The hook while [reply] is being played. *)
Definition playing_reply : Player := snd (playTTS None allows reply fresh).

(** The hook after the browser has refused to play [reply]. *)
Definition refused_reply : Player := snd (playTTS None blocks reply fresh).

(** [reply] is delivered once more after the refusal, and the browser now
    lets it play. *)
Definition replayed : Player :=
  snd (playTTS (currentTTSUrl refused_reply) allows reply refused_reply).

End PlayerSamples.

(** Inputs for the voice-only interface. *)
Module SessionSamples.
Import VoiceSession.

(** The render in which the user presses stop on a running recording. *)
Definition recording_view : View :=
  {| isProcessingVoice := false; isPlayingAudio := false;
     hasUserInteracted := true; lastProcessedMessageId := None;
     processingTimeoutId := None; stream_isLoading := false;
     recordingState := recording; recordingError := None |}.

Definition start : World :=
  {| view := recording_view; timers := []; nextTimer := 1; log := [] |}.

Definition short_clip : Blob := {| blob_size := 48000; blob_type := "audio/webm" |}.

(** One byte above the ceiling. *)
Definition huge_clip : Blob :=
  {| blob_size := 52428801; blob_type := "audio/webm" |}.

Definition browser (clip : Blob) : Env :=
  {| toBase64 := fun _ => Return "GkXfo59ChoEBQveBAULygQRC";
     ensureToolCallsHaveResponses := Return tt;
     stream_submit := Return tt;
     startRecording := Return tt;
     stopRecording := Return (Some clip) |}.

Definition spoken : TTSOutput :=
  {| audioData := "//uQxAAAAAAA"; mimeType := "audio/mpeg"; size := 9 |}.

(** The user stops the recording, the recorder goes back to idle and the
    submission makes the stream load; sixty seconds later the timer fires while the result is still
    outstanding. *)
Definition submitted : World :=
  snd (handleRecordingToggle recording_view (browser short_clip) start).
Definition stopped : World := snd (recorder_setState idle submitted).
Definition waiting : World := snd (stream_setLoading true stopped).
Definition timed_out : World := snd (fire 1 waiting).

(** The result arrives after the timeout and the component renders it. *)
Definition arrived : World := snd (stream_setLoading false timed_out).
Definition rendered : World :=
  snd (onStreamValues (view arrived) 2 (Some spoken) arrived).

End SessionSamples.

From Stdlib Require Import DecimalN Permutation.

(** * More of the agent package *)

(** ** [utils.ts] *)
Module Utils.

(** [s.indexOf(c)], [None] for -1. *)
Fixpoint indexOf (c : ascii) (s : string) : option nat :=
  match s with
  | EmptyString => None
  | String a rest =>
      if Ascii.eqb a c then Some 0
      else match indexOf c rest with
           | Some i => Some (S i)
           | None => None
           end
  end.

(** [s.slice(from)] *)
Definition slice_from (from : nat) (s : string) : string :=
  substring from (String.length s - from) s.

(** The call [loadChatModel] makes to [initChatModel]: the model name and,
    when there is one, [{ modelProvider }]. *)
Record InitChatModel : Type :=
  { model : string; modelProvider : option string }.

Definition loadChatModel (fullySpecifiedName : string) : InitChatModel :=
  match indexOf "/" fullySpecifiedName with
  | None => {| model := fullySpecifiedName; modelProvider := None |}
  | Some index =>
      let provider := substring 0 index fullySpecifiedName in
      let model := slice_from (index + 1) fullySpecifiedName in
      {| model := model; modelProvider := Some provider |}
  end.

(** The character [c] occurs in [s]. *)
Fixpoint occurs (c : ascii) (s : string) : bool :=
  match s with
  | EmptyString => false
  | String a rest => Ascii.eqb a c || occurs c rest
  end.

End Utils.

(** ** [shouldProcessTTS] and statement vocabulary for the stages *)
Module Routing.
Import TurnGraph.

(** Truthiness of a message content: a string unless empty, any array. *)
Definition truthy_content (c : Content) : bool :=
  match c with
  | Text t => negb (t =? "")
  | Parts _ => true
  end.

Definition shouldProcessTTS (state : TurnState) : string :=
  match lastMessageOf (messages state) with
  | Some lastMessage =>
      if isAI lastMessage && truthy_content (content lastMessage)
      then "processTTS"
      else "__end__"
  | None => "__end__"
  end.

(** The bytes handed to the transcription service for the input [ai]. *)
Definition decoded (env : Env) (ai : SpeechInput) : list byte :=
  match audioData ai with
  | Some data => base64ToBuffer env data
  | None => []
  end.

(** The environment [env] with another outcome for the local file write. *)
Definition with_writeFileSync (env : Env) (w : list byte -> Outcome unit) : Env :=
  {| OPENAI_API_KEY := OPENAI_API_KEY env;
     ELEVENLABS_API_KEY := ELEVENLABS_API_KEY env;
     ELEVENLABS_VOICE_ID := ELEVENLABS_VOICE_ID env;
     base64ToBuffer := base64ToBuffer env;
     transcriptions_create := transcriptions_create env;
     reactAgent_invoke := reactAgent_invoke env;
     textToSpeech_convert := textToSpeech_convert env;
     writeFileSync := w;
     toBase64 := toBase64 env |}.

(** A message list whose last message is an agent message with array
    content. *)
Definition parts_turn : TurnState :=
  {| messages := [HumanMessage "hello";
                  {| kind := AI; content := Parts ["Hi!"; "How can I help?"] |}];
     audioInput := None;
     ttsOutput := None |}.

(** No synthesis key configured. *)
Definition keyless : Env :=
  {| OPENAI_API_KEY := None;
     ELEVENLABS_API_KEY := Some "";
     ELEVENLABS_VOICE_ID := None;
     base64ToBuffer := base64ToBuffer Samples.healthy;
     transcriptions_create := transcriptions_create Samples.healthy;
     reactAgent_invoke := reactAgent_invoke Samples.healthy;
     textToSpeech_convert := textToSpeech_convert Samples.healthy;
     writeFileSync := writeFileSync Samples.healthy;
     toBase64 := toBase64 Samples.healthy |}.

End Routing.

(** * More of the player hook: statement vocabulary *)
Module PlayerMore.
Import TTSPlayer.

(** The same output with another declared MIME type. *)
Definition with_mimeType (t : TTSOutput) (m : string) : TTSOutput :=
  {| audioData := audioData t; mimeType := m; size := size t |}.

(** Number of times [url] is revoked according to a log. *)
Definition revocations (url : string) (l : list Effect) : nat :=
  length (filter (fun e => match e with
                           | RevokeObjectURL u => u =? url
                           | _ => false
                           end) l).

(** What [pause(); src = ''; load()] leaves of an audio element. *)
Definition emptied (a : Audio) : Audio :=
  {| src := ""; currentTime := currentTime a; captured := captured a |}.

(** The payload cannot be decoded. *)
Definition garbled : Browser :=
  {| atob := fun _ => Throw (Error "InvalidCharacterError" "The string to be decoded is not correctly encoded.");
     createObjectURL := "blob:3";
     play := Return tt |}.

(** A second reply: same size and the same first 50 characters as
    [PlayerSamples.reply], different afterwards. *)
Definition lookalike : TTSOutput :=
  {| audioData := "//uQxAAAAAAAAAAAAAAAAAAAAAAAWGluZwAAAA8AAAACAAACcQDifferentTail";
     mimeType := "audio/wav";
     size := 3 |}.

End PlayerMore.

(** * More of the voice-only interface: statement vocabulary *)
Module SessionMore.
Import VoiceSession.

Definition is_toast (e : Effect) : bool :=
  match e with
  | ToastError _ _ | ToastSuccess _ _ | ToastInfo _ _ => true
  | _ => false
  end.

(** Number of notices shown according to a log. *)
Definition toasts (l : list Effect) : nat := length (filter is_toast l).

Definition is_submit (e : Effect) : bool :=
  match e with
  | Submit _ _ _ => true
  | _ => false
  end.

(** The submissions made according to a log. *)
Definition submissions (l : list Effect) : list Effect := filter is_submit l.

(** The render [c] after the user's first gesture. *)
Definition interacted (c : View) : View :=
  {| isProcessingVoice := isProcessingVoice c; isPlayingAudio := isPlayingAudio c;
     hasUserInteracted := true;
     lastProcessedMessageId := lastProcessedMessageId c;
     processingTimeoutId := processingTimeoutId c;
     stream_isLoading := stream_isLoading c;
     recordingState := recordingState c; recordingError := recordingError c |}.

(** A page on which nothing has happened yet, showing a finished turn. *)
Definition untouched_view : View :=
  {| isProcessingVoice := false; isPlayingAudio := false;
     hasUserInteracted := false; lastProcessedMessageId := None;
     processingTimeoutId := None; stream_isLoading := false;
     recordingState := idle; recordingError := None |}.

Definition untouched : World :=
  {| view := untouched_view; timers := []; nextTimer := 1; log := [] |}.

(** The recorder is asking for the microphone. *)
Definition requesting_view : View :=
  {| isProcessingVoice := false; isPlayingAudio := false;
     hasUserInteracted := false; lastProcessedMessageId := None;
     processingTimeoutId := None; stream_isLoading := false;
     recordingState := requesting; recordingError := None |}.

(** The stream is loading while a recording error is shown. *)
Definition loading_view : View :=
  {| isProcessingVoice := false; isPlayingAudio := false;
     hasUserInteracted := true; lastProcessedMessageId := None;
     processingTimeoutId := None; stream_isLoading := true;
     recordingState := idle; recordingError := None |}.

(** The conversion to base64 fails. *)
Definition unreadable (clip : Blob) : Env :=
  {| toBase64 := fun _ => Throw (mkError "arrayBuffer failed");
     ensureToolCallsHaveResponses := Return tt;
     stream_submit := Return tt;
     startRecording := Return tt;
     stopRecording := Return (Some clip) |}.

(** Another reply whose payload has the length of [SessionSamples.spoken]. *)
Definition other_spoken : TTSOutput :=
  {| audioData := "SUQzBAAAAAAA"; mimeType := "audio/mpeg"; size := 9 |}.

End SessionMore.

(** * Renders of the voice-only interface *)
Module Lifecycle.
Import VoiceSession.

Definition setIsPlayingAudio (b : bool) : M (St := World) unit :=
  modify (on_view (fun v =>
    {| isProcessingVoice := isProcessingVoice v; isPlayingAudio := b;
       hasUserInteracted := hasUserInteracted v;
       lastProcessedMessageId := lastProcessedMessageId v;
       processingTimeoutId := processingTimeoutId v;
       stream_isLoading := stream_isLoading v;
       recordingState := recordingState v; recordingError := recordingError v |})).

(** [cleanupAudio] of a render in which [processingTimeoutId] had the value
    [timeoutId], as far as it touches the React state and the timers. The
    frame, the object URL and the audio context it releases are refs, which
    the [World] does not hold; [Playback.cleanupAudio] has them. *)
Definition cleanupAudio (timeoutId : option nat) : M (St := World) unit :=
  match timeoutId with
  | Some id => clearTimeout id ;; setProcessingTimeoutId None
  | None => ret tt
  end ;;
  setIsPlayingAudio false ;;
  setIsProcessingVoice false.

Definition same_timer (a b : option nat) : bool :=
  match a, b with
  | Some x, Some y => Nat.eqb x y
  | None, None => true
  | _, _ => false
  end.

(** One render of the component, after the render whose
    [processingTimeoutId] was [committed]. [useCallback] builds a new
    [cleanupAudio] when [processingTimeoutId] has changed, and the effect
    [useEffect(() => { return cleanupAudio; }, [cleanupAudio])] is then run
    again: React first calls the cleanup the effect returned before, which
    is the [cleanupAudio] of the earlier render. The result is the
    [processingTimeoutId] this render has seen. *)
Definition render (committed : option nat) : M (St := World) (option nat) :=
  w <- get ;;
  let seen := processingTimeoutId (view w) in
  if same_timer seen committed then ret committed
  else cleanupAudio committed ;; ret seen.

(** [n] renders in a row. *)
Fixpoint renders (n : nat) (committed : option nat) : M (St := World) (option nat) :=
  match n with
  | 0 => ret committed
  | S n => seen <- render committed ;; renders n seen
  end.

(** [handleVoiceRecordingComplete] from its second statement to the [try]
    block. *)
Definition begin_processing : M (St := World) unit :=
  setIsProcessingVoice true ;;
  timeoutId <- setTimeout 60000 ;;
  setProcessingTimeoutId (Some timeoutId).

(** The [try] block of [handleVoiceRecordingComplete] of the render [c],
    with its [catch] and [finally]. *)
Definition process_recording (c : View) (env : Env) (audioBlob : Blob)
    : M (St := World) unit :=
  try_finally
    (try_catch
       (if (maxSize <? blob_size audioBlob)%N
        then toast_error "Audio file too large"
                         "Please record a shorter message (max 50MB)."
        else
          converted <-
            try_catch
              (base64Audio <- lift (toBase64 env audioBlob) ;;
               ret (Some base64Audio))
              (fun _ =>
                 toast_error "Failed to process audio"
                             "Audio file format not supported." ;;
                 ret None) ;;
          match converted with
          | None => ret tt
          | Some base64Audio =>
              lift (ensureToolCallsHaveResponses env) ;;
              modify (emit (Submit base64Audio (blob_type audioBlob)
                                   (blob_size audioBlob))) ;;
              lift (stream_submit env) ;;
              toast_success "Voice message sent!" "Processing your request..."
          end)
       (fun _ =>
          toast_error "Failed to process voice recording" "Please try again."))
    (match processingTimeoutId c with
     | Some id => clearTimeout id ;; setProcessingTimeoutId None
     | None => ret tt
     end ;;
     setIsProcessingVoice false).

(** [handleVoiceRecordingComplete] of the render [c] as the event loop runs
    it, with the renders around it. A recording within the ceiling makes
    the handler give way at [await audioBlob.arrayBuffer()], where React
    can render the state set so far ([atAwait] renders); the other renders
    come when the handler is done ([afterwards] renders). [committed] is the
    [processingTimeoutId] of the render on screen when the handler is
    called. *)
Definition finalise (atAwait afterwards : nat) (c : View) (env : Env)
    (audioBlob : Blob) (committed : option nat) : M (St := World) (option nat) :=
  if stream_isLoading c then renders afterwards committed
  else
    begin_processing ;;
    seen <- (if (maxSize <? blob_size audioBlob)%N then ret committed
             else renders atAwait committed) ;;
    process_recording c env audioBlob ;;
    renders afterwards seen.

(** The submission makes the stream load, and the timer [id] fires while
    the turn result is outstanding. *)
Definition times_out (id : nat) : M (St := World) unit :=
  stream_setLoading true ;;
  fire id.

(** The turn result arrives: the stream stops loading and the effect that
    watches [stream.values.ttsOutput] runs for the new render. *)
Definition arrives (messageCount : nat) (ttsOutput : TTSOutput)
    : M (St := World) unit :=
  stream_setLoading false ;;
  w <- get ;;
  onStreamValues (view w) messageCount (Some ttsOutput).

End Lifecycle.

(** * The conversion of a recording to text, in [handleVoiceRecordingComplete] *)
Module Encoding.

(** 8192 *)
Definition chunkSize : nat := 8 * 1024.

(** [String.fromCharCode(...chunk)] *)
Definition fromCharCode (chunk : list byte) : string := string_of_list_byte chunk.

(** [uint8Array.slice(i, i + chunkSize)] *)
Definition slice (i j : nat) (uint8Array : list byte) : list byte :=
  firstn (j - i) (skipn i uint8Array).

(** [for (let i = 0; i < uint8Array.length; i += chunkSize) { ... }]; the
    loop runs at most [uint8Array.length] times. *)
Fixpoint chunk_loop (fuel i : nat) (uint8Array : list byte)
    (binaryString : string) : string :=
  match fuel with
  | 0 => binaryString
  | S fuel =>
      if Nat.ltb i (length uint8Array)
      then
        let chunk := slice i (i + chunkSize) uint8Array in
        chunk_loop fuel (i + chunkSize) uint8Array
                   (binaryString ++ fromCharCode chunk)%string
      else binaryString
  end.

Definition binaryStringOf (uint8Array : list byte) : string :=
  chunk_loop (length uint8Array) 0 uint8Array "".

(** [bytes[i] = binaryString.charCodeAt(i)] for every [i], as the players
    do after [atob]. *)
Definition bytesOf (binaryString : string) : list byte :=
  list_byte_of_string binaryString.

End Encoding.

(** * Playback in the voice-only interface: [playAudioFromBase64] and the
      release of audio resources *)
Module Playback.

Inductive ContextState : Type := running | suspended | closed.

Inductive Effect : Type :=
| CancelAnimationFrame (id : nat)
| RevokeObjectURL (url : string)
| CloseAudioContext
| CreateObjectURL (url : string)
| NewAudio
| PlayCalled
| ClearTimeout (id : nat)
| ToastError (title : string)
| ToastSuccess (title : string)
| ToastInfo (title description : string).

(** The refs of the component that hold audio resources, the React state the
    playback functions set, and the effects so far. [audioRef] holds the
    [src] of the current audio element. *)
Record Stage : Type :=
  { isPlayingAudio : bool;
    isProcessingVoice : bool;
    processingTimeoutId : option nat;
    animationFrameRef : option nat;
    currentAudioUrlRef : option string;
    audioContextRef : option ContextState;
    analyserRef : bool;
    audioRef : option string;
    log : list Effect }.

Definition setIsPlayingAudio (b : bool) (s : Stage) : Stage :=
  {| isPlayingAudio := b; isProcessingVoice := isProcessingVoice s;
     processingTimeoutId := processingTimeoutId s;
     animationFrameRef := animationFrameRef s;
     currentAudioUrlRef := currentAudioUrlRef s;
     audioContextRef := audioContextRef s; analyserRef := analyserRef s;
     audioRef := audioRef s; log := log s |}.
Definition setIsProcessingVoice (b : bool) (s : Stage) : Stage :=
  {| isPlayingAudio := isPlayingAudio s; isProcessingVoice := b;
     processingTimeoutId := processingTimeoutId s;
     animationFrameRef := animationFrameRef s;
     currentAudioUrlRef := currentAudioUrlRef s;
     audioContextRef := audioContextRef s; analyserRef := analyserRef s;
     audioRef := audioRef s; log := log s |}.
Definition setProcessingTimeoutId (i : option nat) (s : Stage) : Stage :=
  {| isPlayingAudio := isPlayingAudio s; isProcessingVoice := isProcessingVoice s;
     processingTimeoutId := i;
     animationFrameRef := animationFrameRef s;
     currentAudioUrlRef := currentAudioUrlRef s;
     audioContextRef := audioContextRef s; analyserRef := analyserRef s;
     audioRef := audioRef s; log := log s |}.
Definition set_animationFrameRef (i : option nat) (s : Stage) : Stage :=
  {| isPlayingAudio := isPlayingAudio s; isProcessingVoice := isProcessingVoice s;
     processingTimeoutId := processingTimeoutId s;
     animationFrameRef := i;
     currentAudioUrlRef := currentAudioUrlRef s;
     audioContextRef := audioContextRef s; analyserRef := analyserRef s;
     audioRef := audioRef s; log := log s |}.
Definition set_currentAudioUrlRef (u : option string) (s : Stage) : Stage :=
  {| isPlayingAudio := isPlayingAudio s; isProcessingVoice := isProcessingVoice s;
     processingTimeoutId := processingTimeoutId s;
     animationFrameRef := animationFrameRef s;
     currentAudioUrlRef := u;
     audioContextRef := audioContextRef s; analyserRef := analyserRef s;
     audioRef := audioRef s; log := log s |}.
Definition set_audioContextRef (c : option ContextState) (s : Stage) : Stage :=
  {| isPlayingAudio := isPlayingAudio s; isProcessingVoice := isProcessingVoice s;
     processingTimeoutId := processingTimeoutId s;
     animationFrameRef := animationFrameRef s;
     currentAudioUrlRef := currentAudioUrlRef s;
     audioContextRef := c; analyserRef := analyserRef s;
     audioRef := audioRef s; log := log s |}.
Definition set_analyserRef (b : bool) (s : Stage) : Stage :=
  {| isPlayingAudio := isPlayingAudio s; isProcessingVoice := isProcessingVoice s;
     processingTimeoutId := processingTimeoutId s;
     animationFrameRef := animationFrameRef s;
     currentAudioUrlRef := currentAudioUrlRef s;
     audioContextRef := audioContextRef s; analyserRef := b;
     audioRef := audioRef s; log := log s |}.
Definition set_audioRef (a : option string) (s : Stage) : Stage :=
  {| isPlayingAudio := isPlayingAudio s; isProcessingVoice := isProcessingVoice s;
     processingTimeoutId := processingTimeoutId s;
     animationFrameRef := animationFrameRef s;
     currentAudioUrlRef := currentAudioUrlRef s;
     audioContextRef := audioContextRef s; analyserRef := analyserRef s;
     audioRef := a; log := log s |}.
Definition emit (e : Effect) (s : Stage) : Stage :=
  {| isPlayingAudio := isPlayingAudio s; isProcessingVoice := isProcessingVoice s;
     processingTimeoutId := processingTimeoutId s;
     animationFrameRef := animationFrameRef s;
     currentAudioUrlRef := currentAudioUrlRef s;
     audioContextRef := audioContextRef s; analyserRef := analyserRef s;
     audioRef := audioRef s; log := log s ++ [e] |}.

(** What the browser answers during one call. *)
Record Browser : Type :=
  { atob : string -> Outcome string;
    (** [new Blob([bytes], ...)] and [URL.createObjectURL] *)
    createObjectURL : Outcome string;
    (** [audioContext.close()] *)
    close : Outcome unit;
    (** [audio.play()] *)
    play : Outcome unit }.

(** [if (animationFrameRef.current) { cancelAnimationFrame(...); ... = null }];
    a frame handle is a non-zero number. *)
Definition release_frame : M (St := Stage) unit :=
  s <- get ;;
  match animationFrameRef s with
  | Some id =>
      if Nat.eqb id 0 then ret tt
      else modify (emit (CancelAnimationFrame id)) ;;
           modify (set_animationFrameRef None)
  | None => ret tt
  end.

(** [if (currentAudioUrlRef.current) { URL.revokeObjectURL(...); ... = null }] *)
Definition release_url : M (St := Stage) unit :=
  s <- get ;;
  match currentAudioUrlRef s with
  | Some url =>
      if url =? "" then ret tt
      else modify (emit (RevokeObjectURL url)) ;;
           modify (set_currentAudioUrlRef None)
  | None => ret tt
  end.

Definition maxBase64Length : N := 100 * 1024 * 1024.

Definition autoplay_notice : Effect :=
  ToastInfo "Audio ready to play" "Click the record button to enable audio playback".

(** [playAudioFromBase64] of a render in which [isPlayingAudio] had the
    value [playing]. *)
Definition playAudioFromBase64 (playing : bool) (browser : Browser)
    (base64Audio : string) : M (St := Stage) unit :=
  if playing then ret tt
  else if base64Audio =? "" then modify (emit (ToastError "Invalid audio data"))
  else if (maxBase64Length <? N.of_nat (String.length base64Audio))%N
  then modify (emit (ToastError "Audio response too large to play"))
  else
    try_catch
      (release_frame ;;
       release_url ;;
       s <- get ;;
       match audioContextRef s with
       | Some _ =>
           modify (emit CloseAudioContext) ;;
           lift (close browser) ;;
           modify (set_audioContextRef None)
       | None => ret tt
       end ;;
       (if analyserRef s then modify (set_analyserRef false) else ret tt) ;;
       modify (setIsPlayingAudio true) ;;
       try_catch (lift (atob browser base64Audio))
                 (fun _ => throw (mkError "Invalid base64 audio format")) ;;
       audioUrl <- try_catch (lift (createObjectURL browser))
                             (fun _ => throw (mkError "Failed to create audio blob")) ;;
       modify (emit (CreateObjectURL audioUrl)) ;;
       modify (set_currentAudioUrlRef (Some audioUrl)) ;;
       modify (emit NewAudio) ;;
       modify (set_audioRef (Some audioUrl)) ;;
       modify (emit PlayCalled) ;;
       lift (play browser) ;;
       modify (emit (ToastSuccess "Playing response")))
      (fun error =>
         modify (setIsPlayingAudio false) ;;
         if exn_name error =? "NotAllowedError"
         then modify (emit autoplay_notice)
         else modify (emit (ToastError "Failed to play audio response"))).

(** The [cleanup] closure of [playAudioFromBase64]; a rejected [close()] is
    only logged. *)
Definition cleanup : M (St := Stage) unit :=
  modify (setIsPlayingAudio false) ;;
  release_url ;;
  release_frame ;;
  s <- get ;;
  match audioContextRef s with
  | Some _ =>
      modify (emit CloseAudioContext) ;;
      modify (set_audioContextRef None)
  | None => ret tt
  end ;;
  (if analyserRef s then modify (set_analyserRef false) else ret tt).

(** [audio.onended]; [visualized] says whether [setupAudioVisualization] has
    attached [stopVisualization] to the element. *)
Definition onended (visualized : bool) : M (St := Stage) unit :=
  (if visualized then release_frame else ret tt) ;;
  cleanup.

(** [audio.onerror]: the argument is an event, never an [Error]. *)
Definition onerror : M (St := Stage) unit :=
  cleanup ;;
  modify (emit (ToastError "Failed to play audio response")).

(** [cleanupAudio] of a render in which [processingTimeoutId] had the value
    [timeoutId]; it is the cleanup of an effect of the component. A rejected
    [close()] is only logged. *)
Definition cleanupAudio (timeoutId : option nat) : M (St := Stage) unit :=
  release_frame ;;
  release_url ;;
  s <- get ;;
  match audioContextRef s with
  | Some closed => ret tt
  | Some _ =>
      modify (emit CloseAudioContext) ;;
      modify (set_audioContextRef None)
  | None => ret tt
  end ;;
  match timeoutId with
  | Some id =>
      if Nat.eqb id 0 then ret tt
      else modify (emit (ClearTimeout id)) ;;
           modify (setProcessingTimeoutId None)
  | None => ret tt
  end ;;
  modify (setIsPlayingAudio false) ;;
  modify (setIsProcessingVoice false).

(** ** Statement vocabulary *)

(** What [s] holds that a new playback has to release first, in the order
    in which it is released. *)
Definition releases (s : Stage) : list Effect :=
  match animationFrameRef s with
  | Some id => if Nat.eqb id 0 then [] else [CancelAnimationFrame id]
  | None => []
  end ++
  match currentAudioUrlRef s with
  | Some url => if url =? "" then [] else [RevokeObjectURL url]
  | None => []
  end ++
  match audioContextRef s with
  | Some _ => [CloseAudioContext]
  | None => []
  end.

(** The component once a scheduled frame has been cancelled. *)
Definition without_frame (s : Stage) : Stage :=
  match animationFrameRef s with
  | Some id =>
      if Nat.eqb id 0 then s
      else set_animationFrameRef None (emit (CancelAnimationFrame id) s)
  | None => s
  end.

(** The component once the object URL it held has been revoked. *)
Definition without_url (s : Stage) : Stage :=
  match currentAudioUrlRef s with
  | Some url =>
      if url =? "" then s
      else set_currentAudioUrlRef None (emit (RevokeObjectURL url) s)
  | None => s
  end.

(** No frame is scheduled, no object URL is held, no analyser is attached
    and no audio context is referenced. *)
Definition released (s : Stage) : Prop :=
  animationFrameRef s = None /\
  currentAudioUrlRef s = None /\
  audioContextRef s = None /\
  analyserRef s = false.

Definition is_error (e : Effect) : bool :=
  match e with ToastError _ => true | _ => false end.

Definition errors (l : list Effect) : nat := length (filter is_error l).

(** A component that holds nothing. *)
Definition quiet : Stage :=
  {| isPlayingAudio := false; isProcessingVoice := false;
     processingTimeoutId := None; animationFrameRef := None;
     currentAudioUrlRef := None; audioContextRef := None;
     analyserRef := false; audioRef := None; log := [] |}.

(** A component in the middle of a visualized playback. *)
Definition busy : Stage :=
  {| isPlayingAudio := true; isProcessingVoice := true;
     processingTimeoutId := Some 4; animationFrameRef := Some 17;
     currentAudioUrlRef := Some "blob:7"; audioContextRef := Some running;
     analyserRef := true; audioRef := Some "blob:7"; log := [] |}.

Definition willing : Browser :=
  {| atob := fun _ => Return "ID3"; createObjectURL := Return "blob:8";
     close := Return tt; play := Return tt |}.

(** Autoplay is refused. *)
Definition unwilling : Browser :=
  {| atob := fun _ => Return "ID3"; createObjectURL := Return "blob:9";
     close := Return tt;
     play := Throw (Error "NotAllowedError" "play() failed") |}.

End Playback.

(** * Properties of the turn graph *)

Import TurnGraph Vocabulary.

(** ** The monad on the call log *)

Lemma call_run {A} (c : Call) (o : Outcome A) (l : Log) :
  call c o l = (o, l ++ [c]).
Proof. reflexivity. Qed.

Lemma applyUpdate_empty (s : TurnState) : applyUpdate s emptyUpdate = s.
Proof. destruct s; reflexivity. Qed.

Lemma applyUpdate_transcribed (s : TurnState) (t : string) :
  applyUpdate s (transcribed t) =
  {| messages := messages s ++ [HumanMessage t];
     audioInput := None;
     ttsOutput := ttsOutput s |}.
Proof. reflexivity. Qed.

Lemma applyUpdate_noTTS (s : TurnState) :
  applyUpdate s noTTS =
  {| messages := messages s; audioInput := audioInput s; ttsOutput := None |}.
Proof. reflexivity. Qed.

(** ** The fallback chain *)

Section Fallback.
Variable env : Env.
Variable buffer : list byte.

(** If every candidate is rejected the loop throws after trying all. *)
Lemma try_formats_exhausted (fs : list Format) :
  forall (lastError : option Exn) (l : Log),
    Forall (rejects env buffer) fs ->
    exists e, try_formats env buffer fs lastError l
              = (Throw e, l ++ attempts buffer fs).
Proof.
  induction fs as [|f rest IH]; intros lastError l Hall.
  - simpl. rewrite app_nil_r. eexists. reflexivity.
  - inversion Hall as [|? ? [e He] Hrest]; subst.
    destruct (IH (Some e) (l ++ [Transcribe buffer (name f) (type f)]) Hrest)
      as [e' He'].
    exists e'. simpl. unfold try_catch, bind, attemptTranscription.
    rewrite call_run, He. rewrite He'.
    rewrite <- app_assoc. reflexivity.
Qed.

(** The first accepted candidate ends the loop: the candidates before it
    were tried in order, none after it. *)
Lemma try_formats_first_accepted (fs : list Format) :
  forall (n : nat) (f : Format) (t : string) (lastError : option Exn) (l : Log),
    nth_error fs n = Some f ->
    Forall (rejects env buffer) (firstn n fs) ->
    transcriptions_create env buffer (name f) = Return t ->
    try_formats env buffer fs lastError l
    = (Return (transcribed t), l ++ attempts buffer (firstn (S n) fs)).
Proof.
  induction fs as [|g rest IH]; intros n f t lastError l Hn Hbefore Hok.
  - destruct n; discriminate.
  - destruct n as [|n].
    + injection Hn as ->. simpl.
      unfold try_catch, bind, attemptTranscription.
      rewrite call_run, Hok. reflexivity.
    + simpl in Hn, Hbefore.
      inversion Hbefore as [|? ? [e He] Hrest]; subst.
      change (firstn (S (S n)) (g :: rest)) with (g :: firstn (S n) rest).
      simpl attempts. simpl try_formats.
      unfold try_catch at 1. unfold bind, attemptTranscription.
      rewrite call_run, He.
      rewrite (IH n f t (Some e) _ Hn Hrest Hok).
      rewrite <- app_assoc. reflexivity.
Qed.
End Fallback.

(** ** Stages never throw, except the agent node *)

Lemma speech_to_text_returns (env : Env) (s : TurnState) (l : Log) :
  exists u l', speech_to_text env s l = (Return u, l').
Proof.
  unfold speech_to_text. destruct (audioInput s) as [ai|].
  - unfold try_catch.
    match goal with
    | |- context [match ?m l with _ => _ end] => destruct (m l) as [[u|e] l']
    end; unfold ret; eauto.
  - unfold ret; eauto.
Qed.

Lemma text_to_speech_cases (env : Env) (s : TurnState) (l : Log) :
  match speakable (lastMessageOf (messages s)) with
  | None => text_to_speech env s l = (Return noTTS, l)
  | Some text =>
      if truthy (ELEVENLABS_API_KEY env)
      then match textToSpeech_convert env (voiceOf env) text with
           | Return chunks =>
               text_to_speech env s l
               = (Return (withTTS (payload env chunks)),
                  l ++ [Convert (voiceOf env) text; WriteFile (concat chunks)])
           | Throw _ =>
               text_to_speech env s l
               = (Return noTTS, l ++ [Convert (voiceOf env) text])
           end
      else text_to_speech env s l = (Return noTTS, l)
  end.
Proof.
  unfold text_to_speech, speakable.
  destruct (lastMessageOf (messages s)) as [m|]; [|reflexivity].
  destruct (isAI m); simpl; [|destruct (content m); reflexivity].
  destruct (content m) as [t|ps]; [|reflexivity].
  destruct (t =? ""); simpl; [reflexivity|].
  unfold try_catch, bind. fold (voiceOf env).
  destruct (truthy (ELEVENLABS_API_KEY env)); simpl; [|reflexivity].
  destruct (textToSpeech_convert env (voiceOf env) t) as [chunks|e]; [|reflexivity].
  destruct (writeFileSync env (concat chunks)) as [[]|e];
    unfold ret; simpl; rewrite <- app_assoc; reflexivity.
Qed.

Lemma text_to_speech_returns (env : Env) (s : TurnState) (l : Log) :
  exists u calls,
    text_to_speech env s l = (Return u, l ++ calls) /\
    messages (applyUpdate s u) = messages s /\
    audioInput (applyUpdate s u) = audioInput s.
Proof.
  pose proof (text_to_speech_cases env s l) as H.
  destruct (speakable (lastMessageOf (messages s))) as [text|].
  - destruct (truthy (ELEVENLABS_API_KEY env)).
    + destruct (textToSpeech_convert env (voiceOf env) text) as [chunks|e];
        rewrite H; eauto.
    + rewrite H. exists noTTS, []. rewrite app_nil_r. auto.
  - rewrite H. exists noTTS, []. rewrite app_nil_r. auto.
Qed.

Lemma node_run (nodeName : string) (f : TurnState -> M Update)
    (s : TurnState) (l : Log) :
  node nodeName f s l =
  match f s (l ++ [EnterNode nodeName]) with
  | (Return u, l') => (Return (applyUpdate s u), l')
  | (Throw e, l') => (Throw e, l')
  end.
Proof. reflexivity. Qed.

Lemma graph_after_transcribe (env : Env) (s s1 : TurnState) (l l1 : Log) :
  node "speech_to_text" (speech_to_text env) s l = (Return s1, l1) ->
  graph env s l = after_transcribe env s1 l1.
Proof.
  intros H. unfold graph, after_transcribe, bind at 1. rewrite H. reflexivity.
Qed.

(** After the transcribe stage the agent node is entered and the agent
    invoked; when the agent returns, the synthesize node is entered and the
    turn returns; when the agent throws, the throw leaves the graph. *)
Lemma after_transcribe_runs (env : Env) (s1 : TurnState) (l : Log) :
  exists r added,
    after_transcribe env s1 l
    = (r, l ++ EnterNode "react_agent" :: InvokeAgent (messages s1) :: added) /\
    (forall ms, reactAgent_invoke env (messages s1) = Return ms ->
       exists u rest,
         added = EnterNode "text_to_speech" :: rest /\
         r = Return (applyUpdate
                       {| messages := messages s1 ++ skipn (length (messages s1)) ms;
                          audioInput := audioInput s1;
                          ttsOutput := ttsOutput s1 |} u) /\
         text_to_speech env
           {| messages := messages s1 ++ skipn (length (messages s1)) ms;
              audioInput := audioInput s1;
              ttsOutput := ttsOutput s1 |}
           (l ++ [EnterNode "react_agent"; InvokeAgent (messages s1);
                  EnterNode "text_to_speech"])
         = (Return u, l ++ EnterNode "react_agent" :: InvokeAgent (messages s1)
                        :: EnterNode "text_to_speech" :: rest)) /\
    (forall e, reactAgent_invoke env (messages s1) = Throw e ->
       r = Throw e /\ added = []).
Proof.
  unfold after_transcribe, bind at 1. rewrite node_run.
  unfold react_agent_node, bind at 1. rewrite call_run.
  destruct (reactAgent_invoke env (messages s1)) as [ms|e].
  - unfold ret. rewrite node_run.
    set (s2 := applyUpdate s1 _).
    destruct (text_to_speech_returns env s2
                (((l ++ [EnterNode "react_agent"]) ++ [InvokeAgent (messages s1)])
                   ++ [EnterNode "text_to_speech"])) as (u & calls & Hu & _ & _).
    rewrite Hu.
    exists (Return (applyUpdate s2 u)), (EnterNode "text_to_speech" :: calls).
    repeat rewrite <- app_assoc. simpl. split; [reflexivity|]. split.
    + intros ms' Hms. injection Hms as <-.
      exists u, calls. split; [reflexivity|]. split; [reflexivity|].
      repeat rewrite <- app_assoc in Hu. simpl in Hu. exact Hu.
    + intros e He. discriminate.
  - exists (Throw e), []. repeat rewrite <- app_assoc. simpl.
    split; [reflexivity|]. split.
    + intros ms Hms. discriminate.
    + intros e' He'. injection He' as <-. auto.
Qed.

(** ** The transcribe stage *)

Lemma short_data_rejected (data : string) :
  String.length data < 100 ->
  (data =? "") || Nat.ltb (String.length data) 100 = true.
Proof.
  intros H. apply orb_true_iff. right. apply Nat.ltb_lt. exact H.
Qed.

Lemma long_data_accepted (data : string) :
  100 <= String.length data ->
  (data =? "") || Nat.ltb (String.length data) 100 = false.
Proof.
  intros H. apply orb_false_iff. split.
  - destruct data; [simpl in H; lia | reflexivity].
  - apply Nat.ltb_ge. exact H.
Qed.

(** Without a transcript the stage answers with the apology. *)
Lemma speech_to_text_apologises (env : Env) (s : TurnState) (ai : SpeechInput) :
  audioInput s = Some ai ->
  no_transcript env ai ->
  exists calls, forall l,
    speech_to_text env s l = (Return (transcribed apology), l ++ calls).
Proof.
  intros Hai Hno. unfold speech_to_text. rewrite Hai. unfold try_catch.
  destruct (truthy (OPENAI_API_KEY env)) eqn:Hkey; cbn [negb].
  - destruct Hno as [Hno|Hno]; [congruence|].
    destruct (audioData ai) as [data|].
    + destruct Hno as [Hshort|Hall].
      * rewrite (short_data_rejected _ Hshort). exists []. intros l.
        rewrite app_nil_r. reflexivity.
      * destruct ((data =? "") || Nat.ltb (String.length data) 100).
        -- exists []. intros l. rewrite app_nil_r. reflexivity.
        -- exists (attempts (base64ToBuffer env data) formats). intros l.
           destruct (try_formats_exhausted env _ formats None l Hall) as [e He].
           rewrite He. reflexivity.
    + exists []. intros l. rewrite app_nil_r. reflexivity.
  - exists []. intros l. rewrite app_nil_r. reflexivity.
Qed.

(** C3: when [audioInput] is absent the transcribe stage returns the empty
    update without calling anything, and the state that leaves the stage is
    the state that entered it, [messages] and every other field included. *)
Theorem speech_to_text_passes_text_turns (env : Env) (s : TurnState) (l : Log) :
  audioInput s = None ->
  speech_to_text env s l = (Return emptyUpdate, l) /\
  applyUpdate s emptyUpdate = s /\
  node "speech_to_text" (speech_to_text env) s l
  = (Return s, l ++ [EnterNode "speech_to_text"]).
Proof.
  intros H. split; [|split].
  - unfold speech_to_text. rewrite H. reflexivity.
  - apply applyUpdate_empty.
  - rewrite node_run. unfold speech_to_text. rewrite H. unfold ret.
    rewrite applyUpdate_empty. reflexivity.
Qed.

Lemma speech_to_text_passes_text_turns_witness :
  speech_to_text Samples.healthy Samples.text_turn [] = (Return emptyUpdate, []) /\
  applyUpdate Samples.text_turn emptyUpdate = Samples.text_turn /\
  node "speech_to_text" (speech_to_text Samples.healthy) Samples.text_turn []
  = (Return Samples.text_turn, [] ++ [EnterNode "speech_to_text"]).
Proof.
  apply (speech_to_text_passes_text_turns Samples.healthy Samples.text_turn []).
  reflexivity.
Defined.

(** C2: with [audioInput] present and no candidate transcribing it (the
    audio data absent or below the minimum size included), the transcribe
    stage returns normally; exactly one human message, the apology, is
    appended and [audioInput] is cleared; the graph goes on to the agent
    node with that state, and to the synthesize node once the agent has
    returned. *)
Theorem speech_to_text_absorbs_failure (env : Env) (s : TurnState)
    (ai : SpeechInput) (l : Log) :
  audioInput s = Some ai ->
  no_transcript env ai ->
  let s1 := {| messages := messages s ++ [HumanMessage apology];
               audioInput := None;
               ttsOutput := ttsOutput s |} in
  exists calls r added,
    speech_to_text env s l = (Return (transcribed apology), l ++ calls) /\
    applyUpdate s (transcribed apology) = s1 /\
    kind (HumanMessage apology) = Human /\
    graph env s l
    = (r, l ++ EnterNode "speech_to_text" :: calls
            ++ EnterNode "react_agent" :: InvokeAgent (messages s1) :: added) /\
    (forall ms, reactAgent_invoke env (messages s1) = Return ms ->
       exists final rest,
         r = Return final /\ added = EnterNode "text_to_speech" :: rest).
Proof.
  intros Hai Hno s1.
  destruct (speech_to_text_apologises env s ai Hai Hno) as [calls Hcalls].
  assert (Hnode : node "speech_to_text" (speech_to_text env) s l
                  = (Return s1, (l ++ [EnterNode "speech_to_text"]) ++ calls)).
  { rewrite node_run, Hcalls. reflexivity. }
  destruct (after_transcribe_runs env s1
              ((l ++ [EnterNode "speech_to_text"]) ++ calls))
    as (r & added & Hrun & Hok & _).
  exists calls, r, added.
  split; [apply Hcalls|]. split; [reflexivity|]. split; [reflexivity|]. split.
  - rewrite (graph_after_transcribe env s s1 l _ Hnode), Hrun.
    repeat rewrite <- app_assoc. reflexivity.
  - intros ms Hms. destruct (Hok ms Hms) as (u & rest & Hadded & Hr & _). eauto.
Qed.

Lemma speech_to_text_absorbs_failure_witness :
  exists calls r added,
    speech_to_text Samples.healthy Samples.empty_audio_turn []
    = (Return (transcribed apology), [] ++ calls) /\
    applyUpdate Samples.empty_audio_turn (transcribed apology)
    = {| messages := [HumanMessage apology]; audioInput := None; ttsOutput := None |} /\
    kind (HumanMessage apology) = Human /\
    graph Samples.healthy Samples.empty_audio_turn []
    = (r, [] ++ EnterNode "speech_to_text" :: calls
            ++ EnterNode "react_agent" :: InvokeAgent [HumanMessage apology] :: added) /\
    (forall ms,
        reactAgent_invoke Samples.healthy [HumanMessage apology] = Return ms ->
        exists final rest,
          r = Return final /\ added = EnterNode "text_to_speech" :: rest).
Proof.
  apply (speech_to_text_absorbs_failure Samples.healthy Samples.empty_audio_turn
           {| audioData := Some ""; mimeType := None; size := Some 0%N |} []).
  - reflexivity.
  - right. simpl. left. lia.
Defined.

(** C4: for an audio input past the minimum-size check (and a configured
    API key), the candidates are tried in the order wav, webm, mp3, m4a, ogg
    on the same decoded bytes; when the candidates before the [n]-th are
    rejected and the [n]-th is accepted, exactly those [n+1] candidates are
    tried and none after, the transcript is appended as one human message
    and [audioInput] is cleared; when all are rejected, all five have been
    tried, in that order. *)
Theorem speech_to_text_first_accepted (env : Env) (s : TurnState)
    (ai : SpeechInput) (data : string) (l : Log) :
  audioInput s = Some ai ->
  audioData ai = Some data ->
  100 <= String.length data ->
  truthy (OPENAI_API_KEY env) = true ->
  let buffer := base64ToBuffer env data in
  map name formats
  = ["audio.wav"; "audio.webm"; "audio.mp3"; "audio.m4a"; "audio.ogg"] /\
  (forall n f t,
      nth_error formats n = Some f ->
      Forall (rejects env buffer) (firstn n formats) ->
      transcriptions_create env buffer (name f) = Return t ->
      speech_to_text env s l
      = (Return (transcribed t), l ++ attempts buffer (firstn (S n) formats)) /\
      applyUpdate s (transcribed t)
      = {| messages := messages s ++ [HumanMessage t];
           audioInput := None;
           ttsOutput := ttsOutput s |}) /\
  (Forall (rejects env buffer) formats ->
   speech_to_text env s l
   = (Return (transcribed apology), l ++ attempts buffer formats)).
Proof.
  intros Hai Hdata Hlen Hkey buffer.
  assert (Hrun : speech_to_text env s l
                 = try_catch (try_formats env buffer formats None)
                             (fun _ => ret (transcribed apology)) l).
  { unfold speech_to_text. rewrite Hai, Hkey, Hdata. cbn [negb].
    rewrite (long_data_accepted _ Hlen). reflexivity. }
  split; [reflexivity|]. split.
  - intros n f t Hn Hbefore Hok. split; [|reflexivity].
    rewrite Hrun. unfold try_catch.
    rewrite (try_formats_first_accepted env buffer formats n f t None l
               Hn Hbefore Hok).
    reflexivity.
  - intros Hall. rewrite Hrun. unfold try_catch.
    destruct (try_formats_exhausted env buffer formats None l Hall) as [e He].
    rewrite He. reflexivity.
Qed.

Lemma speech_to_text_first_accepted_witness :
  speech_to_text Samples.healthy Samples.voice_turn []
  = (Return (transcribed "what time is it"),
     [Transcribe [x52; x49; x46; x46]%byte "audio.wav" "audio/wav";
      Transcribe [x52; x49; x46; x46]%byte "audio.webm" "audio/webm";
      Transcribe [x52; x49; x46; x46]%byte "audio.mp3" "audio/mp3"]) /\
  applyUpdate Samples.voice_turn (transcribed "what time is it")
  = {| messages := [HumanMessage "what time is it"];
       audioInput := None;
       ttsOutput := None |} /\
  speech_to_text Samples.deaf Samples.voice_turn []
  = (Return (transcribed apology),
     attempts [x52; x49; x46; x46]%byte formats).
Proof.
  assert (Hlen : 100 <= String.length Samples.long_audio) by (vm_compute; lia).
  destruct (speech_to_text_first_accepted Samples.healthy Samples.voice_turn
              {| audioData := Some Samples.long_audio;
                 mimeType := Some "audio/webm";
                 size := Some 78%N |}
              Samples.long_audio [] eq_refl eq_refl Hlen eq_refl)
    as (_ & Hfirst & _).
  destruct (speech_to_text_first_accepted Samples.deaf Samples.voice_turn
              {| audioData := Some Samples.long_audio;
                 mimeType := Some "audio/webm";
                 size := Some 78%N |}
              Samples.long_audio [] eq_refl eq_refl Hlen eq_refl)
    as (_ & _ & Hnone).
  destruct (Hfirst 2 {| name := "audio.mp3"; type := "audio/mp3" |}
              "what time is it" eq_refl) as [Hrun Hstate].
  - simpl. repeat constructor; eexists; reflexivity.
  - reflexivity.
  - split; [exact Hrun|]. split; [exact Hstate|].
    apply Hnone. repeat constructor; eexists; reflexivity.
Defined.

(** ** The synthesize stage *)

(** C5: the synthesize stage depends on the state only through its last
    message; when that message is not agent-authored, or its content is not
    a non-empty string, the stage returns with [ttsOutput] absent and calls
    nothing; when the synthesis collaborator returns audio, the returned
    [ttsOutput] has [mimeType] "audio/mpeg" and [size] the byte length of the
    audio, positive when the audio is not empty; and no [ttsOutput] is ever
    returned in another way. *)
Theorem text_to_speech_last_message (env : Env) (s : TurnState) (l : Log) :
  (forall s',
      lastMessageOf (messages s') = lastMessageOf (messages s) ->
      text_to_speech env s' l = text_to_speech env s l) /\
  (speakable (lastMessageOf (messages s)) = None ->
   text_to_speech env s l = (Return noTTS, l) /\
   ttsOutput (applyUpdate s noTTS) = None) /\
  (forall text chunks,
      speakable (lastMessageOf (messages s)) = Some text ->
      truthy (ELEVENLABS_API_KEY env) = true ->
      textToSpeech_convert env (voiceOf env) text = Return chunks ->
      text_to_speech env s l
      = (Return (withTTS (payload env chunks)),
         l ++ [Convert (voiceOf env) text; WriteFile (concat chunks)]) /\
      ttsOutput (applyUpdate s (withTTS (payload env chunks)))
      = Some (payload env chunks) /\
      tts_mimeType (payload env chunks) = "audio/mpeg" /\
      tts_size (payload env chunks) = N.of_nat (length (concat chunks)) /\
      (concat chunks <> [] -> (0 < tts_size (payload env chunks))%N)) /\
  (forall u l' out,
      text_to_speech env s l = (Return u, l') ->
      u_ttsOutput u = Some (Some out) ->
      exists text chunks,
        speakable (lastMessageOf (messages s)) = Some text /\
        textToSpeech_convert env (voiceOf env) text = Return chunks /\
        out = payload env chunks).
Proof.
  pose proof (text_to_speech_cases env s l) as Hc.
  split; [|split; [|split]].
  - intros s' Hlast. unfold text_to_speech. rewrite Hlast. reflexivity.
  - intros Hnone. rewrite Hnone in Hc. split; [exact Hc | reflexivity].
  - intros text chunks Hsome Hkey Hconv. rewrite Hsome, Hkey, Hconv in Hc.
    split; [exact Hc|]. split; [reflexivity|]. split; [reflexivity|].
    split; [reflexivity|].
    intros Hne. simpl. destruct (concat chunks); [congruence | simpl; lia].
  - intros u l' out Hrun Hout.
    destruct (speakable (lastMessageOf (messages s))) as [text|].
    + destruct (truthy (ELEVENLABS_API_KEY env)).
      * destruct (textToSpeech_convert env (voiceOf env) text) as [chunks|e] eqn:Hconv;
          rewrite Hc in Hrun; injection Hrun as <- <-; simpl in Hout.
        -- injection Hout as <-. eauto.
        -- discriminate.
      * rewrite Hc in Hrun. injection Hrun as <- <-. discriminate.
    + rewrite Hc in Hrun. injection Hrun as <- <-. discriminate.
Qed.

Lemma text_to_speech_last_message_witness :
  text_to_speech Samples.healthy
    {| messages := [Samples.answer]; audioInput := None; ttsOutput := None |} []
  = text_to_speech Samples.healthy Samples.answered_turn [] /\
  text_to_speech Samples.healthy Samples.answered_turn []
  = (Return (withTTS {| tts_audioData := "//uQ";
                        tts_mimeType := "audio/mpeg";
                        tts_size := 3 |}),
     [Convert defaultVoice "Hi! How can I help?"; WriteFile [xff; xfb; x90]%byte]) /\
  (0 < tts_size (payload Samples.healthy [[xff; xfb]%byte; [x90]%byte]))%N /\
  text_to_speech Samples.healthy Samples.text_turn [] = (Return noTTS, []).
Proof.
  destruct (text_to_speech_last_message Samples.healthy Samples.answered_turn [])
    as (Hlast & _ & Hok & _).
  destruct (text_to_speech_last_message Samples.healthy Samples.text_turn [])
    as (_ & Hnone & _).
  split; [apply Hlast; reflexivity|].
  destruct (Hok "Hi! How can I help?" [[xff; xfb]%byte; [x90]%byte]
              eq_refl eq_refl eq_refl) as (Hrun & _ & _ & _ & Hpos).
  split; [exact Hrun|].
  split; [apply Hpos; discriminate|].
  apply Hnone. reflexivity.
Defined.



(** ** The agent node *)

(** Every call the transcribe node makes leaves it with a state. *)
Lemma transcribe_node_returns (env : Env) (s : TurnState) (l : Log) :
  exists s1 l1, node "speech_to_text" (speech_to_text env) s l = (Return s1, l1).
Proof.
  rewrite node_run.
  destruct (speech_to_text_returns env s (l ++ [EnterNode "speech_to_text"]))
    as (u & l' & Hu).
  rewrite Hu. eauto.
Qed.

(** C1, as the code has it: when the agent collaborator throws, the graph
    throws that error to its caller. The transcribe node has returned a
    state; the last thing the graph does is invoke the agent on it; no state
    comes back, no apology is appended, and the synthesize node is never
    entered. *)
Theorem graph_agent_throw_escapes (env : Env) (s : TurnState) (l : Log) (e : Exn) :
  (forall ms, reactAgent_invoke env ms = Throw e) ->
  exists s1 l1,
    node "speech_to_text" (speech_to_text env) s l = (Return s1, l1) /\
    graph env s l
    = (Throw e, l1 ++ [EnterNode "react_agent"; InvokeAgent (messages s1)]).
Proof.
  intros He.
  destruct (transcribe_node_returns env s l) as (s1 & l1 & Hnode).
  exists s1, l1. split; [exact Hnode|].
  rewrite (graph_after_transcribe env s s1 l l1 Hnode).
  destruct (after_transcribe_runs env s1 l1) as (r & added & Hrun & _ & Hthrow).
  destruct (Hthrow e (He (messages s1))) as [Hr Hadded].
  rewrite Hrun, Hr, Hadded. reflexivity.
Qed.

Lemma graph_agent_throw_escapes_witness :
  graph Samples.agent_down Samples.text_turn []
  = (Throw (mkError "model overloaded"),
     [EnterNode "speech_to_text"; EnterNode "react_agent";
      InvokeAgent [HumanMessage "hello"]]).
Proof.
  destruct (graph_agent_throw_escapes Samples.agent_down Samples.text_turn []
              (mkError "model overloaded") (fun _ => eq_refl))
    as (s1 & l1 & Hnode & Hgraph).
  injection Hnode as <- <-. exact Hgraph.
Defined.

(** ** The scenarios of the specification, run *)

(** Scenario A: an audio input of zero bytes. *)
Example scenario_empty_audio :
  graph Samples.healthy Samples.empty_audio_turn []
  = (Return {| messages := [HumanMessage apology; Samples.answer];
               audioInput := None;
               ttsOutput := Some {| tts_audioData := "//uQ";
                                    tts_mimeType := "audio/mpeg";
                                    tts_size := 3 |} |},
     [EnterNode "speech_to_text";
      EnterNode "react_agent"; InvokeAgent [HumanMessage apology];
      EnterNode "text_to_speech";
      Convert defaultVoice "Hi! How can I help?";
      WriteFile [xff; xfb; x90]%byte]).
Proof. reflexivity. Qed.

(** Scenario B: a recording the transcriber accepts under its third label. *)
Example scenario_valid_audio :
  graph Samples.healthy Samples.voice_turn []
  = (Return {| messages := [HumanMessage "what time is it"; Samples.answer];
               audioInput := None;
               ttsOutput := Some {| tts_audioData := "//uQ";
                                    tts_mimeType := "audio/mpeg";
                                    tts_size := 3 |} |},
     [EnterNode "speech_to_text";
      Transcribe [x52; x49; x46; x46]%byte "audio.wav" "audio/wav";
      Transcribe [x52; x49; x46; x46]%byte "audio.webm" "audio/webm";
      Transcribe [x52; x49; x46; x46]%byte "audio.mp3" "audio/mp3";
      EnterNode "react_agent"; InvokeAgent [HumanMessage "what time is it"];
      EnterNode "text_to_speech";
      Convert defaultVoice "Hi! How can I help?";
      WriteFile [xff; xfb; x90]%byte]).
Proof. reflexivity. Qed.

(** Scenario C: the synthesis collaborator throws. *)
Example scenario_synthesis_throws :
  graph Samples.mute Samples.text_turn []
  = (Return {| messages := [HumanMessage "hello"; Samples.answer];
               audioInput := None;
               ttsOutput := None |},
     [EnterNode "speech_to_text";
      EnterNode "react_agent"; InvokeAgent [HumanMessage "hello"];
      EnterNode "text_to_speech";
      Convert defaultVoice "Hi! How can I help?"]).
Proof. reflexivity. Qed.

(** * Properties of the player hook *)
Module PlayerFacts.
Import TTSPlayer.

Lemma started_snoc (l : list Effect) (e : Effect) :
  started (l ++ [e]) = started l + (if is_start e then 1 else 0).
Proof.
  unfold started. rewrite filter_app, length_app. simpl.
  destruct (is_start e); reflexivity.
Qed.

Lemma created_snoc (l : list Effect) (e : Effect) :
  created (l ++ [e]) = created l + (if is_new e then 1 else 0).
Proof.
  unfold created. rewrite filter_app, length_app. simpl.
  destruct (is_new e); reflexivity.
Qed.

Ltac run_player :=
  unfold playTTS, revoke_captured, try_catch, bind, get, modify, lift, ret, throw;
  cbn [fst snd lastPlayedDataRef audioRef log isPlaying currentTTSUrl
       set_lastPlayedDataRef set_audioRef setIsPlaying setCurrentTTSUrl emit].

Ltac count_effects :=
  cbn [log set_lastPlayedDataRef set_audioRef setIsPlaying setCurrentTTSUrl emit];
  repeat rewrite started_snoc; repeat rewrite created_snoc;
  cbn [is_start is_new]; try lia.

(** A delivery whose fingerprint is the one on record is dropped: the hook
    is left exactly as it was. *)
Lemma playTTS_skips (closureUrl : option string) (browser : Browser)
    (ttsOutput : TTSOutput) (p : Player) :
  lastPlayedDataRef p = Some (audioHash ttsOutput) ->
  playTTS closureUrl browser ttsOutput p = (Return tt, p).
Proof.
  intros H. run_player. rewrite H, String.eqb_refl. reflexivity.
Qed.

Lemma playTTS_verdict (closureUrl : option string) (browser : Browser)
    (ttsOutput : TTSOutput) (p : Player) :
  fst (playTTS closureUrl browser ttsOutput p) = Return tt /\
  Verdict ttsOutput p (snd (playTTS closureUrl browser ttsOutput p)).
Proof.
  destruct (lastPlayedDataRef p) as [last|] eqn:Hlast.
  - destruct (String.eqb_spec last (audioHash ttsOutput)) as [->|Hne].
    + rewrite (playTTS_skips closureUrl browser ttsOutput p Hlast).
      split; [reflexivity|]. apply Dropped; [exact Hlast | reflexivity].
    + assert (Hneq : lastPlayedDataRef p <> Some (audioHash ttsOutput))
        by (rewrite Hlast; congruence).
      apply String.eqb_neq in Hne.
      run_player. rewrite Hlast, Hne.
      destruct (audioRef p) as [a|];
        destruct closureUrl as [url|]; try destruct (url =? "");
        cbn [fst snd lastPlayedDataRef audioRef log isPlaying currentTTSUrl
             set_lastPlayedDataRef set_audioRef setIsPlaying setCurrentTTSUrl emit];
        destruct (atob browser (audioData ttsOutput)) as [bin|e];
        try destruct (Nat.eqb (String.length bin) 0);
        try destruct (play browser) as [[]|e'];
        cbn [fst snd lastPlayedDataRef audioRef log isPlaying currentTTSUrl
             set_lastPlayedDataRef set_audioRef setIsPlaying setCurrentTTSUrl emit];
        (split; [reflexivity|]);
        first [ apply Playing; [exact Hneq | reflexivity | count_effects | count_effects]
              | apply Failed; [exact Hneq | reflexivity | count_effects] ].
  - assert (Hneq : lastPlayedDataRef p <> Some (audioHash ttsOutput))
      by (rewrite Hlast; congruence).
    run_player. rewrite Hlast.
    destruct (audioRef p) as [a|];
      destruct closureUrl as [url|]; try destruct (url =? "");
      cbn [fst snd lastPlayedDataRef audioRef log isPlaying currentTTSUrl
           set_lastPlayedDataRef set_audioRef setIsPlaying setCurrentTTSUrl emit];
      destruct (atob browser (audioData ttsOutput)) as [bin|e];
      try destruct (Nat.eqb (String.length bin) 0);
      try destruct (play browser) as [[]|e'];
      cbn [fst snd lastPlayedDataRef audioRef log isPlaying currentTTSUrl
           set_lastPlayedDataRef set_audioRef setIsPlaying setCurrentTTSUrl emit];
      (split; [reflexivity|]);
      first [ apply Playing; [exact Hneq | reflexivity | count_effects | count_effects]
            | apply Failed; [exact Hneq | reflexivity | count_effects] ].
Qed.

(** A delivery that is not dropped, whose payload decodes to something
    non-empty and which the browser lets play, creates one audio element
    and starts one playback. *)
Lemma playTTS_plays (closureUrl : option string) (browser : Browser)
    (ttsOutput : TTSOutput) (p : Player) (bin : string) :
  lastPlayedDataRef p = None ->
  atob browser (audioData ttsOutput) = Return bin ->
  bin <> "" ->
  play browser = Return tt ->
  let p' := snd (playTTS closureUrl browser ttsOutput p) in
  started (log p') = started (log p) + 1 /\
  created (log p') = created (log p) + 1 /\
  lastPlayedDataRef p' = Some (audioHash ttsOutput).
Proof.
  intros Hlast Hatob Hbin Hplay.
  assert (Hlen : Nat.eqb (String.length bin) 0 = false)
    by (destruct bin; [congruence | reflexivity]).
  run_player. rewrite Hlast.
  destruct (audioRef p) as [a|];
    destruct closureUrl as [url|]; try destruct (url =? "");
    cbn [fst snd lastPlayedDataRef audioRef log isPlaying currentTTSUrl
         set_lastPlayedDataRef set_audioRef setIsPlaying setCurrentTTSUrl emit];
    rewrite Hatob, Hlen, Hplay;
    cbn [fst snd lastPlayedDataRef audioRef log isPlaying currentTTSUrl
         set_lastPlayedDataRef set_audioRef setIsPlaying setCurrentTTSUrl emit];
    (split; [count_effects | split; [count_effects | reflexivity]]).
Qed.

(** Every way a playback comes to its end forgets the fingerprint. *)
Lemma finish_forgets (ending : Ending) (p : Player) :
  fst (finish ending p) = Return tt /\
  lastPlayedDataRef (snd (finish ending p)) = None.
Proof.
  destruct ending as [a| |]; unfold finish.
  - unfold onEnded, revoke_captured, bind, modify, ret.
    destruct (captured a) as [url|]; [destruct (url =? "")|]; split; reflexivity.
  - split; reflexivity.
  - unfold stopTTS, bind, get, modify, ret.
    destruct (audioRef p); split; reflexivity.
Qed.

(** C7, as the code has it: when two deliveries with the same fingerprint
    (the declared size, a dash, and the first 50 characters of the payload)
    follow each other, at most one playback is started by the two calls
    together. Once the first call has started a playback (its fingerprint
    is on record), the second call returns at once and leaves the hook
    untouched: no audio element is created and none is played. When the
    first call was not a duplicate itself and started nothing, it has
    failed and its [catch] block has reset the fingerprint: the second
    call is then treated as a new delivery, and creates an audio element
    and starts a playback as soon as the browser decodes and plays it. *)
Theorem duplicate_delivery_plays_once (url1 url2 : option string)
    (b1 b2 : Browser) (t1 t2 : TTSOutput) (p : Player) :
  audioHash t1 = audioHash t2 ->
  let p1 := snd (playTTS url1 b1 t1 p) in
  let p2 := snd (playTTS url2 b2 t2 p1) in
  audioHash t1
  = (showN (size t1) ++ "-" ++ substring 0 50 (audioData t1))%string /\
  fst (playTTS url1 b1 t1 p) = Return tt /\
  fst (playTTS url2 b2 t2 p1) = Return tt /\
  started (log p2) <= started (log p) + 1 /\
  (started (log p1) = started (log p) + 1 ->
   playTTS url2 b2 t2 p1 = (Return tt, p1)) /\
  (lastPlayedDataRef p1 = Some (audioHash t1) ->
   playTTS url2 b2 t2 p1 = (Return tt, p1)) /\
  (lastPlayedDataRef p <> Some (audioHash t1) ->
   started (log p1) = started (log p) ->
   lastPlayedDataRef p1 = None /\
   forall bin,
     atob b2 (audioData t2) = Return bin ->
     bin <> "" ->
     play b2 = Return tt ->
     started (log p2) = started (log p1) + 1 /\
     created (log p2) = created (log p1) + 1).
Proof.
  intros Hsame p1 p2.
  destruct (playTTS_verdict url1 b1 t1 p) as [Hr1 V1]. fold p1 in V1.
  destruct (playTTS_verdict url2 b2 t2 p1) as [Hr2 V2]. fold p2 in V2.
  assert (Hskip : lastPlayedDataRef p1 = Some (audioHash t1) ->
                  playTTS url2 b2 t2 p1 = (Return tt, p1)).
  { intros H. apply playTTS_skips. rewrite <- Hsame. exact H. }
  split; [reflexivity|]. split; [exact Hr1|]. split; [exact Hr2|].
  split; [|split; [|split; [exact Hskip|]]].
  - destruct V1 as [Hp Heq | Hp Hp1 Hs Hc | Hp Hp1 Hs].
    + assert (Hq : p2 = p1).
      { unfold p2. rewrite Hskip; [reflexivity|]. rewrite Heq. exact Hp. }
      rewrite Hq, Heq. lia.
    + assert (Hq : p2 = p1) by (unfold p2; rewrite (Hskip Hp1); reflexivity).
      rewrite Hq. lia.
    + destruct V2 as [_ Heq | _ _ Hs2 _ | _ _ Hs2]; [rewrite Heq|..]; lia.
  - intros Hstarted.
    destruct V1 as [Hp Heq | Hp Hp1 Hs Hc | Hp Hp1 Hs].
    + rewrite Heq in Hstarted. lia.
    + exact (Hskip Hp1).
    + lia.
  - intros Hnew Hnothing.
    destruct V1 as [Hp Heq | Hp Hp1 Hs Hc | Hp Hp1 Hs].
    + congruence.
    + lia.
    + split; [exact Hp1|]. intros bin Hatob Hbin Hplay.
      destruct (playTTS_plays url2 b2 t2 p1 bin Hp1 Hatob Hbin Hplay)
        as (Hs2 & Hc2 & _).
      split; [exact Hs2 | exact Hc2].
Qed.

Lemma duplicate_delivery_plays_once_witness :
  started (log (snd (playTTS None PlayerSamples.allows PlayerSamples.reply
                       PlayerSamples.playing_reply)))
  <= started (log PlayerSamples.fresh) + 1 /\
  playTTS None PlayerSamples.allows PlayerSamples.reply PlayerSamples.playing_reply
  = (Return tt, PlayerSamples.playing_reply).
Proof.
  destruct (duplicate_delivery_plays_once None None
              PlayerSamples.allows PlayerSamples.allows
              PlayerSamples.reply PlayerSamples.reply PlayerSamples.fresh eq_refl)
    as (_ & _ & _ & Hle & Hstarted & _).
  split; [exact Hle|]. apply Hstarted. reflexivity.
Defined.

(** C7, as stated, fails: the browser refuses to play the first delivery,
    whose [catch] block forgets the fingerprint; the second delivery, with
    the same fingerprint, is then not dropped: it creates a second audio
    element and starts a playback. *)
Lemma refused_delivery_is_played_again :
  audioHash PlayerSamples.reply
  = "3-//uQxAAAAAAAAAAAAAAAAAAAAAAAWGluZwAAAA8AAAACAAACcQ" /\
  created (log PlayerSamples.refused_reply) = 1 /\
  started (log PlayerSamples.refused_reply) = 0 /\
  lastPlayedDataRef PlayerSamples.refused_reply = None /\
  fst (playTTS (currentTTSUrl PlayerSamples.refused_reply) PlayerSamples.allows
         PlayerSamples.reply PlayerSamples.refused_reply) = Return tt /\
  created (log PlayerSamples.replayed) = 2 /\
  started (log PlayerSamples.replayed) = 1.
Proof. repeat split; reflexivity. Qed.

(** C10: the fingerprint is cleared whenever a playback ends naturally,
    errors or is stopped; a delivery with the same fingerprint that comes
    after that is played again (a new audio element, a new playback),
    whereas the same delivery made while the fingerprint is still on
    record is dropped. *)
Theorem finished_playback_can_replay (ending : Ending)
    (closureUrl : option string) (browser : Browser) (t : TTSOutput)
    (p : Player) :
  let q := snd (finish ending p) in
  let r := snd (playTTS closureUrl browser t q) in
  fst (finish ending p) = Return tt /\
  lastPlayedDataRef q = None /\
  (forall bin,
      atob browser (audioData t) = Return bin ->
      bin <> "" ->
      play browser = Return tt ->
      started (log r) = started (log q) + 1 /\
      created (log r) = created (log q) + 1 /\
      lastPlayedDataRef r = Some (audioHash t)) /\
  (lastPlayedDataRef p = Some (audioHash t) ->
   playTTS closureUrl browser t p = (Return tt, p)).
Proof.
  intros q r. destruct (finish_forgets ending p) as [Hret Hnone].
  split; [exact Hret|]. split; [exact Hnone|]. split.
  - intros bin Hatob Hbin Hplay.
    exact (playTTS_plays closureUrl browser t q bin Hnone Hatob Hbin Hplay).
  - apply playTTS_skips.
Qed.

Lemma finished_playback_can_replay_witness :
  let ended :=
    snd (finish (Ended {| src := "blob:1"; currentTime := 0; captured := None |})
           PlayerSamples.playing_reply) in
  lastPlayedDataRef ended = None /\
  started (log (snd (playTTS None PlayerSamples.allows PlayerSamples.reply ended)))
  = started (log ended) + 1 /\
  playTTS None PlayerSamples.allows PlayerSamples.reply PlayerSamples.playing_reply
  = (Return tt, PlayerSamples.playing_reply).
Proof.
  destruct (finished_playback_can_replay
              (Ended {| src := "blob:1"; currentTime := 0; captured := None |})
              None PlayerSamples.allows PlayerSamples.reply
              PlayerSamples.playing_reply)
    as (_ & Hnone & Hreplay & Hdrop).
  split; [exact Hnone|]. split.
  - destruct (Hreplay "ID3" eq_refl) as (Hs & _ & _);
      [discriminate | reflexivity | exact Hs].
  - apply Hdrop. reflexivity.
Defined.
End PlayerFacts.

(** * Properties of the voice-only interface *)
Module SessionFacts.
Import VoiceSession.

Ltac run_session :=
  cbv [handleRecordingToggle handleVoiceRecordingComplete fire
       processing_timed_out try_finally try_catch bind get modify lift
       ret throw setTimeout clearTimeout setIsProcessingVoice
       setProcessingTimeoutId setHasUserInteracted toast_error toast_success
       on_view emit
       fst snd view timers nextTimer log isProcessingVoice isPlayingAudio
       hasUserInteracted lastProcessedMessageId processingTimeoutId
       stream_isLoading recordingState recordingError].

Ltac flatten_log := repeat rewrite <- app_assoc; cbn [app].

(** The toggle does nothing while the session is processing: no recording
    is finalised then. *)
Lemma toggle_ignored_while_processing (c : View) (env : Env) (w : World) :
  isProcessingVoice c || stream_isLoading c = true ->
  handleRecordingToggle c env w = (Return tt, w).
Proof. intros H. unfold handleRecordingToggle. rewrite H. reflexivity. Qed.

(** The completion handler on a payload above the ceiling. *)
Lemma handleVoiceRecordingComplete_oversized (c : View) (env : Env)
    (audioBlob : Blob) (w : World) :
  stream_isLoading c = false ->
  (maxSize < blob_size audioBlob)%N ->
  exists w',
    handleVoiceRecordingComplete c env audioBlob w = (Return tt, w') /\
    log w' = log w ++ SetTimeout (nextTimer w) 60000 :: too_large_notice :: cleared c /\
    isProcessingVoice (view w') = false.
Proof.
  intros Hload Hbig. apply N.ltb_lt in Hbig.
  unfold handleVoiceRecordingComplete, cleared. rewrite Hload, Hbig.
  destruct (processingTimeoutId c) as [id|]; run_session;
    eexists; (split; [reflexivity|]); cbv beta iota;
    (split; [flatten_log; reflexivity | reflexivity]).
Qed.

(** C9: a recording finalised by the toggle (the session was not
    processing, the recorder was recording and handed back a payload)
    whose size exceeds the ceiling of 50 MB is rejected: the handler
    returns normally, the notice "Audio file too large" is shown, nothing
    is submitted, and the processing flag is off again. *)
Theorem oversized_recording_rejected (c : View) (env : Env)
    (audioBlob : Blob) (w : World) :
  isProcessingVoice c = false ->
  stream_isLoading c = false ->
  recordingState c = recording ->
  stopRecording env = Return (Some audioBlob) ->
  (maxSize < blob_size audioBlob)%N ->
  maxSize = 52428800%N /\
  exists w' added,
    handleRecordingToggle c env w = (Return tt, w') /\
    log w' = log w ++ added /\
    added = StopRecording :: SetTimeout (nextTimer w) 60000
              :: too_large_notice :: cleared c /\
    has_submit added = false /\
    isProcessingVoice (view w') = false.
Proof.
  intros Hproc Hload Hrec Hstop Hbig. split; [reflexivity|].
  unfold handleRecordingToggle. rewrite Hproc, Hload, Hrec. cbn [orb].
  unfold bind at 1.
  destruct (hasUserInteracted c); cbn [negb];
    unfold setHasUserInteracted, modify, ret, bind at 1, bind at 1, lift;
    rewrite Hstop;
    match goal with
    | |- context [handleVoiceRecordingComplete c env audioBlob ?w0] =>
        destruct (handleVoiceRecordingComplete_oversized c env audioBlob w0
                    Hload Hbig) as (w' & Hrun & Hlog & Hflag)
    end;
    rewrite Hrun; exists w'; eexists;
    (split; [reflexivity|]); (split; [rewrite Hlog; unfold emit, on_view;
               cbn [log nextTimer]; flatten_log; reflexivity|]);
    (split; [reflexivity|]); (split; [|exact Hflag]);
    unfold cleared; destruct (processingTimeoutId c); reflexivity.
Qed.

Lemma oversized_recording_rejected_witness :
  maxSize = 52428800%N /\
  exists w' added,
    handleRecordingToggle SessionSamples.recording_view
      (SessionSamples.browser SessionSamples.huge_clip) SessionSamples.start
    = (Return tt, w') /\
    log w' = log SessionSamples.start ++ added /\
    added = StopRecording :: SetTimeout 1 60000 :: too_large_notice :: [] /\
    has_submit added = false /\
    isProcessingVoice (view w') = false.
Proof.
  apply (oversized_recording_rejected SessionSamples.recording_view
           (SessionSamples.browser SessionSamples.huge_clip)
           SessionSamples.huge_clip SessionSamples.start).
  - reflexivity.
  - reflexivity.
  - reflexivity.
  - reflexivity.
  - reflexivity.
Defined.

(** ** The processing timeout *)

Lemma cleared_not_pending (id : nat) (ts : list (nat * N)) :
  existsb (fun t => Nat.eqb (fst t) id)
          (filter (fun t => negb (Nat.eqb (fst t) id)) ts) = false.
Proof.
  induction ts as [|t ts IH]; [reflexivity|].
  simpl. destruct (Nat.eqb (fst t) id) eqn:E; simpl.
  - exact IH.
  - rewrite E. exact IH.
Qed.

(** The completion handler never throws, and it begins by registering a
    timer of 60000 ms. *)
Lemma handleVoiceRecordingComplete_sets_timer (c : View) (env : Env)
    (audioBlob : Blob) (w : World) :
  stream_isLoading c = false ->
  exists w' rest,
    handleVoiceRecordingComplete c env audioBlob w = (Return tt, w') /\
    log w' = log w ++ SetTimeout (nextTimer w) 60000 :: rest.
Proof.
  intros Hload. unfold handleVoiceRecordingComplete. rewrite Hload.
  destruct (processingTimeoutId c) as [id|]; run_session;
    (destruct (maxSize <? blob_size audioBlob)%N;
     [| destruct (toBase64 env audioBlob) as [b64|e1];
        [ destruct (ensureToolCallsHaveResponses env) as [[]|e2];
          [ destruct (stream_submit env) as [[]|e3] | ] | ] ]);
    do 2 eexists; (split; [reflexivity|]); cbv beta iota;
    flatten_log; reflexivity.
Qed.

(** A pending processing timer that fires shows the time-out notice and
    switches the processing flag off; it touches nothing else that the
    session state depends on. *)
Lemma fire_pending (id : nat) (w : World) :
  pending id w = true ->
  exists w',
    fire id w = (Return tt, w') /\
    log w' = log w ++ [timed_out_notice] /\
    pending id w' = false /\
    isProcessingVoice (view w') = false /\
    isPlayingAudio (view w') = isPlayingAudio (view w) /\
    stream_isLoading (view w') = stream_isLoading (view w) /\
    recordingState (view w') = recordingState (view w) /\
    recordingError (view w') = recordingError (view w).
Proof.
  intros Hp. unfold fire, bind at 1, get. cbv beta iota. rewrite Hp. run_session.
  eexists. split; [reflexivity|]. cbv beta iota.
  split; [reflexivity|].
  split; [apply cleared_not_pending|]. repeat split.
Qed.

(** The effect that watches the stream plays a result it has not played
    yet, whatever timers have fired before. *)
Lemma onStreamValues_plays (c : View) (messageCount : nat)
    (ttsOutput : TTSOutput) (w : World) :
  stream_isLoading c = false ->
  hasUserInteracted c = true ->
  audioData ttsOutput <> "" ->
  lastProcessedMessageId c <> Some (currentTtsId messageCount ttsOutput) ->
  exists w',
    onStreamValues c messageCount (Some ttsOutput) w = (Return tt, w') /\
    log w' = log w ++ [PlayAudioFromBase64 (audioData ttsOutput)].
Proof.
  intros Hload Hint Hdata Hnew. unfold onStreamValues.
  rewrite Hload, Hint.
  apply String.eqb_neq in Hdata. rewrite Hdata.
  destruct (lastProcessedMessageId c) as [last|].
  - destruct (String.eqb_spec last (currentTtsId messageCount ttsOutput)) as [->|_];
      [congruence|].
    eexists. split; reflexivity.
  - eexists. split; reflexivity.
Qed.

End SessionFacts.

(** * Further properties of the agent package *)
Module AgentFacts.
Import Utils Routing.

(** ** [loadChatModel] *)

Lemma substring_all (s : string) : substring 0 (String.length s) s = s.
Proof. induction s as [|a s IH]; [reflexivity|]. simpl. rewrite IH. reflexivity. Qed.

Lemma slice_from_cons (i : nat) (a : ascii) (s : string) :
  slice_from (S i) (String a s) = slice_from i s.
Proof. reflexivity. Qed.

Lemma slice_from_0 (s : string) : slice_from 0 s = s.
Proof. unfold slice_from. rewrite Nat.sub_0_r. apply substring_all. Qed.

Lemma indexOf_spec (c : ascii) (s : string) :
  match indexOf c s with
  | Some i =>
      s = (substring 0 i s ++ String c (slice_from (i + 1) s))%string /\
      occurs c (substring 0 i s) = false
  | None => occurs c s = false
  end.
Proof.
  induction s as [|a rest IH]; [reflexivity|].
  simpl indexOf. simpl occurs. destruct (Ascii.eqb_spec a c) as [->|Hne].
  - split; [|reflexivity].
    change (0 + 1) with 1. rewrite slice_from_cons, slice_from_0. reflexivity.
  - destruct (indexOf c rest) as [i|].
    + destruct IH as [Heq Hocc].
      change (S i + 1) with (S (i + 1)). rewrite slice_from_cons.
      cbn [substring String.append occurs].
      destruct (Ascii.eqb_spec a c) as [|_]; [contradiction|].
      split; [f_equal; exact Heq | exact Hocc].
    + exact IH.
Qed.

Lemma indexOf_append (c : ascii) (p rest : string) :
  occurs c p = false ->
  indexOf c (p ++ String c rest) = Some (String.length p).
Proof.
  induction p as [|a p IH]; intros Hocc.
  - simpl. rewrite Ascii.eqb_refl. reflexivity.
  - simpl in Hocc. apply orb_false_iff in Hocc. destruct Hocc as [Ha Hp].
    simpl. rewrite Ha, (IH Hp). reflexivity.
Qed.

Lemma substring_append_left (p rest : string) :
  substring 0 (String.length p) (p ++ rest) = p.
Proof.
  induction p as [|a p IH].
  - destruct rest; reflexivity.
  - simpl. rewrite IH. reflexivity.
Qed.

(** X1: [loadChatModel] splits a name at its first slash and nowhere else.
    Without a slash the whole name is the model and no provider is given;
    otherwise provider, slash and model put together give the name back and
    the provider has no slash in it. Conversely a name built from a
    slash-free provider, a slash and any model (slashes allowed) is taken
    apart into exactly these two. *)
Theorem loadChatModel_splits_at_first_slash (fullySpecifiedName : string) :
  match modelProvider (loadChatModel fullySpecifiedName) with
  | None =>
      model (loadChatModel fullySpecifiedName) = fullySpecifiedName /\
      occurs "/" fullySpecifiedName = false
  | Some provider =>
      fullySpecifiedName
      = (provider ++ "/" ++ model (loadChatModel fullySpecifiedName))%string /\
      occurs "/" provider = false
  end /\
  (forall provider name,
      occurs "/" provider = false ->
      fullySpecifiedName = (provider ++ "/" ++ name)%string ->
      loadChatModel fullySpecifiedName
      = {| model := name; modelProvider := Some provider |}).
Proof.
  split.
  - unfold loadChatModel.
    pose proof (indexOf_spec "/" fullySpecifiedName) as H.
    destruct (indexOf "/" fullySpecifiedName) as [i|]; cbn [model modelProvider].
    + exact H.
    + split; [reflexivity | exact H].
  - intros provider name Hocc ->. unfold loadChatModel.
    change (provider ++ "/" ++ name)%string
      with (provider ++ String "/" name)%string.
    rewrite (indexOf_append "/" provider name Hocc).
    rewrite substring_append_left.
    replace (String.length provider + 1) with (S (String.length provider)) by lia.
    assert (Hs : slice_from (S (String.length provider)) (provider ++ String "/" name)
                 = name).
    { clear Hocc. induction provider as [|a p IH].
      - simpl String.length. simpl String.append.
        rewrite slice_from_cons. apply slice_from_0.
      - simpl String.length. simpl String.append. rewrite slice_from_cons.
        exact IH. }
    rewrite Hs. reflexivity.
Qed.

Lemma loadChatModel_splits_at_first_slash_witness :
  loadChatModel "openai/azure/gpt-4o"
  = {| model := "azure/gpt-4o"; modelProvider := Some "openai" |}.
Proof.
  destruct (loadChatModel_splits_at_first_slash "openai/azure/gpt-4o") as [_ H].
  apply (H "openai" "azure/gpt-4o"); reflexivity.
Defined.

End AgentFacts.

(** * Further properties of the turn graph *)
Module StageFacts.
Import TurnGraph Vocabulary Routing.

(** ** The transcribe stage *)

(** Whatever the transcription service answers, the loop over [fs] tries a
    prefix of [fs] and ends with a transcript or a throw. *)
Lemma try_formats_tries_a_prefix (env : Env) (buffer : list byte)
    (fs : list Format) :
  forall (lastError : option Exn) (l : Log),
  exists k,
    (exists t, try_formats env buffer fs lastError l
               = (Return (transcribed t), l ++ attempts buffer (firstn k fs))) \/
    (exists e, try_formats env buffer fs lastError l
               = (Throw e, l ++ attempts buffer (firstn k fs))).
Proof.
  induction fs as [|f rest IH]; intros lastError l.
  - exists 0. right. simpl. rewrite app_nil_r. eexists. reflexivity.
  - simpl. unfold try_catch, bind, attemptTranscription. rewrite call_run.
    destruct (transcriptions_create env buffer (name f)) as [t|e].
    + exists 1. left. exists t. reflexivity.
    + destruct (IH (Some e) (l ++ [Transcribe buffer (name f) (type f)]))
        as [k [[t Ht]|[e' He']]]; exists (S k); [left; exists t | right; exists e'];
        cbn [firstn attempts map]; fold (attempts buffer (firstn k rest));
        [rewrite Ht | rewrite He']; rewrite <- app_assoc; reflexivity.
Qed.

(** X2: a turn that carries audio always leaves the transcribe stage with
    exactly one new human message (the transcript or the apology) and with
    [audioInput] cleared, whatever the transcription service does; the calls
    made are a prefix of the five candidates, all on the same decoded bytes,
    so never more than five. *)
Theorem speech_to_text_one_human_message (env : Env) (s : TurnState)
    (ai : SpeechInput) (l : Log) :
  audioInput s = Some ai ->
  exists text k,
    speech_to_text env s l
    = (Return (transcribed text),
       l ++ attempts (decoded env ai) (firstn k formats)) /\
    length (attempts (decoded env ai) (firstn k formats)) <= 5 /\
    applyUpdate s (transcribed text)
    = {| messages := messages s ++ [HumanMessage text];
         audioInput := None;
         ttsOutput := ttsOutput s |}.
Proof.
  intros Hai.
  assert (Hlen : forall buffer k,
             length (attempts buffer (firstn k formats)) <= 5).
  { intros buffer k. unfold attempts. rewrite length_map, length_firstn.
    change (length formats) with 5. lia. }
  unfold speech_to_text. rewrite Hai. unfold try_catch.
  destruct (truthy (OPENAI_API_KEY env)); cbn [negb].
  - unfold decoded. destruct (audioData ai) as [data|].
    + destruct ((data =? "") || Nat.ltb (String.length data) 100).
      * exists apology, 0. cbn [firstn attempts map]. rewrite app_nil_r.
        repeat split. apply Nat.le_0_l.
      * destruct (try_formats_tries_a_prefix env (base64ToBuffer env data)
                    formats None l) as [k [[t Ht]|[e He]]].
        -- exists t, k. rewrite Ht. repeat split. apply Hlen.
        -- exists apology, k. rewrite He. repeat split. apply Hlen.
    + exists apology, 0. cbn [firstn attempts map]. rewrite app_nil_r.
      repeat split. apply Nat.le_0_l.
  - exists apology, 0. cbn [firstn attempts map]. rewrite app_nil_r.
    repeat split. apply Nat.le_0_l.
Qed.

Lemma speech_to_text_one_human_message_witness :
  exists text k,
    speech_to_text Samples.healthy Samples.voice_turn []
    = (Return (transcribed text),
       [] ++ attempts [x52; x49; x46; x46]%byte (firstn k formats)) /\
    length (attempts [x52; x49; x46; x46]%byte (firstn k formats)) <= 5 /\
    applyUpdate Samples.voice_turn (transcribed text)
    = {| messages := [] ++ [HumanMessage text];
         audioInput := None;
         ttsOutput := None |}.
Proof.
  apply (speech_to_text_one_human_message Samples.healthy Samples.voice_turn
           {| audioData := Some Samples.long_audio;
              mimeType := Some "audio/webm";
              size := Some 78%N |} []).
  reflexivity.
Defined.

(** X3: nothing is sent to the transcription service when the API key is
    not configured (unset or empty) or when the audio data is absent or
    shorter than 100 characters: the stage answers with the apology and the
    call log is untouched. *)
Theorem speech_to_text_sends_nothing_when_unfit (env : Env) (s : TurnState)
    (ai : SpeechInput) (l : Log) :
  audioInput s = Some ai ->
  truthy (OPENAI_API_KEY env) = false \/
  match audioData ai with
  | Some data => String.length data < 100
  | None => True
  end ->
  speech_to_text env s l = (Return (transcribed apology), l).
Proof.
  intros Hai Hunfit. unfold speech_to_text. rewrite Hai. unfold try_catch.
  destruct (truthy (OPENAI_API_KEY env)); cbn [negb]; [|reflexivity].
  destruct Hunfit as [Hkey|Hdata]; [discriminate|].
  destruct (audioData ai) as [data|]; [|reflexivity].
  apply Nat.ltb_lt in Hdata. rewrite Hdata, orb_true_r. reflexivity.
Qed.

Lemma speech_to_text_sends_nothing_when_unfit_witness :
  speech_to_text keyless Samples.voice_turn [] = (Return (transcribed apology), []) /\
  speech_to_text Samples.healthy Samples.empty_audio_turn []
  = (Return (transcribed apology), []).
Proof.
  split.
  - apply (speech_to_text_sends_nothing_when_unfit keyless Samples.voice_turn
             {| audioData := Some Samples.long_audio;
                mimeType := Some "audio/webm";
                size := Some 78%N |} []);
      [reflexivity | left; reflexivity].
  - apply (speech_to_text_sends_nothing_when_unfit Samples.healthy
             Samples.empty_audio_turn
             {| audioData := Some ""; mimeType := None; size := Some 0%N |} []);
      [reflexivity | right; simpl; lia].
Defined.

(** ** The whole turn *)

Lemma transcribe_node_post (env : Env) (s : TurnState) (l : Log) :
  exists s1 l1 m,
    node "speech_to_text" (speech_to_text env) s l = (Return s1, l1) /\
    messages s1 = messages s ++ m /\
    length m <= 1 /\
    audioInput s1 = None.
Proof.
  rewrite node_run. destruct (audioInput s) as [ai|] eqn:Hai.
  - destruct (speech_to_text_one_human_message env s ai
                (l ++ [EnterNode "speech_to_text"]) Hai)
      as (text & k & Hrun & _ & Hstate).
    rewrite Hrun, Hstate. do 2 eexists. exists [HumanMessage text].
    repeat split. simpl. lia.
  - unfold speech_to_text. rewrite Hai. unfold ret. rewrite applyUpdate_empty.
    do 2 eexists. exists []. rewrite app_nil_r. repeat split; auto.
Qed.

Lemma after_transcribe_post (env : Env) (s1 final : TurnState) (l l' : Log) :
  after_transcribe env s1 l = (Return final, l') ->
  exists ms,
    reactAgent_invoke env (messages s1) = Return ms /\
    messages final = messages s1 ++ skipn (length (messages s1)) ms /\
    audioInput final = audioInput s1.
Proof.
  intros Hrun.
  destruct (after_transcribe_runs env s1 l) as (r & added & Hr & Hok & Hthrow).
  rewrite Hr in Hrun. injection Hrun as Hfinal _.
  destruct (reactAgent_invoke env (messages s1)) as [ms|e].
  - destruct (Hok ms eq_refl) as (u & rest & _ & Hret & Hu).
    rewrite Hret in Hfinal. injection Hfinal as <-.
    match type of Hu with
    | text_to_speech env ?s2 ?l2 = _ =>
        destruct (text_to_speech_returns env s2 l2) as (u' & calls & Hu' & Hm & Ha)
    end.
    rewrite Hu in Hu'. injection Hu' as -> _.
    exists ms. split; [reflexivity|]. split; [exact Hm | exact Ha].
  - destruct (Hthrow e eq_refl) as [Hr' _]. rewrite Hr' in Hfinal. discriminate.
Qed.

(** X4: a turn that returns never loses or rewrites what was in [messages]
    before: the returned list is the input list followed by what the turn
    added (at most one human message from the transcribe stage, then the
    agent's new messages), and [audioInput] is absent in every returned
    state. *)
Theorem graph_appends_only (env : Env) (s final : TurnState) (l l' : Log) :
  graph env s l = (Return final, l') ->
  exists heard ms,
    length heard <= 1 /\
    reactAgent_invoke env (messages s ++ heard) = Return ms /\
    messages final
    = messages s ++ heard ++ skipn (length (messages s ++ heard)) ms /\
    audioInput final = None.
Proof.
  intros Hrun.
  destruct (transcribe_node_post env s l)
    as (s1 & l1 & heard & Hnode & Hmsg & Hlen & Haudio).
  rewrite (graph_after_transcribe env s s1 l l1 Hnode) in Hrun.
  destruct (after_transcribe_post env s1 final l1 l' Hrun) as (ms & Hms & Hfin & Ha).
  exists heard, ms. rewrite <- Hmsg. split; [exact Hlen|]. split; [exact Hms|].
  split.
  - rewrite Hfin, Hmsg, <- app_assoc. reflexivity.
  - rewrite Ha. exact Haudio.
Qed.

Lemma graph_appends_only_witness :
  exists heard ms,
    length heard <= 1 /\
    reactAgent_invoke Samples.healthy (messages Samples.voice_turn ++ heard)
    = Return ms /\
    [HumanMessage "what time is it"; Samples.answer]
    = messages Samples.voice_turn ++ heard
        ++ skipn (length (messages Samples.voice_turn ++ heard)) ms /\
    (None : option SpeechInput) = None.
Proof.
  apply (graph_appends_only Samples.healthy Samples.voice_turn
           {| messages := [HumanMessage "what time is it"; Samples.answer];
              audioInput := None;
              ttsOutput := Some {| tts_audioData := "//uQ";
                                   tts_mimeType := "audio/mpeg";
                                   tts_size := 3 |} |}
           []
           [EnterNode "speech_to_text";
            Transcribe [x52; x49; x46; x46]%byte "audio.wav" "audio/wav";
            Transcribe [x52; x49; x46; x46]%byte "audio.webm" "audio/webm";
            Transcribe [x52; x49; x46; x46]%byte "audio.mp3" "audio/mp3";
            EnterNode "react_agent"; InvokeAgent [HumanMessage "what time is it"];
            EnterNode "text_to_speech";
            Convert defaultVoice "Hi! How can I help?";
            WriteFile [xff; xfb; x90]%byte]).
  reflexivity.
Defined.

(** ** The agent node *)

(** X5: the agent node appends only what the agent added. When the agent
    returns the messages it was given followed by new ones, exactly the new
    ones are appended; when it returns no more messages than it was given,
    nothing is appended; in every case the first [messages.length] entries
    of its answer are dropped, so history is never appended again. *)
Theorem react_agent_node_appends_suffix (env : Env) (s : TurnState) (l : Log)
    (result : list Message) :
  reactAgent_invoke env (messages s) = Return result ->
  exists u,
    react_agent_node env s l = (Return u, l ++ [InvokeAgent (messages s)]) /\
    messages (applyUpdate s u)
    = messages s ++ skipn (length (messages s)) result /\
    (forall new, result = messages s ++ new ->
                 messages (applyUpdate s u) = result) /\
    (length result <= length (messages s) ->
     messages (applyUpdate s u) = messages s).
Proof.
  intros Hres. unfold react_agent_node, bind. rewrite call_run, Hres. unfold ret.
  eexists. split; [reflexivity|]. cbn [applyUpdate u_messages messages].
  split; [reflexivity|]. split.
  - intros new ->. rewrite skipn_app, skipn_all, Nat.sub_diag. reflexivity.
  - intros Hshort. rewrite (skipn_all2 _ Hshort). apply app_nil_r.
Qed.

Lemma react_agent_node_appends_suffix_witness :
  exists u,
    react_agent_node Samples.healthy Samples.text_turn []
    = (Return u, [] ++ [InvokeAgent [HumanMessage "hello"]]) /\
    messages (applyUpdate Samples.text_turn u)
    = [HumanMessage "hello"; Samples.answer].
Proof.
  destruct (react_agent_node_appends_suffix Samples.healthy Samples.text_turn []
              [HumanMessage "hello"; Samples.answer] eq_refl)
    as (u & Hrun & _ & Hnew & _).
  exists u. split; [exact Hrun|]. apply (Hnew [Samples.answer]). reflexivity.
Defined.

(** ** The synthesize stage *)

(** X6: the synthesize stage always writes the [ttsOutput] key, and only
    that key: whatever [ttsOutput] the state carried before is replaced
    (by the new payload or by [undefined]), [messages] and [audioInput] are
    never part of the update, the stage never throws, and it makes at most
    one synthesis call and one file write. *)
Theorem text_to_speech_writes_only_ttsOutput (env : Env) (s : TurnState) (l : Log) :
  exists v calls,
    text_to_speech env s l
    = (Return {| u_messages := None; u_audioInput := None; u_ttsOutput := Some v |},
       l ++ calls) /\
    length calls <= 2 /\
    ttsOutput (applyUpdate s {| u_messages := None; u_audioInput := None;
                                u_ttsOutput := Some v |}) = v.
Proof.
  pose proof (text_to_speech_cases env s l) as Hc.
  destruct (speakable (lastMessageOf (messages s))) as [text|].
  - destruct (truthy (ELEVENLABS_API_KEY env)).
    + destruct (textToSpeech_convert env (voiceOf env) text) as [chunks|e];
        rewrite Hc; do 2 eexists; (split; [reflexivity|]); split;
        try reflexivity; simpl; lia.
    + rewrite Hc. exists None, []. rewrite app_nil_r. repeat split. simpl. lia.
  - rewrite Hc. exists None, []. rewrite app_nil_r. repeat split. simpl. lia.
Qed.

(** X7: without a synthesis API key (unset or empty) the stage does not
    call the synthesis service at all, even for a speakable agent message:
    it returns [{ ttsOutput: undefined }] and the call log is untouched. *)
Theorem text_to_speech_needs_key (env : Env) (s : TurnState) (l : Log) :
  truthy (ELEVENLABS_API_KEY env) = false ->
  text_to_speech env s l = (Return noTTS, l).
Proof.
  intros Hkey. pose proof (text_to_speech_cases env s l) as Hc.
  rewrite Hkey in Hc.
  destruct (speakable (lastMessageOf (messages s))); exact Hc.
Qed.

Lemma text_to_speech_needs_key_witness :
  text_to_speech keyless Samples.answered_turn [] = (Return noTTS, []).
Proof.
  apply (text_to_speech_needs_key keyless Samples.answered_turn []). reflexivity.
Defined.

(** X8: saving the audio to a local file cannot change the outcome of the
    stage: whether the write succeeds or throws, the same update is
    returned. *)
Theorem text_to_speech_ignores_write_failure (env : Env)
    (w : list byte -> Outcome unit) (s : TurnState) (l : Log) :
  text_to_speech (with_writeFileSync env w) s l = text_to_speech env s l.
Proof.
  pose proof (text_to_speech_cases env s l) as H1.
  pose proof (text_to_speech_cases (with_writeFileSync env w) s l) as H2.
  change (voiceOf (with_writeFileSync env w)) with (voiceOf env) in H2.
  change (ELEVENLABS_API_KEY (with_writeFileSync env w))
    with (ELEVENLABS_API_KEY env) in H2.
  change (textToSpeech_convert (with_writeFileSync env w))
    with (textToSpeech_convert env) in H2.
  destruct (speakable (lastMessageOf (messages s))) as [text|].
  - destruct (truthy (ELEVENLABS_API_KEY env)).
    + destruct (textToSpeech_convert env (voiceOf env) text) as [chunks|e];
        rewrite H1, H2; reflexivity.
    + rewrite H1, H2. reflexivity.
  - rewrite H1, H2. reflexivity.
Qed.

(** X9: [shouldProcessTTS] and the synthesize stage agree except on array
    content. When the router answers "__end__" the stage would do nothing;
    whenever the stage has a text to speak the router answers
    "processTTS"; but for an agent message whose content is an array the
    router answers "processTTS" although the stage returns without
    synthesis. *)
Theorem shouldProcessTTS_agrees (env : Env) (s : TurnState) (l : Log) :
  (shouldProcessTTS s = "__end__" ->
   text_to_speech env s l = (Return noTTS, l)) /\
  (forall text, speakable (lastMessageOf (messages s)) = Some text ->
                shouldProcessTTS s = "processTTS") /\
  (forall m ps, lastMessageOf (messages s) = Some m ->
                isAI m = true ->
                content m = Parts ps ->
                shouldProcessTTS s = "processTTS" /\
                text_to_speech env s l = (Return noTTS, l)).
Proof.
  pose proof (text_to_speech_cases env s l) as Hc.
  unfold shouldProcessTTS, speakable in *.
  destruct (lastMessageOf (messages s)) as [m|];
    [| repeat split; try (intros; discriminate); intros _; exact Hc].
  split; [|split].
  - destruct (content m) as [t|ps]; cbn [truthy_content].
    + destruct (isAI m), (t =? ""); cbn [andb negb] in *;
        try discriminate; intros _; exact Hc.
    + destruct (isAI m); cbn [andb]; [discriminate | intros _; exact Hc].
  - intros text. destruct (content m) as [t|ps]; [|discriminate].
    cbn [truthy_content]. destruct (isAI m && negb (t =? "")); [reflexivity|discriminate].
  - intros m' ps Hm HAI Hparts. injection Hm as <-.
    rewrite Hparts in *. rewrite HAI. split; [reflexivity | exact Hc].
Qed.

Lemma shouldProcessTTS_agrees_witness :
  shouldProcessTTS parts_turn = "processTTS" /\
  text_to_speech Samples.healthy parts_turn [] = (Return noTTS, []) /\
  shouldProcessTTS Samples.answered_turn = "processTTS" /\
  text_to_speech Samples.healthy Samples.text_turn [] = (Return noTTS, []).
Proof.
  destruct (shouldProcessTTS_agrees Samples.healthy parts_turn [])
    as (_ & _ & Hparts).
  destruct (shouldProcessTTS_agrees Samples.healthy Samples.answered_turn [])
    as (_ & Hspeak & _).
  destruct (shouldProcessTTS_agrees Samples.healthy Samples.text_turn [])
    as (Hend & _ & _).
  destruct (Hparts {| kind := AI; content := Parts ["Hi!"; "How can I help?"] |}
              ["Hi!"; "How can I help?"] eq_refl eq_refl eq_refl) as [H1 H2].
  split; [exact H1|]. split; [exact H2|].
  split; [apply (Hspeak "Hi! How can I help?"); reflexivity|].
  apply Hend. reflexivity.
Defined.

End StageFacts.

(** * Further properties of the player hook *)
Module PlayerMoreFacts.
Import TTSPlayer PlayerMore Utils.

(** ** The fingerprint *)

Lemma digits_have_no (c : ascii) (d : Decimal.uint) :
  (forall k, k < 10 -> c <> ascii_of_nat (48 + k)) ->
  occurs c (NilEmpty.string_of_uint d) = false.
Proof.
  intros Hc.
  assert (Hno : forall k, k < 10 -> Ascii.eqb (ascii_of_nat (48 + k)) c = false).
  { intros k Hk. apply Ascii.eqb_neq. intros E. apply (Hc k Hk). symmetry. exact E. }
  induction d; cbn [NilEmpty.string_of_uint occurs]; [reflexivity|..];
    rewrite IHd, orb_false_r.
  - exact (Hno 0 ltac:(lia)).
  - exact (Hno 1 ltac:(lia)).
  - exact (Hno 2 ltac:(lia)).
  - exact (Hno 3 ltac:(lia)).
  - exact (Hno 4 ltac:(lia)).
  - exact (Hno 5 ltac:(lia)).
  - exact (Hno 6 ltac:(lia)).
  - exact (Hno 7 ltac:(lia)).
  - exact (Hno 8 ltac:(lia)).
  - exact (Hno 9 ltac:(lia)).
Qed.

Lemma showN_no_dash (n : N) : occurs "-" (showN n) = false.
Proof.
  apply digits_have_no. intros k Hk.
  do 10 (destruct k as [|k]; [discriminate|]). lia.
Qed.

Lemma showN_inj (n m : N) : showN n = showN m -> n = m.
Proof.
  unfold showN. intros H. apply DecimalN.Unsigned.to_uint_inj.
  pose proof (NilEmpty.usu (N.to_uint n)) as Hn.
  pose proof (NilEmpty.usu (N.to_uint m)) as Hm.
  rewrite H in Hn. rewrite Hn in Hm. injection Hm as ->. reflexivity.
Qed.

(** Two texts that agree up to and including their first [c] agree before
    and after it. *)
Lemma split_at_first (c : ascii) (d1 d2 p1 p2 : string) :
  occurs c d1 = false ->
  occurs c d2 = false ->
  (d1 ++ String c p1)%string = (d2 ++ String c p2)%string ->
  d1 = d2 /\ p1 = p2.
Proof.
  revert d2. induction d1 as [|a d1 IH]; intros d2 H1 H2 E.
  - destruct d2 as [|b d2].
    + simpl in E. injection E as ->. auto.
    + simpl in E, H2. injection E as <- _. rewrite Ascii.eqb_refl in H2. discriminate.
  - destruct d2 as [|b d2].
    + simpl in E, H1. injection E as -> _. rewrite Ascii.eqb_refl in H1. discriminate.
    + simpl in E, H1, H2. injection E as -> E.
      apply orb_false_iff in H1, H2.
      destruct (IH d2 (proj2 H1) (proj2 H2) E) as [-> ->]. auto.
Qed.

(** X10: the fingerprint of a synthesis result says exactly its declared
    size and the first 50 characters of its payload: two results have the
    same fingerprint if and only if they agree on both. The declared MIME
    type and everything after the 50th character play no part, so a result
    that differs from the one on record only there is dropped as a
    duplicate, and [playTTS] behaves the same under any declared MIME type. *)
Theorem audioHash_is_size_and_prefix (t1 t2 : TTSOutput) :
  (audioHash t1 = audioHash t2 <->
   size t1 = size t2 /\
   substring 0 50 (audioData t1) = substring 0 50 (audioData t2)) /\
  (forall closureUrl browser p,
      size t1 = size t2 ->
      substring 0 50 (audioData t1) = substring 0 50 (audioData t2) ->
      lastPlayedDataRef p = Some (audioHash t1) ->
      playTTS closureUrl browser t2 p = (Return tt, p)) /\
  (forall closureUrl browser p m,
      playTTS closureUrl browser (with_mimeType t1 m) p
      = playTTS closureUrl browser t1 p).
Proof.
  assert (Hiff : audioHash t1 = audioHash t2 <->
                 size t1 = size t2 /\
                 substring 0 50 (audioData t1) = substring 0 50 (audioData t2)).
  { unfold audioHash. split.
    - intros E.
      change (showN (size t1) ++ "-" ++ substring 0 50 (audioData t1))%string
        with (showN (size t1) ++ String "-" (substring 0 50 (audioData t1)))%string in E.
      change (showN (size t2) ++ "-" ++ substring 0 50 (audioData t2))%string
        with (showN (size t2) ++ String "-" (substring 0 50 (audioData t2)))%string in E.
      destruct (split_at_first "-" _ _ _ _ (showN_no_dash _) (showN_no_dash _) E)
        as [Hs Hp].
      split; [apply showN_inj; exact Hs | exact Hp].
    - intros [-> ->]. reflexivity. }
  split; [exact Hiff|]. split.
  - intros closureUrl browser p Hs Hp Hlast.
    apply PlayerFacts.playTTS_skips. rewrite Hlast. f_equal.
    apply Hiff. auto.
  - intros closureUrl browser p m. reflexivity.
Qed.

Lemma audioHash_is_size_and_prefix_witness :
  audioHash PlayerSamples.reply = audioHash lookalike /\
  playTTS None PlayerSamples.allows lookalike PlayerSamples.playing_reply
  = (Return tt, PlayerSamples.playing_reply).
Proof.
  destruct (audioHash_is_size_and_prefix PlayerSamples.reply lookalike)
    as (Hiff & Hdrop & _).
  split.
  - apply Hiff. split; reflexivity.
  - apply Hdrop; reflexivity.
Defined.

(** ** Failures and teardown *)

Lemma not_on_record (p : Player) (h : string) :
  lastPlayedDataRef p <> Some h ->
  match lastPlayedDataRef p with
  | Some last => last =? h
  | None => false
  end = false.
Proof.
  intros H. destruct (lastPlayedDataRef p) as [last|]; [|reflexivity].
  apply String.eqb_neq. congruence.
Qed.

Ltac player_state :=
  cbn [fst snd lastPlayedDataRef audioRef log isPlaying currentTTSUrl
       set_lastPlayedDataRef set_audioRef setIsPlaying setCurrentTTSUrl emit].

Ltac start_player Hnew :=
  unfold playTTS, revoke_captured, try_catch, bind, get, modify, lift, ret, throw;
  player_state; rewrite (not_on_record _ _ Hnew).

(** X11: a delivery whose payload cannot be decoded, or decodes to nothing,
    is absorbed: [playTTS] returns normally, creates no audio element and
    starts nothing, forgets the fingerprint, switches [isPlaying] off and
    ends with the error notice "TTS playback failed" carrying the reason;
    an audio element that was there before has nevertheless been paused
    and emptied. *)
Theorem playTTS_undecodable (closureUrl : option string) (browser : Browser)
    (t : TTSOutput) (p : Player) (reason : string) :
  lastPlayedDataRef p <> Some (audioHash t) ->
  (atob browser (audioData t) = Return "" /\ reason = "Audio blob is empty") \/
  (exists e, atob browser (audioData t) = Throw e /\ reason = exn_message e) ->
  let p' := snd (playTTS closureUrl browser t p) in
  fst (playTTS closureUrl browser t p) = Return tt /\
  created (log p') = created (log p) /\
  started (log p') = started (log p) /\
  lastPlayedDataRef p' = None /\
  isPlaying p' = false /\
  audioRef p' = option_map emptied (audioRef p) /\
  exists before, log p' = before ++ [ToastError "TTS playback failed" reason].
Proof.
  intros Hnew Hbad. start_player Hnew.
  destruct Hbad as [[Hatob ->]|[e [Hatob ->]]]; rewrite Hatob;
    destruct (audioRef p) as [a|] eqn:Ha;
    destruct closureUrl as [url|]; try destruct (url =? "");
    player_state; cbn [String.length Nat.eqb];
    player_state;
    (split; [reflexivity|]); (split; [PlayerFacts.count_effects|]);
    (split; [PlayerFacts.count_effects|]);
    (split; [reflexivity|]); (split; [reflexivity|]);
    (split; [rewrite ?Ha; reflexivity|]); eexists; reflexivity.
Qed.

Lemma playTTS_undecodable_witness :
  fst (playTTS None garbled PlayerSamples.reply
         (snd (stopTTS PlayerSamples.playing_reply))) = Return tt /\
  created (log (snd (playTTS None garbled PlayerSamples.reply
                       (snd (stopTTS PlayerSamples.playing_reply)))))
  = created (log (snd (stopTTS PlayerSamples.playing_reply))).
Proof.
  destruct (playTTS_undecodable None garbled PlayerSamples.reply
              (snd (stopTTS PlayerSamples.playing_reply))
              "The string to be decoded is not correctly encoded.")
    as (Hret & Hcreated & _).
  - discriminate.
  - right. eexists. split; reflexivity.
  - split; [exact Hret | exact Hcreated].
Defined.

(** X12: a delivery that is not dropped first tears down the audio element
    that was there: the element is paused and emptied before anything else
    happens, whether or not the new delivery then plays; and one call
    creates at most one audio element. *)
Theorem playTTS_tears_down_first (closureUrl : option string) (browser : Browser)
    (t : TTSOutput) (p : Player) (a : Audio) :
  lastPlayedDataRef p <> Some (audioHash t) ->
  audioRef p = Some a ->
  let p' := snd (playTTS closureUrl browser t p) in
  (exists rest, log p' = log p ++ AudioPause :: AudioLoad :: rest) /\
  created (log p') <= created (log p) + 1 /\
  (audioRef p' = Some (emptied a) \/
   audioRef p' = Some {| src := createObjectURL browser;
                         currentTime := 0;
                         captured := closureUrl |}).
Proof.
  intros Hnew Ha. start_player Hnew. rewrite Ha.
  destruct closureUrl as [url|]; try destruct (url =? "");
    player_state;
    destruct (atob browser (audioData t)) as [bin|e];
    try destruct (Nat.eqb (String.length bin) 0);
    try destruct (play browser) as [[]|e'];
    player_state;
    (split; [repeat rewrite <- app_assoc; cbn [app]; eexists; reflexivity|]);
    (split; [PlayerFacts.count_effects|]);
    first [left; reflexivity | right; reflexivity].
Qed.

Lemma playTTS_tears_down_first_witness :
  exists rest,
    log (snd (playTTS (Some "blob:1") PlayerSamples.blocks PlayerSamples.reply
                (snd (stopTTS PlayerSamples.playing_reply))))
    = log (snd (stopTTS PlayerSamples.playing_reply))
      ++ AudioPause :: AudioLoad :: rest.
Proof.
  destruct (playTTS_tears_down_first (Some "blob:1") PlayerSamples.blocks
              PlayerSamples.reply (snd (stopTTS PlayerSamples.playing_reply))
              {| src := "blob:1"; currentTime := 0; captured := None |})
    as (Hlog & _).
  - discriminate.
  - reflexivity.
  - exact Hlog.
Defined.

(** ** Object URLs *)

Lemma revocations_snoc (url : string) (l : list Effect) (e : Effect) :
  revocations url (l ++ [e])
  = revocations url l
    + match e with
      | RevokeObjectURL u => if u =? url then 1 else 0
      | _ => 0
      end.
Proof.
  unfold revocations. rewrite filter_app, length_app. simpl.
  destruct e; try reflexivity. destruct (url0 =? url); reflexivity.
Qed.

Ltac count_revocations :=
  player_state; repeat rewrite revocations_snoc;
  repeat match goal with
         | H : (?u =? ?v) = false |- context [?u =? ?v] => rewrite H
         end;
  lia.

(** X13: [playTTS] never revokes the object URL it creates, and neither
    does the "ended" listener of the audio element it creates: both revoke
    the URL that the render which built this [playTTS] had in
    [currentTTSUrl], which is an earlier one. *)
Theorem playTTS_leaves_its_url (closureUrl : option string) (browser : Browser)
    (t : TTSOutput) (p : Player) :
  lastPlayedDataRef p <> Some (audioHash t) ->
  closureUrl <> Some (createObjectURL browser) ->
  createObjectURL browser <> "" ->
  let url := createObjectURL browser in
  let p' := snd (playTTS closureUrl browser t p) in
  revocations url (log p') = revocations url (log p) /\
  (forall a q,
      audioRef p' = Some a ->
      src a = url ->
      revocations url (log (snd (onEnded a q))) = revocations url (log q)).
Proof.
  intros Hnew Hold Hurl url p'. subst p'. start_player Hnew.
  assert (Hne : forall u, closureUrl = Some u -> (u =? url) = false).
  { intros u ->. apply String.eqb_neq. intros E. apply Hold. rewrite E. reflexivity. }
  assert (Hended : forall a q, captured a = closureUrl ->
            revocations url (log (snd (onEnded a q))) = revocations url (log q)).
  { intros a q Hc. unfold onEnded, revoke_captured, bind, modify, ret. rewrite Hc.
    destruct closureUrl as [u|]; [|reflexivity].
    pose proof (Hne u eq_refl) as Hu.
    destruct (u =? ""); player_state; [reflexivity|].
    rewrite revocations_snoc, Hu. lia. }
  destruct (audioRef p) as [old|] eqn:Hold_audio;
    destruct closureUrl as [u|];
    try (pose proof (Hne u eq_refl) as Hu); try destruct (u =? "");
    player_state;
    destruct (atob browser (audioData t)) as [bin|e];
    try destruct (Nat.eqb (String.length bin) 0);
    try destruct (play browser) as [[]|e'];
    player_state;
    (split; [count_revocations|]);
    intros a q Ha Hsrc; rewrite ?Hold_audio in Ha;
    try discriminate;
    injection Ha as <-; cbn [src] in Hsrc;
    try (exfalso; apply Hurl; symmetry; exact Hsrc);
    apply Hended; reflexivity.
Qed.

Lemma playTTS_leaves_its_url_witness :
  revocations "blob:1" (log PlayerSamples.playing_reply) = 0 /\
  revocations "blob:1"
    (log (snd (onEnded {| src := "blob:1"; currentTime := 0; captured := None |}
                 PlayerSamples.playing_reply))) = 0.
Proof.
  destruct (playTTS_leaves_its_url None PlayerSamples.allows PlayerSamples.reply
              PlayerSamples.fresh) as [Hcall Hended].
  - discriminate.
  - discriminate.
  - discriminate.
  - split; [exact Hcall|].
    transitivity (revocations "blob:1" (log PlayerSamples.playing_reply));
      [| reflexivity].
    exact (Hended {| src := "blob:1"; currentTime := 0; captured := None |}
             PlayerSamples.playing_reply eq_refl eq_refl).
Defined.

End PlayerMoreFacts.

(** * Further properties of the voice-only interface *)
Module SessionMoreFacts.
Import VoiceSession SessionMore.

Ltac run := SessionFacts.run_session.

Lemma toasts_snoc (l : list Effect) (e : Effect) :
  toasts (l ++ [e]) = toasts l + (if is_toast e then 1 else 0).
Proof.
  unfold toasts. rewrite filter_app, length_app. simpl.
  destruct (is_toast e); reflexivity.
Qed.

Lemma submissions_snoc (l : list Effect) (e : Effect) :
  submissions (l ++ [e]) = submissions l ++ (if is_submit e then [e] else []).
Proof.
  unfold submissions. rewrite filter_app. simpl.
  destruct (is_submit e); reflexivity.
Qed.

Ltac count_notices :=
  cbv beta iota; repeat rewrite toasts_snoc; repeat rewrite submissions_snoc;
  cbn [is_toast is_submit]; repeat rewrite app_nil_r; repeat rewrite length_app;
  cbn [length]; try lia.

(** ** The completion handler *)

(** X14: [handleVoiceRecordingComplete] never throws, whatever the
    conversion, [ensureToolCallsHaveResponses] and [stream.submit] do. While
    the stream is loading it does nothing at all. Otherwise every path ends
    with the processing flag switched off again, shows exactly one notice,
    makes at most one submission and registers exactly one timer. *)
Theorem handleVoiceRecordingComplete_always_settles (c : View) (env : Env)
    (audioBlob : Blob) (w : World) :
  exists w',
    handleVoiceRecordingComplete c env audioBlob w = (Return tt, w') /\
    (stream_isLoading c = true -> w' = w) /\
    (stream_isLoading c = false ->
     isProcessingVoice (view w') = false /\
     toasts (log w') = toasts (log w) + 1 /\
     length (submissions (log w')) <= length (submissions (log w)) + 1 /\
     nextTimer w' = S (nextTimer w)).
Proof.
  unfold handleVoiceRecordingComplete.
  destruct (stream_isLoading c).
  - exists w. split; [reflexivity|]. split; [reflexivity | discriminate].
  - destruct (processingTimeoutId c) as [id|]; run;
      (destruct (maxSize <? blob_size audioBlob)%N;
       [| destruct (toBase64 env audioBlob) as [b64|e1];
          [ destruct (ensureToolCallsHaveResponses env) as [[]|e2];
            [ destruct (stream_submit env) as [[]|e3] | ] | ] ]);
      eexists; (split; [reflexivity|]); (split; [discriminate|]);
      intros _; run; (split; [reflexivity|]);
      (split; [count_notices|]); (split; [count_notices | reflexivity]).
Qed.

(** X15: what a finalised recording within the ceiling leads to. When the
    conversion fails the notice "Failed to process audio" is shown and
    nothing is submitted; when [ensureToolCallsHaveResponses] throws the
    notice "Failed to process voice recording" is shown and nothing is
    submitted; otherwise one submission is made, carrying the base64 text
    and the blob's own type and size, followed by "Voice message sent!" if
    [stream.submit] returned and by "Failed to process voice recording" if
    it threw. *)
Theorem handleVoiceRecordingComplete_outcomes (c : View) (env : Env)
    (audioBlob : Blob) (w : World) :
  stream_isLoading c = false ->
  (blob_size audioBlob <= maxSize)%N ->
  exists w',
    handleVoiceRecordingComplete c env audioBlob w = (Return tt, w') /\
    log w'
    = log w ++ SetTimeout (nextTimer w) 60000
        :: match toBase64 env audioBlob with
           | Throw _ =>
               [ToastError "Failed to process audio"
                           "Audio file format not supported."]
           | Return base64Audio =>
               match ensureToolCallsHaveResponses env with
               | Throw _ =>
                   [ToastError "Failed to process voice recording"
                               "Please try again."]
               | Return _ =>
                   [Submit base64Audio (blob_type audioBlob) (blob_size audioBlob);
                    match stream_submit env with
                    | Return _ =>
                        ToastSuccess "Voice message sent!"
                                     "Processing your request..."
                    | Throw _ =>
                        ToastError "Failed to process voice recording"
                                   "Please try again."
                    end]
               end
           end ++ cleared c.
Proof.
  intros Hload Hsize.
  assert (Hfits : (maxSize <? blob_size audioBlob)%N = false)
    by (apply N.ltb_ge; exact Hsize).
  unfold handleVoiceRecordingComplete, cleared. rewrite Hload, Hfits.
  destruct (processingTimeoutId c) as [id|]; run;
    (destruct (toBase64 env audioBlob) as [b64|e1];
     [ destruct (ensureToolCallsHaveResponses env) as [[]|e2];
       [ destruct (stream_submit env) as [[]|e3] | ] | ]);
    eexists; (split; [reflexivity|]); cbv beta iota;
    SessionFacts.flatten_log; reflexivity.
Qed.

Lemma handleVoiceRecordingComplete_outcomes_witness :
  exists w',
    handleVoiceRecordingComplete SessionSamples.recording_view
      (unreadable SessionSamples.short_clip) SessionSamples.short_clip
      SessionSamples.start = (Return tt, w') /\
    log w'
    = [SetTimeout 1 60000;
       ToastError "Failed to process audio" "Audio file format not supported."].
Proof.
  destruct (handleVoiceRecordingComplete_outcomes SessionSamples.recording_view
              (unreadable SessionSamples.short_clip) SessionSamples.short_clip
              SessionSamples.start eq_refl) as (w' & Hrun & Hlog).
  - discriminate.
  - exists w'. split; [exact Hrun | exact Hlog].
Defined.

(** ** The timer *)

Lemma pending_last (id : nat) (ms : N) (ts : list (nat * N)) :
  existsb (fun t => Nat.eqb (fst t) id) (ts ++ [(id, ms)]) = true.
Proof.
  rewrite existsb_app. apply orb_true_iff. right. simpl.
  rewrite Nat.eqb_refl. reflexivity.
Qed.

(** ** The toggle *)

(** X17: the toggle is inert whenever the session shows "processing", and
    while the recorder is requesting the microphone or stopping it only
    notes that the user has interacted: nothing is started, stopped,
    submitted or scheduled. *)
Theorem handleRecordingToggle_inert (c : View) (env : Env) (w : World) :
  (getButtonState c = processing ->
   handleRecordingToggle c env w = (Return tt, w)) /\
  (isProcessingVoice c || stream_isLoading c = false ->
   recordingState c = requesting \/ recordingState c = stopping ->
   exists w',
     handleRecordingToggle c env w = (Return tt, w') /\
     log w' = log w /\
     timers w' = timers w /\
     hasUserInteracted (view w')
     = negb (hasUserInteracted c) || hasUserInteracted (view w) /\
     isProcessingVoice (view w') = isProcessingVoice (view w)).
Proof.
  split.
  - unfold getButtonState, handleRecordingToggle.
    destruct (truthy (recordingError c)); [discriminate|].
    destruct (isProcessingVoice c || stream_isLoading c); [reflexivity|].
    destruct (isPlayingAudio c); [discriminate|].
    destruct (recordingState c); discriminate.
  - intros Hgate Hstate. unfold handleRecordingToggle. rewrite Hgate.
    destruct (hasUserInteracted c);
      destruct Hstate as [-> | ->]; run; eexists;
      (split; [reflexivity|]); cbv beta iota; repeat split.
Qed.

Lemma handleRecordingToggle_inert_witness :
  handleRecordingToggle loading_view
    (SessionSamples.browser SessionSamples.short_clip) untouched
  = (Return tt, untouched) /\
  exists w',
    handleRecordingToggle requesting_view
      (SessionSamples.browser SessionSamples.short_clip) untouched
    = (Return tt, w') /\
    log w' = [] /\
    hasUserInteracted (view w') = true.
Proof.
  destruct (handleRecordingToggle_inert loading_view
              (SessionSamples.browser SessionSamples.short_clip) untouched)
    as [Hgate _].
  destruct (handleRecordingToggle_inert requesting_view
              (SessionSamples.browser SessionSamples.short_clip) untouched)
    as [_ Hidle].
  split; [apply Hgate; reflexivity|].
  destruct (Hidle eq_refl (or_introl eq_refl)) as (w' & Hrun & Hlog & _ & Hflag & _).
  exists w'. split; [exact Hrun|]. split; [exact Hlog | exact Hflag].
Defined.



(** ** The effect that watches the stream *)

Lemma showN_no_underscore (n : N) : Utils.occurs "_" (showN n) = false.
Proof.
  apply PlayerMoreFacts.digits_have_no. intros k Hk.
  do 10 (destruct k as [|k]; [discriminate|]). lia.
Qed.

(** X19: the identifier by which the stream effect recognises a response is
    made of the message count and the length of the payload, nothing else:
    two responses get the same identifier if and only if both numbers
    agree. Hence a response with other audio of the same length, rendered
    at the same message count as the one on record, is not played. *)
Theorem currentTtsId_is_count_and_length (n1 n2 : nat) (t1 t2 : TTSOutput) :
  (currentTtsId n1 t1 = currentTtsId n2 t2 <->
   n1 = n2 /\
   String.length (audioData t1) = String.length (audioData t2)) /\
  (forall c w,
      n1 = n2 ->
      String.length (audioData t1) = String.length (audioData t2) ->
      lastProcessedMessageId c = Some (currentTtsId n1 t1) ->
      onStreamValues c n2 (Some t2) w = (Return tt, w)).
Proof.
  assert (Hiff : currentTtsId n1 t1 = currentTtsId n2 t2 <->
                 n1 = n2 /\
                 String.length (audioData t1) = String.length (audioData t2)).
  { unfold currentTtsId. split.
    - intros E. cbn [String.append] in E. injection E as E.
      change (showN (N.of_nat n1) ++ "_" ++ showN (N.of_nat (String.length (audioData t1))))%string
        with (showN (N.of_nat n1)
                ++ String "_" (showN (N.of_nat (String.length (audioData t1)))))%string in E.
      change (showN (N.of_nat n2) ++ "_" ++ showN (N.of_nat (String.length (audioData t2))))%string
        with (showN (N.of_nat n2)
                ++ String "_" (showN (N.of_nat (String.length (audioData t2)))))%string in E.
      destruct (PlayerMoreFacts.split_at_first "_" _ _ _ _
                  (showN_no_underscore _) (showN_no_underscore _) E) as [Hn Hl].
      apply PlayerMoreFacts.showN_inj in Hn, Hl.
      split; apply Nat2N.inj; assumption.
    - intros [-> ->]. reflexivity. }
  split; [exact Hiff|].
  intros c w Hn Hl Hlast. unfold onStreamValues.
  destruct (stream_isLoading c); [reflexivity|].
  destruct (audioData t2 =? ""); [reflexivity|].
  rewrite Hlast. replace (currentTtsId n2 t2) with (currentTtsId n1 t1)
    by (apply Hiff; auto).
  rewrite String.eqb_refl. reflexivity.
Qed.

Lemma currentTtsId_is_count_and_length_witness :
  currentTtsId 2 SessionSamples.spoken = currentTtsId 2 other_spoken /\
  onStreamValues (view SessionSamples.rendered) 2 (Some other_spoken)
    SessionSamples.rendered
  = (Return tt, SessionSamples.rendered).
Proof.
  destruct (currentTtsId_is_count_and_length 2 2 SessionSamples.spoken other_spoken)
    as [Hiff Hdrop].
  split; [apply Hiff; split; reflexivity|].
  apply Hdrop; reflexivity.
Defined.

(** X20: a response that arrives before the user has interacted with the
    page is announced ("Audio response ready"), not played, and is recorded
    as processed all the same: when the effect runs again for the same
    response, also after the user has interacted, nothing happens. *)
Theorem onStreamValues_announces_once (c : View) (messageCount : nat)
    (ttsOutput : TTSOutput) (w : World) :
  stream_isLoading c = false ->
  hasUserInteracted c = false ->
  audioData ttsOutput <> "" ->
  lastProcessedMessageId c <> Some (currentTtsId messageCount ttsOutput) ->
  exists w',
    onStreamValues c messageCount (Some ttsOutput) w = (Return tt, w') /\
    log w' = log w ++ [ToastInfo "Audio response ready"
                         "Click the record button to enable audio playback"] /\
    lastProcessedMessageId (view w') = Some (currentTtsId messageCount ttsOutput) /\
    onStreamValues (interacted (view w')) messageCount (Some ttsOutput) w'
    = (Return tt, w').
Proof.
  intros Hload Hint Hdata Hnew. unfold onStreamValues at 1.
  rewrite Hload, Hint. apply String.eqb_neq in Hdata. rewrite Hdata.
  assert (Hfresh : match lastProcessedMessageId c with
                   | Some last => last =? currentTtsId messageCount ttsOutput
                   | None => false
                   end = false).
  { destruct (lastProcessedMessageId c) as [last|]; [|reflexivity].
    apply String.eqb_neq. congruence. }
  rewrite Hfresh. eexists. split; [reflexivity|].
  split; [reflexivity|]. split; [reflexivity|].
  unfold onStreamValues. cbn [interacted stream_isLoading lastProcessedMessageId
                             view snd setLastProcessedMessageId toast_info bind modify
                             on_view emit].
  destruct (stream_isLoading (view w)); [reflexivity|].
  rewrite Hdata, String.eqb_refl. reflexivity.
Qed.

Lemma onStreamValues_announces_once_witness :
  exists w',
    onStreamValues untouched_view 2 (Some SessionSamples.spoken) untouched
    = (Return tt, w') /\
    log w' = [ToastInfo "Audio response ready"
                "Click the record button to enable audio playback"] /\
    onStreamValues (interacted (view w')) 2 (Some SessionSamples.spoken) w'
    = (Return tt, w').
Proof.
  destruct (onStreamValues_announces_once untouched_view 2 SessionSamples.spoken
              untouched eq_refl eq_refl) as (w' & Hrun & Hlog & _ & Hagain).
  - discriminate.
  - discriminate.
  - exists w'. split; [exact Hrun|]. split; [exact Hlog | exact Hagain].
Defined.

End SessionMoreFacts.

(** * The conversion of a recording to text *)
Module EncodingFacts.
Import Encoding.

Lemma append_empty_r (s : string) : (s ++ "")%string = s.
Proof. induction s as [|a s IH]; [reflexivity|]. simpl. rewrite IH. reflexivity. Qed.

Lemma append_assoc (a b c : string) :
  ((a ++ b) ++ c)%string = (a ++ (b ++ c))%string.
Proof. induction a as [|x a IH]; [reflexivity|]. simpl. rewrite IH. reflexivity. Qed.

Lemma fromCharCode_app (a b : list byte) :
  fromCharCode (a ++ b) = (fromCharCode a ++ fromCharCode b)%string.
Proof.
  unfold fromCharCode, string_of_list_byte.
  induction a as [|x a IH]; [reflexivity|]. simpl. rewrite IH. reflexivity.
Qed.

Lemma length_fromCharCode (a : list byte) :
  String.length (fromCharCode a) = length a.
Proof.
  unfold fromCharCode, string_of_list_byte.
  induction a as [|x a IH]; [reflexivity|].
  cbn [map string_of_list_ascii String.length length]. rewrite IH. reflexivity.
Qed.

Lemma chunkSize_pos : 0 < chunkSize.
Proof. apply Nat.ltb_lt. reflexivity. Qed.

Lemma chunk_loop_spec (uint8Array : list byte) :
  forall fuel i binaryString,
    length uint8Array - i <= fuel ->
    chunk_loop fuel i uint8Array binaryString
    = (binaryString ++ fromCharCode (skipn i uint8Array))%string.
Proof.
  induction fuel as [|fuel IH]; intros i acc Hfuel.
  - simpl. rewrite skipn_all2 by lia. symmetry. apply append_empty_r.
  - simpl. destruct (Nat.ltb_spec i (length uint8Array)) as [Hlt|Hge].
    + rewrite IH by (pose proof chunkSize_pos; lia).
      unfold slice. replace (i + chunkSize - i) with chunkSize by lia.
      rewrite append_assoc, <- fromCharCode_app.
      rewrite Nat.add_comm, <- skipn_skipn, firstn_skipn. reflexivity.
    + rewrite skipn_all2 by lia. symmetry. apply append_empty_r.
Qed.

(** X21: cutting the recording into chunks of 8192 bytes does not change
    what is encoded: for a recording of any length the binary string built
    chunk by chunk has exactly the recording's bytes as its character
    codes, in order, so reading the codes back gives the recording. *)
Theorem binaryStringOf_keeps_every_byte (uint8Array : list byte) :
  binaryStringOf uint8Array = fromCharCode uint8Array /\
  String.length (binaryStringOf uint8Array) = length uint8Array /\
  bytesOf (binaryStringOf uint8Array) = uint8Array.
Proof.
  assert (H : binaryStringOf uint8Array = fromCharCode uint8Array).
  { unfold binaryStringOf. rewrite chunk_loop_spec by lia. reflexivity. }
  split; [exact H|]. rewrite H. split.
  - apply length_fromCharCode.
  - apply list_byte_of_string_of_list_byte.
Qed.

End EncodingFacts.

(** * Playback in the voice-only interface *)
Module PlaybackFacts.
Import Playback.

Ltac run_stage :=
  cbv [playAudioFromBase64 cleanup onended onerror cleanupAudio
       release_frame release_url try_catch bind get modify lift ret throw
       emit setIsPlayingAudio setIsProcessingVoice setProcessingTimeoutId
       set_animationFrameRef set_currentAudioUrlRef set_audioContextRef
       set_analyserRef set_audioRef
       isPlayingAudio isProcessingVoice processingTimeoutId animationFrameRef
       currentAudioUrlRef audioContextRef analyserRef audioRef log
       fst snd negb Nat.eqb].

Lemma errors_snoc (l : list Effect) (e : Effect) :
  errors (l ++ [e]) = errors l + (if is_error e then 1 else 0).
Proof.
  unfold errors. rewrite filter_app, length_app. simpl.
  destruct (is_error e); reflexivity.
Qed.

Lemma bind_run {St A B : Type} (m : M (St := St) A) (k : A -> M B)
    (s s1 : St) (a : A) :
  m s = (Return a, s1) -> bind m k s = k a s1.
Proof. intros H. unfold bind. rewrite H. reflexivity. Qed.

Lemma release_frame_run (s : Stage) :
  release_frame s = (Return tt, without_frame s).
Proof.
  unfold release_frame, without_frame, bind, get, modify, ret.
  destruct (animationFrameRef s) as [id|]; [|reflexivity].
  destruct (Nat.eqb id 0); reflexivity.
Qed.

Lemma release_url_run (s : Stage) :
  release_url s = (Return tt, without_url s).
Proof.
  unfold release_url, without_url, bind, get, modify, ret.
  destruct (currentAudioUrlRef s) as [url|]; [|reflexivity].
  destruct (url =? ""); reflexivity.
Qed.

(** What cancelling the frame and revoking the URL leave untouched, and what
    they add to the log. *)
Lemma teardown_frame_url (s : Stage) :
  let s2 := without_url (without_frame s) in
  isPlayingAudio s2 = isPlayingAudio s /\
  isProcessingVoice s2 = isProcessingVoice s /\
  processingTimeoutId s2 = processingTimeoutId s /\
  audioContextRef s2 = audioContextRef s /\
  analyserRef s2 = analyserRef s /\
  audioRef s2 = audioRef s /\
  (animationFrameRef s <> Some 0 -> animationFrameRef s2 = None) /\
  (currentAudioUrlRef s <> Some "" -> currentAudioUrlRef s2 = None) /\
  log s2 ++ match audioContextRef s with
            | Some _ => [CloseAudioContext]
            | None => []
            end
  = log s ++ releases s.
Proof.
  destruct s as [pa pv pt fr url ctx an au lg].
  unfold without_url, without_frame, releases.
  destruct fr as [[|id]|]; destruct url as [u|];
    cbn [animationFrameRef currentAudioUrlRef Nat.eqb emit set_animationFrameRef
         set_currentAudioUrlRef isPlayingAudio isProcessingVoice
         processingTimeoutId audioContextRef analyserRef audioRef log];
    try (destruct (String.eqb_spec u "") as [->|Hu]);
    cbn [animationFrameRef currentAudioUrlRef Nat.eqb emit set_animationFrameRef
         set_currentAudioUrlRef isPlayingAudio isProcessingVoice
         processingTimeoutId audioContextRef analyserRef audioRef log app];
    repeat split; try congruence; repeat rewrite <- app_assoc; reflexivity.
Qed.

(** X22: [playAudioFromBase64] never throws. A call made while audio is
    playing does nothing. Any other call ends with one notice, and what the
    notice is tells the state: after "Playing response" [isPlayingAudio] is
    on; after "Audio ready to play" or "Failed to play audio response" it is
    off; after "Invalid audio data" or "Audio response too large to play"
    nothing else has been touched. *)
Theorem playAudioFromBase64_settles (playing : bool) (browser : Browser)
    (base64Audio : string) (s : Stage) :
  exists s',
    playAudioFromBase64 playing browser base64Audio s = (Return tt, s') /\
    (playing = true -> s' = s) /\
    (playing = false ->
     exists before notice,
       log s' = before ++ [notice] /\
       ((notice = ToastSuccess "Playing response" /\ isPlayingAudio s' = true) \/
        ((notice = autoplay_notice \/
          notice = ToastError "Failed to play audio response") /\
         isPlayingAudio s' = false) \/
        ((notice = ToastError "Invalid audio data" \/
          notice = ToastError "Audio response too large to play") /\
         s' = emit notice s))).
Proof.
  unfold playAudioFromBase64. destruct playing.
  - exists s. split; [reflexivity|]. split; [reflexivity | discriminate].
  - destruct (base64Audio =? "").
    { eexists. split; [reflexivity|]. split; [discriminate|]. intros _.
      do 2 eexists. split; [reflexivity|]. right. right. auto. }
    destruct (maxBase64Length <? N.of_nat (String.length base64Audio))%N.
    { eexists. split; [reflexivity|]. split; [discriminate|]. intros _.
      do 2 eexists. split; [reflexivity|]. right. right. auto. }
    unfold try_catch.
    rewrite (bind_run _ _ _ _ _ (release_frame_run s)).
    rewrite (bind_run _ _ _ _ _ (release_url_run _)).
    generalize (without_url (without_frame s)). intros s2.
    run_stage.
    destruct s2 as [pa pv pt fr url ctx an au lg].
    destruct ctx as [c|]; destruct an; run_stage;
      try (destruct (close browser) as [[]|e0]; run_stage);
      try (destruct (atob browser base64Audio) as [bin|e1]; run_stage);
      try (destruct (createObjectURL browser) as [new|e2]; run_stage);
      try (destruct (play browser) as [[]|e3]; run_stage);
      try (destruct (exn_name e0 =? "NotAllowedError"); run_stage);
      try (destruct (exn_name e3 =? "NotAllowedError"); run_stage);
      cbv [String.eqb Ascii.eqb Bool.eqb];
      eexists; (split; [reflexivity|]); (split; [discriminate|]); intros _;
      do 2 eexists; (split; [reflexivity|]);
      first [ left; split; reflexivity
            | right; left; split; [left; reflexivity | reflexivity]
            | right; left; split; [right; reflexivity | reflexivity] ].
Qed.

Lemma errors_app (a b : list Effect) : errors (a ++ b) = errors a + errors b.
Proof. unfold errors. rewrite filter_app, length_app. reflexivity. Qed.

Lemma errors_releases (s : Stage) : errors (releases s) = 0.
Proof.
  unfold releases.
  destruct (animationFrameRef s) as [id|]; [destruct (Nat.eqb id 0)|];
    (destruct (currentAudioUrlRef s) as [u|]; [destruct (u =? "")|]);
    destruct (audioContextRef s); reflexivity.
Qed.

(** How a call runs once it is past its three guards and the old audio
    graph, if there is one, could be closed: up to [audio.play()]. *)
Lemma playAudioFromBase64_up_to_play (browser : Browser) (base64Audio : string)
    (s : Stage) (bin url : string) :
  base64Audio <> "" ->
  (N.of_nat (String.length base64Audio) <= maxBase64Length)%N ->
  (audioContextRef s <> None -> close browser = Return tt) ->
  atob browser base64Audio = Return bin ->
  createObjectURL browser = Return url ->
  animationFrameRef s <> Some 0 ->
  currentAudioUrlRef s <> Some "" ->
  exists s1,
    isPlayingAudio s1 = true /\ isProcessingVoice s1 = isProcessingVoice s /\
    animationFrameRef s1 = None /\ audioContextRef s1 = None /\
    analyserRef s1 = false /\
    currentAudioUrlRef s1 = Some url /\ audioRef s1 = Some url /\
    log s1 = log s ++ releases s ++ [CreateObjectURL url; NewAudio; PlayCalled] /\
    playAudioFromBase64 false browser base64Audio s
    = match play browser with
      | Return _ => (Return tt, emit (ToastSuccess "Playing response") s1)
      | Throw e =>
          (Return tt,
           emit (if exn_name e =? "NotAllowedError"
                 then autoplay_notice
                 else ToastError "Failed to play audio response")
                (setIsPlayingAudio false s1))
      end.
Proof.
  intros Hdata Hsize Hclose Hatob Hurl Hframe Hheld.
  unfold playAudioFromBase64.
  apply String.eqb_neq in Hdata. rewrite Hdata.
  assert (Hfits : (maxBase64Length <? N.of_nat (String.length base64Audio))%N = false)
    by (apply N.ltb_ge; exact Hsize).
  rewrite Hfits. unfold try_catch.
  rewrite (bind_run _ _ _ _ _ (release_frame_run s)).
  rewrite (bind_run _ _ _ _ _ (release_url_run _)).
  destruct (teardown_frame_url s)
    as (Hpa & Hpv & Hpt & Hctx & Han & Hau & Hfr & Hu & Hlog).
  specialize (Hfr Hframe). specialize (Hu Hheld).
  revert Hpa Hpv Hpt Hctx Han Hau Hfr Hu Hlog.
  generalize (without_url (without_frame s)). intros s2.
  destruct s2 as [pa2 pv2 pt2 fr2 url2 ctx2 an2 au2 lg2].
  cbn [isPlayingAudio isProcessingVoice processingTimeoutId animationFrameRef
       currentAudioUrlRef audioContextRef analyserRef audioRef log].
  intros -> -> -> -> -> -> -> -> Hlog.
  rewrite Hatob, Hurl.
  exists {| isPlayingAudio := true; isProcessingVoice := isProcessingVoice s;
            processingTimeoutId := processingTimeoutId s;
            animationFrameRef := None; currentAudioUrlRef := Some url;
            audioContextRef := None; analyserRef := false;
            audioRef := Some url;
            log := log s ++ releases s ++ [CreateObjectURL url; NewAudio; PlayCalled] |}.
  do 8 (split; [reflexivity|]).
  destruct (audioContextRef s) as [c|] eqn:Hc.
  - rewrite (Hclose ltac:(discriminate)).
    destruct (analyserRef s); run_stage; cbv [log] in Hlog;
      (destruct (play browser) as [[]|e];
       [|destruct (exn_name e =? "NotAllowedError")%string]; run_stage);
      rewrite Hlog; do 2 f_equal;
      repeat rewrite <- app_assoc; reflexivity.
  - rewrite app_nil_r in Hlog. subst lg2.
    destruct (analyserRef s); run_stage;
      (destruct (play browser) as [[]|e];
       [|destruct (exn_name e =? "NotAllowedError")%string]; run_stage);
      do 2 f_equal; repeat rewrite <- app_assoc; reflexivity.
Qed.

(** X23: a call that gets as far as [audio.play()], and whose [play()]
    succeeds, has first released what the component held: the scheduled
    frame is cancelled, the old object URL revoked and the old audio context
    closed, in this order, before the new object URL is created. Afterwards
    the component plays, holds the new URL, and has no frame, audio context
    or analyser. *)
Theorem playAudioFromBase64_releases_first (browser : Browser)
    (base64Audio : string) (s : Stage) (bin url : string) :
  base64Audio <> "" ->
  (N.of_nat (String.length base64Audio) <= maxBase64Length)%N ->
  (audioContextRef s <> None -> close browser = Return tt) ->
  atob browser base64Audio = Return bin ->
  createObjectURL browser = Return url ->
  play browser = Return tt ->
  animationFrameRef s <> Some 0 ->
  currentAudioUrlRef s <> Some "" ->
  exists s',
    playAudioFromBase64 false browser base64Audio s = (Return tt, s') /\
    log s' = log s ++ releases s ++
             [CreateObjectURL url; NewAudio; PlayCalled;
              ToastSuccess "Playing response"] /\
    isPlayingAudio s' = true /\
    currentAudioUrlRef s' = Some url /\ audioRef s' = Some url /\
    animationFrameRef s' = None /\ audioContextRef s' = None /\
    analyserRef s' = false.
Proof.
  intros Hdata Hsize Hclose Hatob Hurl Hplay Hframe Hheld.
  destruct (playAudioFromBase64_up_to_play browser base64Audio s bin url
              Hdata Hsize Hclose Hatob Hurl Hframe Hheld)
    as (s1 & Hpa & _ & Hfr & Hctx & Han & Hcur & Hau & Hlog & Hrun).
  rewrite Hplay in Hrun.
  exists (emit (ToastSuccess "Playing response") s1).
  split; [exact Hrun|].
  destruct s1 as [pa1 pv1 pt1 fr1 url1 ctx1 an1 au1 lg1].
  cbn [emit isPlayingAudio isProcessingVoice processingTimeoutId
       animationFrameRef currentAudioUrlRef audioContextRef analyserRef
       audioRef log] in *.
  subst. repeat split.
  repeat rewrite <- app_assoc. reflexivity.
Qed.

Lemma playAudioFromBase64_releases_first_witness :
  exists s',
    playAudioFromBase64 false willing "QUJD" busy = (Return tt, s') /\
    log s' = [CancelAnimationFrame 17; RevokeObjectURL "blob:7";
              CloseAudioContext; CreateObjectURL "blob:8"; NewAudio;
              PlayCalled; ToastSuccess "Playing response"] /\
    isPlayingAudio s' = true /\
    currentAudioUrlRef s' = Some "blob:8" /\ audioRef s' = Some "blob:8" /\
    animationFrameRef s' = None /\ audioContextRef s' = None /\
    analyserRef s' = false.
Proof.
  apply (playAudioFromBase64_releases_first willing "QUJD" busy "ID3" "blob:8").
  - discriminate.
  - vm_compute. discriminate.
  - reflexivity.
  - reflexivity.
  - reflexivity.
  - reflexivity.
  - discriminate.
  - discriminate.
Defined.

(** X24: when the browser refuses [audio.play()] with a [NotAllowedError],
    the call ends with the "Audio ready to play" notice and no error notice;
    [isPlayingAudio] is off again, and the object URL created for the
    refused playback stays in [currentAudioUrlRef], not revoked. *)
Theorem playAudioFromBase64_autoplay_refused (browser : Browser)
    (base64Audio : string) (s : Stage) (bin url : string) (e : Exn) :
  base64Audio <> "" ->
  (N.of_nat (String.length base64Audio) <= maxBase64Length)%N ->
  (audioContextRef s <> None -> close browser = Return tt) ->
  atob browser base64Audio = Return bin ->
  createObjectURL browser = Return url ->
  play browser = Throw e ->
  exn_name e = "NotAllowedError" ->
  animationFrameRef s <> Some 0 ->
  currentAudioUrlRef s <> Some "" ->
  exists s' before,
    playAudioFromBase64 false browser base64Audio s = (Return tt, s') /\
    log s' = before ++ [autoplay_notice] /\
    errors (log s') = errors (log s) /\
    isPlayingAudio s' = false /\
    currentAudioUrlRef s' = Some url /\
    ~ In (RevokeObjectURL url) (skipn (length (log s) + length (releases s)) (log s')).
Proof.
  intros Hdata Hsize Hclose Hatob Hurl Hplay Hname Hframe Hheld.
  destruct (playAudioFromBase64_up_to_play browser base64Audio s bin url
              Hdata Hsize Hclose Hatob Hurl Hframe Hheld)
    as (s1 & Hpa & _ & Hfr & Hctx & Han & Hcur & Hau & Hlog & Hrun).
  rewrite Hplay, Hname in Hrun. cbn [String.eqb Ascii.eqb Bool.eqb] in Hrun.
  change ("NotAllowedError" =? "NotAllowedError")%string with true in Hrun.
  exists (emit autoplay_notice (setIsPlayingAudio false s1)), (log s1).
  split; [exact Hrun|].
  destruct s1 as [pa1 pv1 pt1 fr1 url1 ctx1 an1 au1 lg1].
  cbn [emit setIsPlayingAudio isPlayingAudio isProcessingVoice
       processingTimeoutId animationFrameRef currentAudioUrlRef
       audioContextRef analyserRef audioRef log] in *.
  subst. repeat split.
  - repeat rewrite errors_app. rewrite errors_releases. cbn. lia.
  - rewrite <- length_app.
    rewrite (app_assoc (log s)). rewrite <- (app_assoc (log s ++ releases s)).
    rewrite skipn_app, skipn_all, Nat.sub_diag. cbn.
    intros [H|[H|[H|[H|[]]]]]; discriminate.
Qed.

Lemma playAudioFromBase64_autoplay_refused_witness :
  exists s' before,
    playAudioFromBase64 false unwilling "QUJD" busy = (Return tt, s') /\
    log s' = before ++ [autoplay_notice] /\
    errors (log s') = 0 /\
    isPlayingAudio s' = false /\
    currentAudioUrlRef s' = Some "blob:9" /\
    ~ In (RevokeObjectURL "blob:9") (skipn 3 (log s')).
Proof.
  apply (playAudioFromBase64_autoplay_refused unwilling "QUJD" busy "ID3" "blob:9"
           (Error "NotAllowedError" "play() failed")).
  - discriminate.
  - vm_compute. discriminate.
  - reflexivity.
  - reflexivity.
  - reflexivity.
  - reflexivity.
  - reflexivity.
  - discriminate.
  - discriminate.
Defined.

Ltac stage_fields :=
  cbn [isPlayingAudio isProcessingVoice processingTimeoutId animationFrameRef
       currentAudioUrlRef audioContextRef analyserRef audioRef log].

Ltac added_effects :=
  first [ symmetry; apply app_nil_r
        | repeat rewrite <- app_assoc; reflexivity ].

Ltac same_effects :=
  cbn [app];
  first [ apply Permutation_refl
        | apply perm_swap
        | apply perm_skip; apply perm_swap ].

(** X25: when a playback ends, [onended] leaves the component holding
    nothing: no scheduled frame, no object URL, no audio context and no
    analyser, with [isPlayingAudio] off. What it cancels, revokes and closes
    is exactly what the component held, each once, and it shows no notice. *)
Theorem onended_releases_everything (visualized : bool) (s : Stage) :
  animationFrameRef s <> Some 0 ->
  currentAudioUrlRef s <> Some "" ->
  exists s' added,
    onended visualized s = (Return tt, s') /\
    log s' = log s ++ added /\
    Permutation added (releases s) /\
    released s' /\
    isPlayingAudio s' = false /\
    isProcessingVoice s' = isProcessingVoice s /\
    processingTimeoutId s' = processingTimeoutId s /\
    audioRef s' = audioRef s.
Proof.
  intros Hframe Hheld.
  destruct s as [pa pv pt fr url ctx an au lg]. unfold released, releases.
  stage_fields. cbn [animationFrameRef currentAudioUrlRef] in Hframe, Hheld.
  destruct fr as [[|id]|]; try congruence;
    (destruct url as [u|];
     [destruct (String.eqb_spec u "") as [->|Hu]; [congruence|]|]);
    destruct visualized; destruct ctx as [c|]; destruct an;
    run_stage; try (apply String.eqb_neq in Hu; rewrite Hu);
    do 2 eexists; (split; [reflexivity|]); stage_fields;
    (split; [added_effects|]); (split; [same_effects|]); repeat split.
Qed.

Lemma onended_releases_everything_witness :
  exists s' added,
    onended false busy = (Return tt, s') /\
    log s' = log busy ++ added /\
    Permutation added
      [CancelAnimationFrame 17; RevokeObjectURL "blob:7"; CloseAudioContext] /\
    released s' /\
    isPlayingAudio s' = false /\
    isProcessingVoice s' = true /\
    processingTimeoutId s' = Some 4 /\
    audioRef s' = Some "blob:7".
Proof.
  apply (onended_releases_everything false busy); discriminate.
Defined.

(** X26: when the audio element reports an error, [onerror] releases
    everything the component held, as [onended] does, and then shows exactly
    one error notice, "Failed to play audio response". *)
Theorem onerror_releases_then_reports (s : Stage) :
  animationFrameRef s <> Some 0 ->
  currentAudioUrlRef s <> Some "" ->
  exists s' added,
    onerror s = (Return tt, s') /\
    log s' = log s ++ added ++ [ToastError "Failed to play audio response"] /\
    Permutation added (releases s) /\
    errors (log s') = errors (log s) + 1 /\
    released s' /\
    isPlayingAudio s' = false.
Proof.
  intros Hframe Hheld.
  destruct s as [pa pv pt fr url ctx an au lg]. unfold released, releases.
  stage_fields. cbn [animationFrameRef currentAudioUrlRef] in Hframe, Hheld.
  destruct fr as [[|id]|]; try congruence;
    (destruct url as [u|];
     [destruct (String.eqb_spec u "") as [->|Hu]; [congruence|]|]);
    destruct ctx as [c|]; destruct an;
    run_stage; try (apply String.eqb_neq in Hu; rewrite Hu);
    do 2 eexists; (split; [reflexivity|]); stage_fields;
    (split; [rewrite (app_assoc lg); apply (f_equal (fun l => l ++ _));
             added_effects|]);
    (split; [same_effects|]);
    (split; [repeat rewrite errors_snoc; cbn [is_error]; lia|]);
    repeat split.
Qed.

Lemma onerror_releases_then_reports_witness :
  exists s' added,
    onerror busy = (Return tt, s') /\
    log s' = log busy ++ added ++ [ToastError "Failed to play audio response"] /\
    Permutation added
      [CancelAnimationFrame 17; RevokeObjectURL "blob:7"; CloseAudioContext] /\
    errors (log s') = 1 /\
    released s' /\
    isPlayingAudio s' = false.
Proof.
  apply (onerror_releases_then_reports busy); discriminate.
Defined.

(** X27: [cleanupAudio] leaves no frame scheduled, no object URL held and no
    open audio context referenced, and turns both [isPlayingAudio] and
    [isProcessingVoice] off; it never throws. The timer it clears is the one
    of the render that built it: with none there, [processingTimeoutId] is
    left as it is. The analyser and the audio element stay referenced. *)
Theorem cleanupAudio_leaves_nothing_open (timeoutId : option nat) (s : Stage) :
  animationFrameRef s <> Some 0 ->
  currentAudioUrlRef s <> Some "" ->
  timeoutId <> Some 0 ->
  exists s',
    cleanupAudio timeoutId s = (Return tt, s') /\
    isPlayingAudio s' = false /\
    isProcessingVoice s' = false /\
    animationFrameRef s' = None /\
    currentAudioUrlRef s' = None /\
    (audioContextRef s' = None \/ audioContextRef s' = Some closed) /\
    processingTimeoutId s'
    = match timeoutId with Some _ => None | None => processingTimeoutId s end /\
    (forall id, timeoutId = Some id -> In (ClearTimeout id) (log s')) /\
    analyserRef s' = analyserRef s /\
    audioRef s' = audioRef s.
Proof.
  intros Hframe Hheld Htimer.
  destruct s as [pa pv pt fr url ctx an au lg].
  stage_fields. cbn [animationFrameRef currentAudioUrlRef] in Hframe, Hheld.
  destruct timeoutId as [[|t]|]; try congruence;
    (destruct fr as [[|id]|]; try congruence);
    (destruct url as [u|];
     [destruct (String.eqb_spec u "") as [->|Hu]; [congruence|]|]);
    destruct ctx as [[]|];
    run_stage; try (apply String.eqb_neq in Hu; rewrite Hu);
    eexists; (split; [reflexivity|]); stage_fields;
    repeat match goal with
           | |- _ /\ _ => split
           | |- forall _, _ => intros id' Hid
           end;
    try reflexivity;
    try (left; reflexivity); try (right; reflexivity);
    try discriminate;
    try (injection Hid as <-; apply in_or_app; right; left; reflexivity).
Qed.

Lemma cleanupAudio_leaves_nothing_open_witness :
  exists s',
    cleanupAudio (Some 4) busy = (Return tt, s') /\
    isPlayingAudio s' = false /\
    isProcessingVoice s' = false /\
    animationFrameRef s' = None /\
    currentAudioUrlRef s' = None /\
    (audioContextRef s' = None \/ audioContextRef s' = Some closed) /\
    processingTimeoutId s' = None /\
    (forall id, Some 4 = Some id -> In (ClearTimeout id) (log s')) /\
    analyserRef s' = true /\
    audioRef s' = Some "blob:7".
Proof.
  apply (cleanupAudio_leaves_nothing_open (Some 4) busy); discriminate.
Defined.

End PlaybackFacts.

(** * The processing timer across renders *)
Module LifecycleFacts.
Import VoiceSession Lifecycle.

Ltac run_life :=
  cbv [finalise begin_processing process_recording cleanupAudio render
       same_timer times_out arrives setIsPlayingAudio stream_setLoading
       handleVoiceRecordingComplete fire
       processing_timed_out try_finally try_catch bind get modify lift
       ret throw setTimeout clearTimeout setIsProcessingVoice
       setProcessingTimeoutId setHasUserInteracted toast_error toast_success
       on_view emit
       fst snd view timers nextTimer log isProcessingVoice isPlayingAudio
       hasUserInteracted lastProcessedMessageId processingTimeoutId
       stream_isLoading recordingState recordingError].

Lemma same_timer_refl (a : option nat) : same_timer a a = true.
Proof. destruct a as [x|]; [apply Nat.eqb_refl | reflexivity]. Qed.

(** A render that sees the [processingTimeoutId] of the render before it
    runs no cleanup. *)
Lemma renders_stable (n : nat) (committed : option nat) (w : World) :
  processingTimeoutId (view w) = committed ->
  renders n committed w = (Return committed, w).
Proof.
  intros H. induction n as [|n IH]; [reflexivity|].
  cbn [renders]. unfold bind at 1, render, bind at 1, get.
  rewrite H, same_timer_refl. exact IH.
Qed.

(** The first render after a timer has been registered from a render that
    held none runs the [cleanupAudio] of that render, which clears no
    timer; the renders after it run nothing. *)
Lemma renders_first (n : nat) (id : nat) (w : World) :
  processingTimeoutId (view w) = Some id ->
  renders (S n) None w = (Return (Some id), snd (cleanupAudio None w)).
Proof.
  intros H. cbn [renders]. unfold bind at 1, render, bind at 1, get.
  rewrite H. cbn [same_timer].
  unfold bind at 1.
  assert (Hc : cleanupAudio None w = (Return tt, snd (cleanupAudio None w)))
    by reflexivity.
  rewrite Hc. unfold ret at 1.
  apply renders_stable.
  destruct w as [v ts nt lg]. cbn [view] in H. exact H.
Qed.

Lemma renders_none (committed : option nat) (w : World) :
  renders 0 committed w = (Return committed, w).
Proof. reflexivity. Qed.

Ltac step_renders :=
  match goal with
  | |- context [renders 0 ?r ?w0] => rewrite (renders_none r w0)
  | |- context [renders (S ?n) None ?w0] =>
      rewrite (renders_first n _ w0 eq_refl)
  | |- context [renders ?n (Some ?id) ?w0] =>
      rewrite (renders_stable n (Some id) w0 eq_refl)
  end.

(** A first recording: the handler is called from a render that holds no
    timer. Whatever renders happen at its [await] and after it, the handler
    leaves the effects it leaves when run on its own, the timer it has
    registered is on record and has not been cleared, and the processing
    flag is off. *)
Lemma finalise_first (atAwait afterwards : nat) (c : View) (env : Env)
    (audioBlob : Blob) (w : World) :
  stream_isLoading c = false ->
  processingTimeoutId c = None ->
  processingTimeoutId (view w) = None ->
  exists seen w1,
    finalise atAwait afterwards c env audioBlob None w = (Return seen, w1) /\
    log w1 = log (snd (handleVoiceRecordingComplete c env audioBlob w)) /\
    timers w1 = timers w ++ [(nextTimer w, 60000%N)] /\
    processingTimeoutId (view w1) = Some (nextTimer w) /\
    isProcessingVoice (view w1) = false /\
    hasUserInteracted (view w1) = hasUserInteracted (view w) /\
    lastProcessedMessageId (view w1) = lastProcessedMessageId (view w) /\
    stream_isLoading (view w1) = stream_isLoading (view w) /\
    recordingState (view w1) = recordingState (view w) /\
    recordingError (view w1) = recordingError (view w).
Proof.
  intros Hload Hnone Hheld.
  destruct w as [v ts nt lg]. destruct v as [pv pa hu lp pt sl rs re].
  cbn [view processingTimeoutId] in Hheld. subst pt.
  unfold finalise, handleVoiceRecordingComplete. rewrite Hload.
  unfold process_recording. rewrite Hnone.
  destruct (maxSize <? blob_size audioBlob)%N;
    [| destruct (toBase64 env audioBlob) as [b64|e1];
       [ destruct (ensureToolCallsHaveResponses env) as [[]|e2];
         [ destruct (stream_submit env) as [[]|e3] | ] | ] ];
    destruct atAwait as [|a]; destruct afterwards as [|b];
    run_life; repeat (step_renders; run_life);
    do 2 eexists; (split; [reflexivity|]); cbv beta iota; repeat split.
Qed.

(** With no render at the [await], [finalise] is the handler followed by
    the renders. *)
Lemma finalise_without_render (afterwards : nat) (c : View) (env : Env)
    (audioBlob : Blob) (committed : option nat) (w : World) :
  finalise 0 afterwards c env audioBlob committed w
  = (handleVoiceRecordingComplete c env audioBlob ;;
     renders afterwards committed) w.
Proof.
  unfold finalise, handleVoiceRecordingComplete, process_recording.
  destruct (stream_isLoading c); [reflexivity|].
  destruct (processingTimeoutId c) as [id|];
    (destruct (maxSize <? blob_size audioBlob)%N;
     [| destruct (toBase64 env audioBlob) as [b64|e1];
        [ destruct (ensureToolCallsHaveResponses env) as [[]|e2];
          [ destruct (stream_submit env) as [[]|e3] | ] | ] ]);
    run_life; repeat rewrite renders_none; reflexivity.
Qed.

(** A timer that fires leaves alone what the effect watching the stream
    looks at. *)
Lemma fire_keeps_gesture (id : nat) (w : World) :
  hasUserInteracted (view (snd (fire id w))) = hasUserInteracted (view w) /\
  lastProcessedMessageId (view (snd (fire id w)))
  = lastProcessedMessageId (view w).
Proof.
  split; unfold fire, bind at 1, get; cbv beta iota;
    destruct (pending id w); reflexivity.
Qed.

(** C8: the code does not do what the claim says. Finalising a first
    recording (the render holds no timer) into a submission registers a
    timer of 60000 ms which is still pending once the handler is done and
    the component has rendered, although the recording was submitted. When
    it fires while the turn result is outstanding (the stream is loading),
    the "Processing timed out" notice is shown and the processing flag is
    switched off, but the session does not return to idle: it shows
    "processing", or "error" if a recording error is set. The result that
    arrives later is not discarded: the effect that watches the stream
    hands it to playback. *)
Theorem timeout_does_not_return_to_idle (atAwait afterwards : nat) (c : View)
    (env : Env) (audioBlob : Blob) (base64Audio : string) (w : World) :
  stream_isLoading c = false ->
  processingTimeoutId c = None ->
  processingTimeoutId (view w) = None ->
  (blob_size audioBlob <= maxSize)%N ->
  toBase64 env audioBlob = Return base64Audio ->
  ensureToolCallsHaveResponses env = Return tt ->
  stream_submit env = Return tt ->
  exists seen w1 w2,
    finalise atAwait afterwards c env audioBlob None w = (Return seen, w1) /\
    log w1
    = log w ++ [SetTimeout (nextTimer w) 60000;
                Submit base64Audio (blob_type audioBlob) (blob_size audioBlob);
                ToastSuccess "Voice message sent!" "Processing your request..."] /\
    pending (nextTimer w) w1 = true /\
    times_out (nextTimer w) w1 = (Return tt, w2) /\
    log w2 = log w1 ++ [timed_out_notice] /\
    isProcessingVoice (view w2) = false /\
    stream_isLoading (view w2) = true /\
    session_state w2
    = (if truthy (recordingError (view w)) then error_state else processing) /\
    session_state w2 <> idle_state /\
    (forall messageCount ttsOutput,
        hasUserInteracted (view w) = true ->
        audioData ttsOutput <> "" ->
        lastProcessedMessageId (view w)
        <> Some (currentTtsId messageCount ttsOutput) ->
        exists w3,
          arrives messageCount ttsOutput w2 = (Return tt, w3) /\
          log w3 = log w2 ++ [PlayAudioFromBase64 (audioData ttsOutput)]).
Proof.
  intros Hload Hnone Hheld Hsize Hconv Hensure Hsubmit.
  destruct (finalise_first atAwait afterwards c env audioBlob w Hload Hnone Hheld)
    as (seen & w1 & Hrun & Hlog & Htimers & Hid & Hflag & Hint & Hlast
        & Hstream & Hrec & Herr).
  assert (Hfits : (maxSize <? blob_size audioBlob)%N = false)
    by (apply N.ltb_ge; exact Hsize).
  assert (Hpending : pending (nextTimer w) (snd (stream_setLoading true w1)) = true).
  { unfold pending. cbn [stream_setLoading modify on_view snd timers].
    rewrite Htimers. apply SessionMoreFacts.pending_last. }
  destruct (SessionFacts.fire_pending (nextTimer w) _ Hpending)
    as (w2 & Hfire & Hlog2 & _ & Hflag2 & Hplay2 & Hstream2 & Hrec2 & Herr2).
  exists seen, w1, w2.
  split; [exact Hrun|]. split.
  { rewrite Hlog. unfold handleVoiceRecordingComplete.
    rewrite Hload, Hnone, Hfits, Hconv, Hensure, Hsubmit. run_life.
    repeat rewrite <- app_assoc. reflexivity. }
  split.
  { unfold pending. rewrite Htimers. apply SessionMoreFacts.pending_last. }
  split; [exact Hfire|]. split; [exact Hlog2|]. split; [exact Hflag2|].
  assert (Hloading : stream_isLoading (view w2) = true)
    by (rewrite Hstream2; reflexivity).
  split; [exact Hloading|].
  assert (Hstate : session_state w2
                   = (if truthy (recordingError (view w))
                      then error_state else processing)).
  { unfold session_state, getButtonState.
    rewrite Herr2, Hflag2, Hloading.
    cbn [stream_setLoading modify on_view snd view recordingError].
    rewrite Herr. destruct (truthy (recordingError (view w))); reflexivity. }
  split; [exact Hstate|]. split.
  { rewrite Hstate. destruct (truthy (recordingError (view w))); discriminate. }
  intros messageCount ttsOutput Hgesture Hdata Hnew.
  destruct (fire_keeps_gesture (nextTimer w) (snd (stream_setLoading true w1)))
    as [Hint2 Hlast2].
  rewrite Hfire in Hint2, Hlast2. cbn [snd] in Hint2, Hlast2.
  assert (Hint3 : hasUserInteracted (view w2) = true).
  { rewrite Hint2. cbn [stream_setLoading modify on_view snd view hasUserInteracted].
    rewrite Hint. exact Hgesture. }
  assert (Hlast3 : lastProcessedMessageId (view w2)
                   <> Some (currentTtsId messageCount ttsOutput)).
  { rewrite Hlast2.
    cbn [stream_setLoading modify on_view snd view lastProcessedMessageId].
    rewrite Hlast. exact Hnew. }
  destruct (SessionFacts.onStreamValues_plays
              (view (snd (stream_setLoading false w2))) messageCount ttsOutput
              (snd (stream_setLoading false w2)))
    as (w3 & Hrun3 & Hlog3).
  - reflexivity.
  - exact Hint3.
  - exact Hdata.
  - exact Hlast3.
  - exists w3. split; [exact Hrun3 | exact Hlog3].
Qed.

Lemma timeout_does_not_return_to_idle_witness :
  exists seen w1 w2 w3,
    finalise 1 1 SessionSamples.recording_view
      (SessionSamples.browser SessionSamples.short_clip)
      SessionSamples.short_clip None SessionSamples.start = (Return seen, w1) /\
    log w1
    = [SetTimeout 1 60000;
       Submit "GkXfo59ChoEBQveBAULygQRC" "audio/webm" 48000;
       ToastSuccess "Voice message sent!" "Processing your request..."] /\
    pending 1 w1 = true /\
    times_out 1 w1 = (Return tt, w2) /\
    log w2 = log w1 ++ [timed_out_notice] /\
    isProcessingVoice (view w2) = false /\
    session_state w2 = processing /\
    session_state w2 <> idle_state /\
    arrives 2 SessionSamples.spoken w2 = (Return tt, w3) /\
    log w3 = log w2 ++ [PlayAudioFromBase64 "//uQxAAAAAAA"].
Proof.
  destruct (timeout_does_not_return_to_idle 1 1 SessionSamples.recording_view
              (SessionSamples.browser SessionSamples.short_clip)
              SessionSamples.short_clip "GkXfo59ChoEBQveBAULygQRC"
              SessionSamples.start)
    as (seen & w1 & w2 & Hrun & Hlog & Hpending & Hfire & Hlog2 & Hflag & _
        & Hstate & Hidle & Hlate).
  - reflexivity.
  - reflexivity.
  - reflexivity.
  - vm_compute. discriminate.
  - reflexivity.
  - reflexivity.
  - reflexivity.
  - destruct (Hlate 2 SessionSamples.spoken) as (w3 & Hrun3 & Hlog3).
    + reflexivity.
    + discriminate.
    + discriminate.
    + exists seen, w1, w2, w3.
      split; [exact Hrun|]. split; [exact Hlog|]. split; [exact Hpending|].
      split; [exact Hfire|]. split; [exact Hlog2|]. split; [exact Hflag|].
      split; [exact Hstate|]. split; [exact Hidle|].
      split; [exact Hrun3 | exact Hlog3].
Defined.

(** X16: on a first recording (the render holds no timer) nothing clears
    the timer that [handleVoiceRecordingComplete] registers: its [finally]
    block looks at the [processingTimeoutId] of its render, which is null,
    and the [cleanupAudio] that React runs when [processingTimeoutId]
    changes is the one of that same render. So on every path, and whatever
    renders happen at the [await] and after the handler, the handler leaves
    the effects it leaves on its own and the new timer is still pending;
    when it fires, the "Processing timed out" notice is shown, also after
    a submission that went through. *)
Theorem first_recording_keeps_its_timer (atAwait afterwards : nat) (c : View)
    (env : Env) (audioBlob : Blob) (w : World) :
  stream_isLoading c = false ->
  processingTimeoutId c = None ->
  processingTimeoutId (view w) = None ->
  exists seen w1 w2,
    finalise atAwait afterwards c env audioBlob None w = (Return seen, w1) /\
    log w1 = log (snd (handleVoiceRecordingComplete c env audioBlob w)) /\
    processingTimeoutId (view w1) = Some (nextTimer w) /\
    isProcessingVoice (view w1) = false /\
    pending (nextTimer w) w1 = true /\
    fire (nextTimer w) w1 = (Return tt, w2) /\
    log w2 = log w1 ++ [timed_out_notice].
Proof.
  intros Hload Hnone Hheld.
  destruct (finalise_first atAwait afterwards c env audioBlob w Hload Hnone Hheld)
    as (seen & w1 & Hrun & Hlog & Htimers & Hid & Hflag & _).
  assert (Hpending : pending (nextTimer w) w1 = true).
  { unfold pending. rewrite Htimers. apply SessionMoreFacts.pending_last. }
  destruct (SessionFacts.fire_pending (nextTimer w) w1 Hpending)
    as (w2 & Hfire & Hlog2 & _).
  exists seen, w1, w2. auto 10.
Qed.

Lemma first_recording_keeps_its_timer_witness :
  exists seen w1 w2,
    finalise 1 1 SessionSamples.recording_view
      (SessionSamples.browser SessionSamples.short_clip)
      SessionSamples.short_clip None SessionSamples.start = (Return seen, w1) /\
    processingTimeoutId (view w1) = Some 1 /\
    pending 1 w1 = true /\
    fire 1 w1 = (Return tt, w2) /\
    log w2 = log w1 ++ [timed_out_notice].
Proof.
  destruct (first_recording_keeps_its_timer 1 1 SessionSamples.recording_view
              (SessionSamples.browser SessionSamples.short_clip)
              SessionSamples.short_clip SessionSamples.start)
    as (seen & w1 & w2 & Hrun & _ & Hid & _ & Hpending & Hfire & Hlog).
  - reflexivity.
  - reflexivity.
  - reflexivity.
  - exists seen, w1, w2. auto.
Defined.

End LifecycleFacts.
